(** * Market-signal decision engine of the Layer-1 analysis bot

    A shallow embedding of the analytical core of the repository
    (mood classifier, volume-trend and correlation analytics, trigger
    engine, prediction tracker, rate-limited fetcher) together with the
    properties its specification states about it.

    Modelling conventions.
    - Python [float] and [int] market values are exact rationals ([Q]);
      Python's [==], [<], [<=] on numbers are [Qeq], [Qlt], [Qle].
      Rounding of binary floating point is not modelled.
    - A Python exception is a value [Raise e] of the [result] type; a
      [try ... except Exception] block is a [match] on that value.
    - Wall-clock instants ([datetime.now()], [time.time()]) are rationals,
      in seconds since the epoch, supplied by the environment.
    - A [dict] that is only looked up is a [gmap]; a [dict] whose iteration
      order is observable is an association list in insertion order. *)

From Stdlib Require Import QArith Qabs Lqa Lia ZArith String Ascii List.
From stdpp Require Import base option gmap strings list pretty.

Local Open Scope Q_scope.

(** ** Python primitives *)

Module Py.

Inductive exn : Type :=
| ZeroDivisionError
| KeyError (key : string)
| ValueError.

Inductive result (A : Type) : Type :=
| Ok (a : A)
| Raise (e : exn).
Arguments Ok {A} a.
Arguments Raise {A} e.

Definition bind {A B} (m : result A) (k : A -> result B) : result B :=
  match m with
  | Ok a => k a
  | Raise e => Raise e
  end.

(** Comparisons on numbers. *)
Definition ltb (x y : Q) : bool :=
  match x ?= y with Lt => true | _ => false end.
Definition leb (x y : Q) : bool :=
  match x ?= y with Gt => false | _ => true end.
Definition gtb (x y : Q) : bool := ltb y x.
Definition geb (x y : Q) : bool := leb y x.
Definition eqb (x y : Q) : bool :=
  match x ?= y with Eq => true | _ => false end.

(** [x / y]: raises [ZeroDivisionError] on a zero divisor. *)
Definition div (x y : Q) : result Q :=
  if eqb y 0 then Raise ZeroDivisionError else Ok (x / y).

(** [max(a, b)]: the first argument unless the second is greater. *)
Definition max (a b : Q) : Q := if gtb b a then b else a.

(** [max(items, key=key)]: the first item whose key is maximal;
    [ValueError] on an empty sequence. *)
Definition max_step {A} (key : A -> Z) (best item : A) : A :=
  if (key best <? key item)%Z then item else best.

Definition max_by_key {A} (key : A -> Z) (items : list A) : result A :=
  match items with
  | [] => Raise ValueError
  | x :: xs => Ok (fold_left (max_step key) xs x)
  end.

(** [statistics.mean] of a non-empty list. *)
Definition sum (xs : list Q) : Q := fold_left Qplus xs 0.
Definition mean (xs : list Q) : Q := sum xs / inject_Z (Z.of_nat (length xs)).

(** [str.upper] and [str.lower], on ASCII letters. *)
Definition upper_ascii (c : ascii) : ascii :=
  let n := nat_of_ascii c in
  if (97 <=? n)%nat && (n <=? 122)%nat then ascii_of_nat (n - 32) else c.
Definition lower_ascii (c : ascii) : ascii :=
  let n := nat_of_ascii c in
  if (65 <=? n)%nat && (n <=? 90)%nat then ascii_of_nat (n + 32) else c.

Fixpoint map_string (f : ascii -> ascii) (s : string) : string :=
  match s with
  | EmptyString => EmptyString
  | String c s' => String (f c) (map_string f s')
  end.

Definition upper : string -> string := map_string upper_ascii.
Definition lower : string -> string := map_string lower_ascii.

(** [int(x)] on a number: truncation towards zero. *)
Definition int (x : Q) : Z := Z.quot (Qnum x) (Z.pos (Qden x)).

(** [s[:n]]: the first [n] characters, or all but the last [-n] when [n]
    is negative. *)
Fixpoint take (k : nat) (s : string) : string :=
  match k, s with
  | S k', String c s' => String c (take k' s')
  | _, _ => EmptyString
  end.

Definition slice_to (s : string) (n : Z) : string :=
  if (0 <=? n)%Z then take (Z.to_nat n) s
  else take (Z.to_nat (Z.of_nat (String.length s) + n)) s.

(** [s.split(sep)] for a one-character separator. *)
Fixpoint split_on (sep : ascii) (s : string) : list string :=
  match s with
  | EmptyString => [EmptyString]
  | String c s' =>
      if Ascii.eqb c sep then EmptyString :: split_on sep s'
      else match split_on sep s' with
           | field :: fields => String c field :: fields
           | [] => [String c EmptyString]
           end
  end.

(** [sub in s] on strings. *)
Fixpoint contains (sub s : string) : bool :=
  String.prefix sub s ||
  match s with
  | EmptyString => false
  | String _ s' => contains sub s'
  end.

(** [str.strip()], on ASCII: tab, line feed, vertical tab, form feed,
    carriage return, the four separators 28 to 31 and the space are white. *)
Definition is_space (c : ascii) : bool :=
  let n := nat_of_ascii c in
  ((9 <=? n)%nat && (n <=? 13)%nat) || ((28 <=? n)%nat && (n <=? 32)%nat).

Fixpoint lstrip (s : string) : string :=
  match s with
  | EmptyString => EmptyString
  | String c s' => if is_space c then lstrip s' else s
  end.

Fixpoint rstrip (s : string) : string :=
  match s with
  | EmptyString => EmptyString
  | String c s' =>
      match rstrip s' with
      | EmptyString => if is_space c then EmptyString else String c EmptyString
      | r => String c r
      end
  end.

Definition strip (s : string) : string := lstrip (rstrip s).

(** Truthiness of a string. *)
Definition truthy_str (s : string) : bool :=
  match s with EmptyString => false | _ => true end.

End Py.

Notation "x <- m ;; k" := (Py.bind m (fun x => k))
  (at level 100, m at next level, right associativity).

(** ** mood_config.py: the mood classifier *)

Module MoodConfig.

Inductive Mood : Type := BULLISH | BEARISH | NEUTRAL | VOLATILE | RECOVERING.

#[global] Instance Mood_eq_dec : EqDecision Mood.
Proof. solve_decision. Defined.

(** [Mood.value] *)
Definition value (m : Mood) : string :=
  match m with
  | BULLISH => "bullish"
  | BEARISH => "bearish"
  | NEUTRAL => "neutral"
  | VOLATILE => "volatile"
  | RECOVERING => "recovering"
  end.

Record MoodIndicators : Type := {
  price_change : Q;
  trading_volume : Q;
  volatility : Q;
  social_sentiment : option Q;
  funding_rates : option Q;
  liquidation_volume : option Q
}.

(** The [mood_scores] dict, in insertion order. *)
Definition initial_scores : list (Mood * Z) :=
  [(BULLISH, 0%Z); (BEARISH, 0%Z); (NEUTRAL, 0%Z); (VOLATILE, 0%Z); (RECOVERING, 0%Z)].

(** [mood_scores[m] += k] *)
Definition add_score (m : Mood) (k : Z) (scores : list (Mood * Z)) : list (Mood * Z) :=
  map (fun it => if decide (fst it = m) then (fst it, (snd it + k)%Z) else it) scores.

(** [mood_scores[m]] *)
Fixpoint score_of (scores : list (Mood * Z)) (m : Mood) : Z :=
  match scores with
  | [] => 0%Z
  | it :: rest => if decide (fst it = m) then snd it else score_of rest m
  end.

Section Scoring.
Variable indicators : MoodIndicators.
Let pc := price_change indicators.
Let vol := volatility indicators.

Definition score_price_change (s : list (Mood * Z)) : list (Mood * Z) :=
  if Py.gtb pc 5 then add_score BULLISH 3 s
  else if Py.ltb pc (-5) then add_score BEARISH 3 s
  else if Py.leb (-2) pc && Py.leb pc 2 then add_score NEUTRAL 2 s
  else if Py.leb (-5) pc && Py.ltb pc (-2) then add_score RECOVERING 2 s
  else s.

Definition score_volatility (s : list (Mood * Z)) : list (Mood * Z) :=
  if Py.gtb vol 0.1 then add_score VOLATILE 3 s
  else if Py.ltb 0.05 vol && Py.leb vol 0.1 then add_score VOLATILE 1 s
  else s.

Definition score_volume (s : list (Mood * Z)) : list (Mood * Z) :=
  if Py.gtb (trading_volume indicators) 1.5e9 then
    let s1 := add_score VOLATILE 1 s in
    if Py.gtb pc 0 then add_score BULLISH 1 s1 else add_score BEARISH 1 s1
  else s.

Definition score_recovery (s : list (Mood * Z)) : list (Mood * Z) :=
  if Py.leb (-8) pc && Py.ltb pc (-2) && Py.ltb vol 0.08
  then add_score RECOVERING 2 s
  else s.

Definition score_social (s : list (Mood * Z)) : list (Mood * Z) :=
  match social_sentiment indicators with
  | Some x =>
      if Py.gtb x 0.7 then add_score BULLISH 1 s
      else if Py.ltb x 0.3 then add_score BEARISH 1 s
      else s
  | None => s
  end.

Definition score_funding (s : list (Mood * Z)) : list (Mood * Z) :=
  match funding_rates indicators with
  | Some f => if Py.gtb (Qabs f) 0.01 then add_score VOLATILE 1 s else s
  | None => s
  end.

Definition score_liquidation (s : list (Mood * Z)) : list (Mood * Z) :=
  match liquidation_volume indicators with
  | Some l =>
      if Py.gtb l 100e6 then add_score BEARISH 1 (add_score VOLATILE 2 s) else s
  | None => s
  end.

(** The accumulators when the final mood is chosen. *)
Definition mood_scores : list (Mood * Z) :=
  score_liquidation
    (score_funding
       (score_social
          (score_recovery
             (score_volume
                (score_volatility
                   (score_price_change initial_scores)))))).

(** [max(mood_scores.items(), key=lambda x: x[1])[0]] *)
Definition determine_advanced_mood : Py.result Mood :=
  best <- Py.max_by_key snd mood_scores ;;
  Py.Ok (fst best).

End Scoring.

End MoodConfig.

Import MoodConfig.

(** ** bot.py: trend analysis, correlations, trigger engine, predictions *)

Module Bot.

(** [d[k]] on a dict: [KeyError] when the key is missing. *)
Definition getitem {V} (d : gmap string V) (k : string) : Py.result V :=
  match d !! k with
  | Some v => Py.Ok v
  | None => Py.Raise (Py.KeyError k)
  end.

(** One chain's entry of the formatted market data. Only the fields read
    by the functions below are kept. *)
Record Snapshot : Type := {
  current_price : Q;
  volume : Q;
  price_change_percentage_24h : Q;
  market_cap : Q
}.

(** A row returned by [_get_historical_volume_data]. *)
Record VolumePoint : Type := {
  hv_timestamp : Q;
  hv_volume : Q
}.

(** The constants read from [self.config]. The module that defines them is
    not part of the sources, so they are parameters. *)
Record Config : Type := {
  PRICE_CHANGE_THRESHOLD : Q;
  VOLUME_CHANGE_THRESHOLD : Q;
  VOLUME_TREND_THRESHOLD : Q;
  BASE_INTERVAL : Q
}.

Record Correlations : Type := {
  price_correlation : Q;
  volume_correlation : Q;
  market_cap_ratio : Q
}.

(** The rows written by [store_correlation_analysis]. A failed insert is
    swallowed by the store itself and is not modelled. *)
Record Database : Type := {
  correlation_analysis : list Correlations
}.

Definition store_correlation_analysis (db : Database) (c : Correlations) : Database :=
  {| correlation_analysis := correlation_analysis db ++ [c] |}.

(** An entry of [self.past_predictions]. [p_prices] is iterated, so it is
    kept in insertion order. *)
Record Prediction : Type := {
  p_timestamp : Q;
  p_prediction : string;
  p_prices : list (string * Q);
  p_sentiment : gmap string string;
  p_outcome : option string
}.

(** The [prediction] argument of [_track_prediction]: the keys ['analysis']
    and ['sentiment'], and the remaining ['<SYM>_price'] keys. *)
Record PredictionData : Type := {
  analysis : string;
  sentiment : gmap string string;
  price_fields : gmap string Q
}.

Record BotState : Type := {
  past_predictions : list Prediction;
  last_check_time : Q;
  last_market_data : gmap string Snapshot
}.

Definition set_last_market_data (st : BotState) (d : gmap string Snapshot) : BotState :=
  {| past_predictions := past_predictions st;
     last_check_time := last_check_time st;
     last_market_data := d |}.

Definition set_past_predictions (st : BotState) (l : list Prediction) : BotState :=
  {| past_predictions := l;
     last_check_time := last_check_time st;
     last_market_data := last_market_data st |}.

(** [self.target_chains], in insertion order. *)
Definition target_chains : list (string * string) :=
  [("SOL", "solana"); ("DOT", "polkadot")].

(** *** _analyze_volume_trend *)

Section WithConfig.
Variable config : Config.

Definition trend_of (volume_change : Q) : string :=
  if Py.geb volume_change (VOLUME_TREND_THRESHOLD config) then "significant_increase"
  else if Py.leb volume_change (- VOLUME_TREND_THRESHOLD config) then "significant_decrease"
  else if Py.geb volume_change 5 then "moderate_increase"
  else if Py.leb volume_change (-5) then "moderate_decrease"
  else "stable".

(** The body of the [try] block. *)
Definition analyze_volume_trend_body (current_volume : Q)
    (historical_data : list VolumePoint) : Py.result (Q * string) :=
  let historical_volumes := map hv_volume historical_data in
  let avg_volume :=
    match historical_volumes with
    | [] => current_volume
    | _ => Py.mean historical_volumes
    end in
  q <- Py.div (current_volume - avg_volume) avg_volume ;;
  let volume_change := q * 100 in
  Py.Ok (volume_change, trend_of volume_change).

Definition _analyze_volume_trend (current_volume : Q)
    (historical_data : list VolumePoint) : Q * string :=
  match historical_data with
  | [] => (0, "insufficient_data")
  | _ =>
      match analyze_volume_trend_body current_volume historical_data with
      | Py.Ok r => r
      | Py.Raise _ => (0, "error")
      end
  end.

(** *** _should_post_update *)

(** The clock reading of the call and the rows [_get_historical_volume_data]
    returns for a chain (the empty list when the query fails). *)
Variable now : Q.
Variable _get_historical_volume_data : string -> list VolumePoint.

Definition is_significant (trend : string) : bool :=
  bool_decide (trend = "significant_increase" \/ trend = "significant_decrease").

(** The [for chain in self.target_chains.keys()] loop; the result is
    [trigger_reason] when the loop ends or breaks. *)
Fixpoint check_chains (last_data new_data : gmap string Snapshot)
    (chains : list string) : Py.result (option string) :=
  match chains with
  | [] => Py.Ok None
  | chain :: rest =>
      match new_data !! chain, last_data !! chain with
      | Some new, Some last =>
          pq <- Py.div (current_price new - current_price last) (current_price last) ;;
          let price_change := Qabs (pq * 100) in
          vq <- Py.div (volume new - volume last) (volume last) ;;
          let immediate_volume_change := Qabs (vq * 100) in
          if Py.geb price_change (PRICE_CHANGE_THRESHOLD config) then
            Py.Ok (Some ("price_change_" +:+ Py.lower chain))
          else if Py.geb immediate_volume_change (VOLUME_CHANGE_THRESHOLD config) then
            Py.Ok (Some ("volume_change_" +:+ Py.lower chain))
          else
            let historical_volume := _get_historical_volume_data chain in
            match historical_volume with
            | [] => check_chains last_data new_data rest
            | _ =>
                let trend := snd (_analyze_volume_trend (volume new) historical_volume) in
                if is_significant trend then
                  Py.Ok (Some ("volume_trend_" +:+ Py.lower chain +:+ "_" +:+ trend))
                else check_chains last_data new_data rest
            end
      | _, _ => check_chains last_data new_data rest
      end
  end.

(** [trigger_reason or "regular_interval"] *)
Definition or_regular_interval (trigger_reason : option string) : string :=
  match trigger_reason with
  | Some s => if Py.truthy_str s then s else "regular_interval"
  | None => "regular_interval"
  end.

Definition _should_post_update (st : BotState) (new_data : gmap string Snapshot)
    : BotState * Py.result (bool * option string) :=
  if (size (last_market_data st) =? 0)%nat then
    (set_last_market_data st new_data, Py.Ok (true, Some "initial_post"))
  else
    match check_chains (last_market_data st) new_data (map fst target_chains) with
    | Py.Raise e => (st, Py.Raise e)
    | Py.Ok reason =>
        let time_since_last := now - last_check_time st in
        let trigger_reason :=
          if Py.geb time_since_last (BASE_INTERVAL config)
          then Some (or_regular_interval reason)
          else reason in
        match trigger_reason with
        | Some _ => (set_last_market_data st new_data, Py.Ok (true, trigger_reason))
        | None => (st, Py.Ok (false, trigger_reason))
        end
    end.

End WithConfig.

(** *** _calculate_correlations *)

Definition fallback_correlations : Correlations :=
  {| price_correlation := 0; volume_correlation := 0; market_cap_ratio := 1 |}.

(** The body of the [try] block. *)
Definition calculate_correlations_body (db : Database)
    (market_data : gmap string Snapshot) : Py.result (Correlations * Database) :=
  sol_data <- getitem market_data "SOL" ;;
  dot_data <- getitem market_data "DOT" ;;
  price_delta <-
    Py.div
      (Qabs (price_change_percentage_24h sol_data - price_change_percentage_24h dot_data))
      (Py.max (Qabs (price_change_percentage_24h sol_data))
              (Qabs (price_change_percentage_24h dot_data))) ;;
  volume_quotient <-
    Py.div (volume sol_data - volume dot_data)
           (Py.max (volume sol_data) (volume dot_data)) ;;
  let volume_delta := Qabs volume_quotient in
  ratio <- Py.div (market_cap sol_data) (market_cap dot_data) ;;
  let correlations :=
    {| price_correlation := 1 - price_delta;
       volume_correlation := 1 - volume_delta;
       market_cap_ratio := ratio |} in
  Py.Ok (correlations, store_correlation_analysis db correlations).

Definition _calculate_correlations (db : Database)
    (market_data : gmap string Snapshot) : Correlations * Database :=
  match calculate_correlations_body db market_data with
  | Py.Ok r => r
  | Py.Raise _ => (fallback_correlations, db)
  end.

(** *** _track_prediction *)

(** [d[k] = v] on an insertion-ordered dict. *)
Fixpoint dict_set {V} (k : string) (v : V) (d : list (string * V)) : list (string * V) :=
  match d with
  | [] => [(k, v)]
  | (k', v') :: rest =>
      if decide (k' = k) then (k', v) :: rest else (k', v') :: dict_set k v rest
  end.

(** [{chain: prediction[f'{chain.upper()}_price'] for chain in relevant_chains}] *)
Fixpoint collect_prices (prediction : PredictionData) (relevant_chains : list string)
    (acc : list (string * Q)) : Py.result (list (string * Q)) :=
  match relevant_chains with
  | [] => Py.Ok acc
  | chain :: rest =>
      price <- getitem (price_fields prediction) (Py.upper chain +:+ "_price") ;;
      collect_prices prediction rest (dict_set chain price acc)
  end.

(** [now_append] is the clock reading stored in the new entry, [now_prune]
    the reading the ages are computed from. *)
Definition _track_prediction (now_append now_prune : Q) (st : BotState)
    (prediction : PredictionData) (relevant_chains : list string)
    : BotState * Py.result unit :=
  match collect_prices prediction relevant_chains [] with
  | Py.Raise e => (st, Py.Raise e)
  | Py.Ok current_prices =>
      let entry :=
        {| p_timestamp := now_append;
           p_prediction := analysis prediction;
           p_prices := current_prices;
           p_sentiment := sentiment prediction;
           p_outcome := None |} in
      let appended := past_predictions st ++ [entry] in
      let kept :=
        filter (fun p => Py.ltb (now_prune - p_timestamp p) 86400 = true) appended in
      (set_past_predictions st kept, Py.Ok tt)
  end.

(** *** _validate_past_prediction *)

Definition sentiment_map : gmap string Q :=
  <["bullish" := 1]> (<["bearish" := -1]> (<["neutral" := 0]> ∅)).

(** [sentiment_map.get(s, 0)] *)
Definition sentiment_sign (s : string) : Q := default 0 (sentiment_map !! s).

(** The [for chain, old_price in prediction['prices'].items()] loop. *)
Fixpoint wrong_chains_loop (prediction : Prediction) (current_prices : gmap string Q)
    (items : list (string * Q)) (wrong_chains : list string)
    : Py.result (list string) :=
  match items with
  | [] => Py.Ok wrong_chains
  | (chain, old_price) :: rest =>
      match current_prices !! chain with
      | Some current =>
          q <- Py.div (current - old_price) old_price ;;
          let price_change := q * 100 in
          s <- getitem (p_sentiment prediction) (Py.upper chain) ;;
          let chain_sentiment := sentiment_sign s in
          if Py.ltb (chain_sentiment * price_change) (-2)
          then wrong_chains_loop prediction current_prices rest (wrong_chains ++ [chain])
          else wrong_chains_loop prediction current_prices rest wrong_chains
      | None => wrong_chains_loop prediction current_prices rest wrong_chains
      end
  end.

Definition _validate_past_prediction (prediction : Prediction)
    (current_prices : gmap string Q) : Py.result string :=
  wrong_chains <- wrong_chains_loop prediction current_prices (p_prices prediction) [] ;;
  Py.Ok (match wrong_chains with [] => "right" | _ => "wrong" end).

(** *** _analyze_market_sentiment: the indicators of a chain

    The [MoodIndicators] built for each chain of [crypto_data] before the
    classifier is called. *)
Definition chain_indicators (data : Snapshot) : MoodIndicators :=
  {| price_change := price_change_percentage_24h data;
     trading_volume := volume data;
     volatility := Qabs (price_change_percentage_24h data) / 100;
     social_sentiment := None;
     funding_rates := None;
     liquidation_volume := None |}.

(** *** _get_spicy_callback *)

Definition set_outcome (p : Prediction) (o : option string) : Prediction :=
  {| p_timestamp := p_timestamp p;
     p_prediction := p_prediction p;
     p_prices := p_prices p;
     p_sentiment := p_sentiment p;
     p_outcome := o |}.

(** [p['timestamp'] > (datetime.now() - timedelta(hours=24))] *)
Definition is_recent (now : Q) (p : Prediction) : bool :=
  Py.gtb (p_timestamp p) (now - 86400).

(** The [for pred in recent_predictions] loop. The entries of
    [recent_predictions] are the very dicts of [self.past_predictions], so
    the assignment to [pred['outcome']] is an update of that list; when a
    validation raises, the outcomes assigned before it stay. *)
Fixpoint validate_pending (now : Q) (current_prices : gmap string Q)
    (predictions : list Prediction) : list Prediction * Py.result unit :=
  match predictions with
  | [] => ([], Py.Ok tt)
  | pred :: rest =>
      if is_recent now pred then
        match p_outcome pred with
        | None =>
            match _validate_past_prediction pred current_prices with
            | Py.Ok outcome =>
                let '(rest', r) := validate_pending now current_prices rest in
                (set_outcome pred (Some outcome) :: rest', r)
            | Py.Raise e => (pred :: rest, Py.Raise e)
            end
        | Some _ =>
            let '(rest', r) := validate_pending now current_prices rest in
            (pred :: rest', r)
        end
      else
        let '(rest', r) := validate_pending now current_prices rest in
        (pred :: rest', r)
  end.

(** The three templates, filled in. *)
Definition callbacks (time_ago : Z) (prediction : string) : list string :=
  [ "(Unlike my galaxy-brain take " +:+ pretty time_ago +:+ "h ago about "
      +:+ prediction +:+ "... this time I'm sure!)";
    "(Looks like my " +:+ pretty time_ago +:+ "h old prediction about "
      +:+ prediction +:+ " aged like milk. But trust me bro!)";
    "(That awkward moment when your " +:+ pretty time_ago +:+ "h old prediction of "
      +:+ prediction +:+ " was completely wrong... but this one's different!)" ].

(** [now] is the clock read by the filter, [now_ago] the later reading from
    which [time_ago] is computed, and [seed] stands for
    [hash(str(datetime.now()))]. *)
Definition _get_spicy_callback (now now_ago : Q) (seed : Z) (st : BotState)
    (current_prices : gmap string Q) : BotState * Py.result (option string) :=
  let recent_predictions :=
    filter (fun p => is_recent now p = true) (past_predictions st) in
  match recent_predictions with
  | [] => (st, Py.Ok None)
  | _ =>
      let '(updated, r) := validate_pending now current_prices (past_predictions st) in
      let st' := set_past_predictions st updated in
      match r with
      | Py.Raise e => (st', Py.Raise e)
      | Py.Ok _ =>
          let wrong_predictions :=
            filter (fun p => is_recent now p = true /\ p_outcome p = Some "wrong")
              updated in
          match last wrong_predictions with
          | Some worst_pred =>
              let time_ago := Py.int ((now_ago - p_timestamp worst_pred) / 3600) in
              (st', Py.Ok (callbacks time_ago (p_prediction worst_pred)
                             !! Z.to_nat (seed mod 3)))
          | None => (st', Py.Ok None)
          end
      end
  end.

(** *** _format_tweet_analysis *)

Definition newline : string := String "010"%char EmptyString.

Definition hashtags : string := "#SOL #DOT #Layer1 #L1Analysis".

(** [f"{analysis}\n\n{hashtags}"] *)
Definition with_hashtags (analysis : string) : string :=
  analysis +:+ newline +:+ newline +:+ hashtags.

(** [HARD_STOP_LENGTH] is [self.config.TWEET_CONSTRAINTS['HARD_STOP_LENGTH']];
    the [crypto_data] argument is not read. *)
Definition _format_tweet_analysis (HARD_STOP_LENGTH : Z) (analysis : string) : string :=
  let tweet := with_hashtags analysis in
  let max_length := (HARD_STOP_LENGTH - 20)%Z in
  if (max_length <? Z.of_nat (String.length tweet))%Z then
    let analysis' :=
      Py.slice_to analysis (max_length - Z.of_nat (String.length hashtags) - 23)
      +:+ "..." in
    with_hashtags analysis'
  else tweet.

(** *** _analyze_market_sentiment: reading the trigger type back

    [if "volume_trend" in trigger_type:] and, under it, the pair
    [(trigger_type.split('_')[2].upper(), trigger_type.split('_')[3])];
    [None] is the [IndexError] of a missing field. *)
Definition mentions_volume_trend (trigger_type : string) : bool :=
  Py.contains "volume_trend" trigger_type.

Definition triggered_chain_and_trend (trigger_type : string) : option (string * string) :=
  match Py.split_on "_"%char trigger_type !! 2%nat,
        Py.split_on "_"%char trigger_type !! 3%nat with
  | Some chain, Some trend_type => Some (Py.upper chain, trend_type)
  | _, _ => None
  end.

(** *** _is_duplicate_analysis

    [recent_posts] is what the query of [check_content_similarity]
    (database.py) yields: the contents posted within the last hour, or the
    exception that the method catches. *)
Definition check_content_similarity (recent_posts : Py.result (list string))
    (content : string) : bool :=
  match recent_posts with
  | Py.Ok posts =>
      existsb (fun post => String.eqb (Py.strip content) (Py.strip post)) posts
  | Py.Raise _ => false
  end.

Definition _is_duplicate_analysis (recent_posts : Py.result (list string))
    (new_tweet : string) (last_posts : list string) : bool :=
  if check_content_similarity recent_posts new_tweet then true
  else existsb (fun post => String.eqb (Py.strip post) (Py.strip new_tweet)) last_posts.

End Bot.

(** ** config.py: the rate-limited CoinGecko handler *)

Module CoinGecko.

(** A response header that is read with [int(...)]. *)
Inductive Header : Type :=
| Absent
| IntValue (n : Z)
| Malformed.

Record Response : Type := {
  status_code : Z;
  x_ratelimit_remaining : Header;
  x_ratelimit_reset : Header;
  json : option string
}.

(** What [self.session.get] does on one attempt. *)
Inductive Outcome : Type :=
| Responded (r : Response)
| TimedOut
| OtherException.

Record CacheEntry : Type := {
  data : string;
  timestamp : Q
}.

(** The handler together with its surroundings: the clock, the arguments
    of the [time.sleep] calls, oldest first, and the timestamps that
    [datetime.fromtimestamp] accepts on the host, a set that depends on the
    C library and on the local time zone. *)
Record Handler : Type := {
  clock : Q;
  slept : list Q;
  timestamp_ok : Z -> bool;
  last_request_time : Q;
  min_request_interval : Q;
  cache_duration : Q;
  cache : gmap string CacheEntry;
  rate_limit_remaining : option Z;
  rate_limit_reset_at : option Q;
  daily_requests : Z;
  daily_reset_time : Q;
  failed_requests : Z
}.

(** [__init__] at clock reading [t], on a host that accepts the timestamps
    [host]. *)
Definition init (host : Z -> bool) (t : Q) (duration : Q) : Handler :=
  {| clock := t; slept := []; timestamp_ok := host;
     last_request_time := 0; min_request_interval := 6;
     cache_duration := duration; cache := ∅;
     rate_limit_remaining := None; rate_limit_reset_at := None;
     daily_requests := 0; daily_reset_time := t; failed_requests := 0 |}.

(** [time.sleep(seconds)] *)
Definition sleep (seconds : Q) (h : Handler) : Handler :=
  {| clock := clock h + seconds; slept := slept h ++ [seconds];
     timestamp_ok := timestamp_ok h;
     last_request_time := last_request_time h;
     min_request_interval := min_request_interval h;
     cache_duration := cache_duration h; cache := cache h;
     rate_limit_remaining := rate_limit_remaining h;
     rate_limit_reset_at := rate_limit_reset_at h;
     daily_requests := daily_requests h;
     daily_reset_time := daily_reset_time h;
     failed_requests := failed_requests h |}.

Definition set_rate_limit_remaining (v : option Z) (h : Handler) : Handler :=
  {| clock := clock h; slept := slept h;
     timestamp_ok := timestamp_ok h;
     last_request_time := last_request_time h;
     min_request_interval := min_request_interval h;
     cache_duration := cache_duration h; cache := cache h;
     rate_limit_remaining := v;
     rate_limit_reset_at := rate_limit_reset_at h;
     daily_requests := daily_requests h;
     daily_reset_time := daily_reset_time h;
     failed_requests := failed_requests h |}.

Definition set_rate_limit_reset_at (v : option Q) (h : Handler) : Handler :=
  {| clock := clock h; slept := slept h;
     timestamp_ok := timestamp_ok h;
     last_request_time := last_request_time h;
     min_request_interval := min_request_interval h;
     cache_duration := cache_duration h; cache := cache h;
     rate_limit_remaining := rate_limit_remaining h;
     rate_limit_reset_at := v;
     daily_requests := daily_requests h;
     daily_reset_time := daily_reset_time h;
     failed_requests := failed_requests h |}.

Definition set_counters (requests failed : Z) (reset_time : Q) (h : Handler) : Handler :=
  {| clock := clock h; slept := slept h;
     timestamp_ok := timestamp_ok h;
     last_request_time := last_request_time h;
     min_request_interval := min_request_interval h;
     cache_duration := cache_duration h; cache := cache h;
     rate_limit_remaining := rate_limit_remaining h;
     rate_limit_reset_at := rate_limit_reset_at h;
     daily_requests := requests;
     daily_reset_time := reset_time;
     failed_requests := failed |}.

Definition set_last_request_time (t : Q) (h : Handler) : Handler :=
  {| clock := clock h; slept := slept h;
     timestamp_ok := timestamp_ok h;
     last_request_time := t;
     min_request_interval := min_request_interval h;
     cache_duration := cache_duration h; cache := cache h;
     rate_limit_remaining := rate_limit_remaining h;
     rate_limit_reset_at := rate_limit_reset_at h;
     daily_requests := daily_requests h;
     daily_reset_time := daily_reset_time h;
     failed_requests := failed_requests h |}.

Definition set_cache (c : gmap string CacheEntry) (h : Handler) : Handler :=
  {| clock := clock h; slept := slept h;
     timestamp_ok := timestamp_ok h;
     last_request_time := last_request_time h;
     min_request_interval := min_request_interval h;
     cache_duration := cache_duration h; cache := c;
     rate_limit_remaining := rate_limit_remaining h;
     rate_limit_reset_at := rate_limit_reset_at h;
     daily_requests := daily_requests h;
     daily_reset_time := daily_reset_time h;
     failed_requests := failed_requests h |}.

Definition count_failure (h : Handler) : Handler :=
  set_counters (daily_requests h) (failed_requests h + 1) (daily_reset_time h) h.

(** [int(response.headers.get(name, 0))] *)
Definition int_header (v : Header) : Py.result Z :=
  match v with
  | Absent => Py.Ok 0%Z
  | IntValue n => Py.Ok n
  | Malformed => Py.Raise Py.ValueError
  end.

(** [datetime.fromtimestamp(n)] on a host that accepts the timestamps
    [accepted]. Outside that set the call raises ValueError, OverflowError
    or OSError; the one caller catches [Exception], so the kind is not
    observed. *)
Definition fromtimestamp (accepted : Z -> bool) (n : Z) : Py.result Q :=
  if accepted n then Py.Ok (inject_Z n) else Py.Raise Py.ValueError.

Definition _update_rate_limits (response : Response) (h : Handler) : Handler :=
  match int_header (x_ratelimit_remaining response) with
  | Py.Raise _ => h
  | Py.Ok remaining =>
      let h1 := set_rate_limit_remaining (Some remaining) h in
      match reset_time <- int_header (x_ratelimit_reset response) ;;
            fromtimestamp (timestamp_ok h) reset_time with
      | Py.Raise _ => h1
      | Py.Ok reset_at => set_rate_limit_reset_at (Some reset_at) h1
      end
  end.

Definition _should_use_cache (cache_key : string) (h : Handler) : bool :=
  match cache h !! cache_key with
  | None => false
  | Some cache_entry => Py.ltb (clock h - timestamp cache_entry) (cache_duration h)
  end.

Definition _cache_response (cache_key : string) (d : string) (h : Handler) : Handler :=
  set_cache (<[cache_key := {| data := d; timestamp := clock h |}]> (cache h)) h.

Definition _wait_for_rate_limit (h : Handler) : Handler :=
  let time_since_last_request := clock h - last_request_time h in
  let h1 :=
    if Py.ltb time_since_last_request (min_request_interval h)
    then sleep (min_request_interval h - time_since_last_request) h
    else h in
  if Py.geb (clock h1 - daily_reset_time h1) 86400
  then set_counters 0 0 (clock h1) h1
  else h1.

Definition rate_limit_wait_time (h : Handler) : Q :=
  match rate_limit_reset_at h with
  | Some reset_at => Py.max 1 (reset_at - clock h + 1)
  | None => 60
  end.

Definition _handle_rate_limit_response (h : Handler) : Handler :=
  sleep (rate_limit_wait_time h) h.

Definition base_wait : Q := 5.

Definition backoff (retry_count : nat) : Q :=
  base_wait * inject_Z (2 ^ Z.of_nat retry_count).

(** The [while retry_count < max_retries] loop of [get_market_data]:
    [remaining] is [max_retries - retry_count], and [network n] is what the
    request of attempt [n] meets. *)
Fixpoint request_loop (network : nat -> Outcome) (cache_key : string)
    (remaining retry_count : nat) (h : Handler) : Handler * option string :=
  match remaining with
  | O => (h, None)
  | S remaining' =>
      let h1 := _wait_for_rate_limit h in
      let h2 := set_last_request_time (clock h1) h1 in
      let h3 := set_counters (daily_requests h2 + 1) (failed_requests h2)
                  (daily_reset_time h2) h2 in
      match network retry_count with
      | Responded response =>
          let h4 := _update_rate_limits response h3 in
          if (status_code response =? 200)%Z then
            match json response with
            | Some d => (_cache_response cache_key d h4, Some d)
            | None => (count_failure h4, None)
            end
          else if (status_code response =? 429)%Z then
            let h5 := _handle_rate_limit_response (count_failure h4) in
            request_loop network cache_key remaining' (S retry_count) h5
          else
            let h5 := sleep (backoff retry_count) (count_failure h4) in
            request_loop network cache_key remaining' (S retry_count) h5
      | TimedOut =>
          let h4 := sleep (backoff retry_count) (count_failure h3) in
          request_loop network cache_key remaining' (S retry_count) h4
      | OtherException => (count_failure h3, None)
      end
  end.

Definition get_market_data (network : nat -> Outcome) (cache_key : string)
    (max_retries : nat) (h : Handler) : Handler * option string :=
  if _should_use_cache cache_key h then (h, data <$> cache h !! cache_key)
  else request_loop network cache_key max_retries 0 h.

(** [_clean_old_cache]: the entries whose age exceeds [cache_duration] are
    deleted. *)
Definition expired (h : Handler) (entry : CacheEntry) : bool :=
  Py.gtb (clock h - timestamp entry) (cache_duration h).

Definition _clean_old_cache (h : Handler) : Handler :=
  set_cache (filter (fun kv => expired h (snd kv) = false) (cache h)) h.

(** The handler when the clock reads [t]: time that passes between calls. *)
Definition at_time (t : Q) (h : Handler) : Handler :=
  {| clock := t; slept := slept h;
     timestamp_ok := timestamp_ok h;
     last_request_time := last_request_time h;
     min_request_interval := min_request_interval h;
     cache_duration := cache_duration h; cache := cache h;
     rate_limit_remaining := rate_limit_remaining h;
     rate_limit_reset_at := rate_limit_reset_at h;
     daily_requests := daily_requests h;
     daily_reset_time := daily_reset_time h;
     failed_requests := failed_requests h |}.

End CoinGecko.

Import Bot.

(** ** Notions of the specification

    The priority order of the tie-break:
    bullish > bearish > neutral > volatile > recovering. *)
Definition rank (m : Mood) : nat :=
  match m with
  | BULLISH => 0
  | BEARISH => 1
  | NEUTRAL => 2
  | VOLATILE => 3
  | RECOVERING => 4
  end.

(** The sign of a recorded sentiment, as the specification words it: +1 for
    bullish, -1 for bearish, 0 for neutral (and for anything else). *)
Definition sentimentSign (s : string) : Q :=
  if decide (s = "bullish") then 1
  else if decide (s = "bearish") then -1
  else 0.

(** [chain] counts as wrong: it is in the prediction and in the current
    prices, and sentimentSign * priceChangePct < -2. *)
Definition chain_is_wrong (prediction : Prediction) (current_prices : gmap string Q)
    (chain : string) : Prop :=
  exists old current s,
    In (chain, old) (p_prices prediction) /\
    current_prices !! chain = Some current /\
    p_sentiment prediction !! Py.upper chain = Some s /\
    sentimentSign s * ((current - old) / old * 100) < -2.

(** The chains the validation loop visits have a non-zero recorded price
    and a recorded sentiment. *)
Definition validatable (prediction : Prediction) (current_prices : gmap string Q) : Prop :=
  forall chain old,
    In (chain, old) (p_prices prediction) ->
    is_Some (current_prices !! chain) ->
    ~ old == 0 /\ is_Some (p_sentiment prediction !! Py.upper chain).

(** Some chain the validation loop visits has a zero recorded price. *)
Definition zero_price_recorded (prediction : Prediction)
    (current_prices : gmap string Q) : Prop :=
  exists chain old,
    In (chain, old) (p_prices prediction) /\
    is_Some (current_prices !! chain) /\ old == 0.

(** How an entry may differ after the validation loop: not at all, or it
    was recent and pending and now carries the outcome of its validation. *)
Definition outcome_step (now : Q) (current_prices : gmap string Q)
    (p p' : Prediction) : Prop :=
  p' = p \/
  (p_outcome p = None /\ is_recent now p = true /\
   exists o, _validate_past_prediction p current_prices = Py.Ok o /\
             p' = set_outcome p (Some o)).

(** An attempt after which the fetch loop tries again: an answer with a
    status other than 200, or a timeout. *)
Definition retryable (outcome : CoinGecko.Outcome) : Prop :=
  match outcome with
  | CoinGecko.Responded r => CoinGecko.status_code r <> 200%Z
  | CoinGecko.TimedOut => True
  | CoinGecko.OtherException => False
  end.

(** A string of white characters only. *)
Fixpoint blank (s : string) : Prop :=
  match s with
  | EmptyString => True
  | String c s' => Py.is_space c = true /\ blank s'
  end.

(** ** Sample data *)

(** The indicators of the tie-break test: nothing moved, volume not high,
    no optional indicator. *)
Definition flat_market : MoodIndicators :=
  {| price_change := 0; trading_volume := 0; volatility := 0;
     social_sentiment := None; funding_rates := None;
     liquidation_volume := None |}.

(** Up 15 %: the bullish and the volatile accumulators both reach 3. *)
Definition tied_market : MoodIndicators :=
  {| price_change := 15; trading_volume := 0; volatility := 0.15;
     social_sentiment := None; funding_rates := None;
     liquidation_volume := None |}.

Definition sample_config : Config :=
  {| PRICE_CHANGE_THRESHOLD := 5;
     VOLUME_CHANGE_THRESHOLD := 10;
     VOLUME_TREND_THRESHOLD := 10;
     BASE_INTERVAL := 3600 |}.

Definition point (v : Q) : VolumePoint := {| hv_timestamp := 0; hv_volume := v |}.

Definition snapshot (price vol change cap : Q) : Snapshot :=
  {| current_price := price; volume := vol;
     price_change_percentage_24h := change; market_cap := cap |}.

(** SOL up 5 %, DOT down 5 %. *)
Definition opposite_moves : gmap string Snapshot :=
  <["SOL" := snapshot 100 1000 5 50000]> (<["DOT" := snapshot 10 1000 (-5) 10000]> ∅).

(** SOL and DOT both up 5 %. *)
Definition equal_moves : gmap string Snapshot :=
  <["SOL" := snapshot 100 1000 5 50000]> (<["DOT" := snapshot 10 1000 5 10000]> ∅).

Definition empty_db : Database := {| correlation_analysis := [] |}.

Definition no_history (chain : string) : list VolumePoint := [].

(** A baseline, and new data in which SOL moved from 100 to 101. *)
Definition baseline : gmap string Snapshot :=
  <["SOL" := snapshot 100 1000 1 50000]> (<["DOT" := snapshot 10 1000 1 10000]> ∅).

Definition small_move : gmap string Snapshot :=
  <["SOL" := snapshot 101 1000 1 50000]> (<["DOT" := snapshot 10 1000 1 10000]> ∅).

Definition bot_with_baseline : BotState :=
  {| past_predictions := []; last_check_time := 0; last_market_data := baseline |}.

(** New data in which SOL moved from 100 to 105, the price threshold. *)
Definition threshold_move : gmap string Snapshot :=
  <["SOL" := snapshot 105 1000 1 50000]> (<["DOT" := snapshot 10 1000 1 10000]> ∅).

Definition fresh_bot : BotState :=
  {| past_predictions := []; last_check_time := 0; last_market_data := ∅ |}.

(** A prediction made at instant 0, and the data of a new one. *)
Definition old_prediction : Prediction :=
  {| p_timestamp := 0; p_prediction := "SOL to the moon";
     p_prices := [("SOL", 100)];
     p_sentiment := <["SOL" := "bullish"]> ∅;
     p_outcome := None |}.

Definition bot_with_prediction : BotState :=
  {| past_predictions := [old_prediction]; last_check_time := 0;
     last_market_data := baseline |}.

Definition new_prediction : PredictionData :=
  {| analysis := "DOT looks tired";
     sentiment := <["SOL" := "neutral"]> (<["DOT" := "bearish"]> ∅);
     price_fields := <["SOL_price" := 101]> (<["DOT_price" := 10]> ∅) |}.

(** Bullish on SOL at 100; SOL is now at 95. *)
Definition prices_after_drop : gmap string Q := <["SOL" := 95]> ∅.

(** A prediction that recorded a price of zero. *)
Definition zero_price_prediction (mood : string) : Prediction :=
  {| p_timestamp := 0; p_prediction := "SOL is free";
     p_prices := [("SOL", 0)];
     p_sentiment := <["SOL" := mood]> ∅;
     p_outcome := None |}.

(** Volatile on SOL at 100, recovering on DOT at 10. *)
Definition unsigned_prediction : Prediction :=
  {| p_timestamp := 0; p_prediction := "wild ride";
     p_prices := [("SOL", 100); ("DOT", 10)];
     p_sentiment := <["SOL" := "volatile"]> (<["DOT" := "recovering"]> ∅);
     p_outcome := None |}.

Definition prices_after_crash : gmap string Q := <["SOL" := 1]> (<["DOT" := 1000]> ∅).

(** A 429 response without rate-limit headers, and one that names the
    reset instant. *)
Definition bare_429 : CoinGecko.Response :=
  {| CoinGecko.status_code := 429;
     CoinGecko.x_ratelimit_remaining := CoinGecko.Absent;
     CoinGecko.x_ratelimit_reset := CoinGecko.Absent;
     CoinGecko.json := None |}.

Definition timed_429 (reset : Z) : CoinGecko.Response :=
  {| CoinGecko.status_code := 429;
     CoinGecko.x_ratelimit_remaining := CoinGecko.IntValue 0;
     CoinGecko.x_ratelimit_reset := CoinGecko.IntValue reset;
     CoinGecko.json := None |}.

Definition server_error : CoinGecko.Response :=
  {| CoinGecko.status_code := 500;
     CoinGecko.x_ratelimit_remaining := CoinGecko.Absent;
     CoinGecko.x_ratelimit_reset := CoinGecko.Absent;
     CoinGecko.json := None |}.

(** The timestamps [datetime.fromtimestamp] accepts on a Linux host whose
    local time zone is UTC: the years 1 to 9999 less the first day. *)
Definition utc_host (n : Z) : bool :=
  ((-62135510400 <=? n) && (253402300799 >=? n))%Z.

(** A handler created at 1 700 000 000 s on that host, 60 s cache. *)
Definition fresh_handler : CoinGecko.Handler :=
  CoinGecko.init utc_host 1700000000 60.

(** SOL up 15 %, and DOT down 3 %. *)
Definition rising_chain : Snapshot := snapshot 100 1000 15 50000.
Definition dipping_chain : Snapshot := snapshot 10 1000 (-3) 10000.

(** The opposite moves with the two chains exchanged. *)
Definition opposite_moves_swapped : gmap string Snapshot :=
  <["SOL" := snapshot 10 1000 (-5) 10000]> (<["DOT" := snapshot 100 1000 5 50000]> ∅).

(** A baseline in which SOL has no volume. *)
Definition bot_with_zero_volume : BotState :=
  {| past_predictions := []; last_check_time := 0;
     last_market_data := <["SOL" := snapshot 100 0 1 50000]> ∅ |}.

(** A prediction already judged, and a tracker holding it. *)
Definition judged_prediction : Prediction := set_outcome old_prediction (Some "right").

Definition bot_with_judged_prediction : BotState :=
  {| past_predictions := [judged_prediction]; last_check_time := 0;
     last_market_data := baseline |}.

(** A 200 answer. *)
Definition ok_response : CoinGecko.Response :=
  {| CoinGecko.status_code := 200;
     CoinGecko.x_ratelimit_remaining := CoinGecko.IntValue 29;
     CoinGecko.x_ratelimit_reset := CoinGecko.IntValue 1700000060;
     CoinGecko.json := Some "[]" |}.

(** A handler whose cache holds an entry stamped 30 s before its clock. *)
Definition warm_handler : CoinGecko.Handler :=
  CoinGecko.at_time 1700000030
    (CoinGecko._cache_response "markets_{}" "[]" fresh_handler).

(** Rows for SOL only, with a mean volume of 500; and new data in which
    SOL moved from 100 to 101 while DOT doubled. *)
Definition sol_volume_history (chain : string) : list VolumePoint :=
  if String.eqb chain "SOL" then [point 400; point 600] else [].

Definition dot_jump : gmap string Snapshot :=
  <["SOL" := snapshot 101 1000 1 50000]> (<["DOT" := snapshot 20 1000 1 10000]> ∅).

(** * Properties *)

(** Facts about the primitives. *)

Lemma ltb_spec (x y : Q) : Py.ltb x y = true <-> x < y.
Proof.
  unfold Py.ltb. rewrite Qlt_alt. destruct (x ?= y); split; congruence.
Qed.

Lemma ltb_false (x y : Q) : Py.ltb x y = false <-> y <= x.
Proof.
  rewrite <- not_true_iff_false, ltb_spec. split; [apply Qnot_lt_le | apply Qle_not_lt].
Qed.

Lemma leb_spec (x y : Q) : Py.leb x y = true <-> x <= y.
Proof.
  unfold Py.leb. rewrite Qle_alt. destruct (x ?= y); split; congruence.
Qed.

Lemma leb_false (x y : Q) : Py.leb x y = false <-> y < x.
Proof.
  rewrite <- not_true_iff_false, leb_spec. split; [apply Qnot_le_lt | apply Qlt_not_le].
Qed.

Lemma gtb_spec (x y : Q) : Py.gtb x y = true <-> y < x.
Proof. apply ltb_spec. Qed.

Lemma gtb_false (x y : Q) : Py.gtb x y = false <-> x <= y.
Proof. apply ltb_false. Qed.

Lemma geb_spec (x y : Q) : Py.geb x y = true <-> y <= x.
Proof. apply leb_spec. Qed.

Lemma geb_false (x y : Q) : Py.geb x y = false <-> x < y.
Proof. apply leb_false. Qed.

Lemma eqb_spec (x y : Q) : Py.eqb x y = true <-> x == y.
Proof.
  unfold Py.eqb. rewrite Qeq_alt. destruct (x ?= y); split; congruence.
Qed.

Lemma eqb_false (x y : Q) : Py.eqb x y = false <-> ~ x == y.
Proof. rewrite <- not_true_iff_false, eqb_spec. reflexivity. Qed.

Lemma div_ok (x y : Q) : ~ y == 0 -> Py.div x y = Py.Ok (x / y).
Proof. intros H. unfold Py.div. apply eqb_false in H. rewrite H. reflexivity. Qed.

Lemma div_zero (x y : Q) : y == 0 -> Py.div x y = Py.Raise Py.ZeroDivisionError.
Proof. intros H. unfold Py.div. apply eqb_spec in H. rewrite H. reflexivity. Qed.

(** The item chosen by [max(..., key=...)] splits the sequence: every item
    before it has a strictly smaller key, every item after it a key that is
    not larger. *)
Lemma max_fold_first {A} (key : A -> Z) (xs : list A) (x : A) :
  exists pre post,
    x :: xs = pre ++ fold_left (Py.max_step key) xs x :: post /\
    Forall (fun y => (key y < key (fold_left (Py.max_step key) xs x))%Z) pre /\
    Forall (fun y => (key y <= key (fold_left (Py.max_step key) xs x))%Z) post.
Proof.
  revert x. induction xs as [|a xs IH]; intros x; simpl.
  - exists [], []. repeat split; constructor.
  - destruct (Z.ltb_spec (key x) (key a)) as [Hlt|Hge].
    + replace (Py.max_step key x a) with a
        by (unfold Py.max_step; apply Z.ltb_lt in Hlt; rewrite Hlt; reflexivity).
      destruct (IH a) as (pre & post & E & Hpre & Hpost).
      remember (fold_left (Py.max_step key) xs a) as r eqn:Hr; clear Hr.
      exists (x :: pre), post. split; [simpl; f_equal; exact E|].
      split; [|exact Hpost]. constructor; [|exact Hpre].
      destruct pre as [|p pre]; simpl in E; injection E as E1 E2.
      * rewrite <- E1. exact Hlt.
      * subst p. inversion Hpre; subst; lia.
    + replace (Py.max_step key x a) with x
        by (unfold Py.max_step; apply Z.ltb_ge in Hge; rewrite Hge; reflexivity).
      destruct (IH x) as (pre & post & E & Hpre & Hpost).
      remember (fold_left (Py.max_step key) xs x) as r eqn:Hr; clear Hr.
      destruct pre as [|p pre]; simpl in E; injection E as E1 E2.
      * exists [], (a :: post). split; [simpl; congruence|].
        split; [constructor|]. constructor; [rewrite <- E1; lia | exact Hpost].
      * subst p. exists (x :: a :: pre), post.
        split; [simpl; congruence|]. split; [|exact Hpost].
        inversion Hpre; subst. repeat constructor; try assumption; lia.
Qed.

(** Case analysis on the next numeric test of the goal. *)
Ltac q_case :=
  match goal with
  | |- context [Py.gtb ?a ?b] =>
      let E := fresh "E" in
      destruct (Py.gtb a b) eqn:E; [apply gtb_spec in E | apply gtb_false in E]
  | |- context [Py.geb ?a ?b] =>
      let E := fresh "E" in
      destruct (Py.geb a b) eqn:E; [apply geb_spec in E | apply geb_false in E]
  | |- context [Py.ltb ?a ?b] =>
      let E := fresh "E" in
      destruct (Py.ltb a b) eqn:E; [apply ltb_spec in E | apply ltb_false in E]
  | |- context [Py.leb ?a ?b] =>
      let E := fresh "E" in
      destruct (Py.leb a b) eqn:E; [apply leb_spec in E | apply leb_false in E]
  end.

Lemma add_score_keys m k s : map fst (add_score m k s) = map fst s.
Proof.
  unfold add_score. induction s as [|it s IH]; simpl; [reflexivity|].
  rewrite IH. destruct (decide (fst it = m)); reflexivity.
Qed.

Lemma mood_scores_keys ind :
  map fst (mood_scores ind) = [BULLISH; BEARISH; NEUTRAL; VOLATILE; RECOVERING].
Proof.
  unfold mood_scores, score_liquidation, score_funding, score_social,
    score_recovery, score_volume, score_volatility, score_price_change.
  repeat match goal with
         | |- context [match ?o with Some _ => _ | None => _ end] => destruct o
         | |- context [if ?b then _ else _] => destruct b
         end;
    rewrite ?add_score_keys; reflexivity.
Qed.

Lemma mood_scores_shape ind :
  exists a b c d e,
    mood_scores ind =
      [(BULLISH, a); (BEARISH, b); (NEUTRAL, c); (VOLATILE, d); (RECOVERING, e)].
Proof.
  pose proof (mood_scores_keys ind) as H.
  destruct (mood_scores ind) as [|[m1 a] [|[m2 b] [|[m3 c] [|[m4 d] [|[m5 e] [|? ?]]]]]];
    simpl in H; try discriminate.
  injection H as -> -> -> -> ->. eauto 6.
Qed.

(** *** The chosen mood *)

(** C4. For every input the classifier returns one mood; its accumulated
    score is the highest of the five, and every mood that precedes it in the
    priority order bullish > bearish > neutral > volatile > recovering has a
    strictly smaller score, so among moods tied for the maximum the earliest
    in that order is returned. *)
Theorem determine_advanced_mood_highest_first (ind : MoodIndicators) :
  exists m,
    determine_advanced_mood ind = Py.Ok m /\
    (forall m', (score_of (mood_scores ind) m' <= score_of (mood_scores ind) m)%Z) /\
    (forall m', (rank m' < rank m)%nat ->
                (score_of (mood_scores ind) m' < score_of (mood_scores ind) m)%Z) /\
    (forall m', score_of (mood_scores ind) m' = score_of (mood_scores ind) m ->
                (rank m <= rank m')%nat).
Proof.
  unfold determine_advanced_mood.
  destruct (mood_scores_shape ind) as (a & b & c & d & e & ->).
  unfold Py.max_by_key, Py.bind.
  match goal with
  | |- context [fold_left ?f ?xs ?x] =>
      destruct (max_fold_first snd xs x) as (pre & post & E & Hpre & Hpost);
      remember (fold_left f xs x) as r eqn:Hr; clear Hr
  end.
  exists (fst r). split; [reflexivity|].
  assert (Hcases :
    (forall m', (score_of [(BULLISH, a); (BEARISH, b); (NEUTRAL, c); (VOLATILE, d); (RECOVERING, e)] m'
                 <= score_of [(BULLISH, a); (BEARISH, b); (NEUTRAL, c); (VOLATILE, d); (RECOVERING, e)] (fst r))%Z) /\
    (forall m', (rank m' < rank (fst r))%nat ->
                (score_of [(BULLISH, a); (BEARISH, b); (NEUTRAL, c); (VOLATILE, d); (RECOVERING, e)] m'
                 < score_of [(BULLISH, a); (BEARISH, b); (NEUTRAL, c); (VOLATILE, d); (RECOVERING, e)] (fst r))%Z)).
  { destruct pre as [|p1 [|p2 [|p3 [|p4 [|p5 pre]]]]]; simpl in E;
      simplify_eq; simpl;
      repeat match goal with
             | H : Forall _ (_ :: _) |- _ => apply Forall_cons in H; destruct H
             | H : Forall _ [] |- _ => clear H
             end; simpl in *;
      try (destruct pre; discriminate);
      split; intros m'; destruct m'; simpl; intros; lia. }
  destruct Hcases as [Hmax Hfirst]. repeat split; [exact Hmax | exact Hfirst |].
  intros m' Heq. destruct (le_lt_dec (rank (fst r)) (rank m')) as [|Hlt]; [assumption|].
  specialize (Hfirst m' Hlt). lia.
Qed.

Lemma determine_advanced_mood_highest_first_witness :
  determine_advanced_mood tied_market = Py.Ok BULLISH /\
  score_of (mood_scores tied_market) VOLATILE = score_of (mood_scores tied_market) BULLISH /\
  (rank BULLISH <= rank VOLATILE)%nat.
Proof.
  destruct (determine_advanced_mood_highest_first tied_market)
    as (m & Hm & _ & _ & Htie).
  assert (Hb : m = BULLISH) by (vm_compute in Hm; congruence).
  subst m. split; [exact Hm|]. split; [reflexivity|].
  apply Htie. reflexivity.
Defined.

(** *** The flat market *)

(** C3, as stated, fails: on the flat market the neutral accumulator is 2,
    so the five accumulators do not all remain zero. *)
Lemma flat_market_scores_not_all_zero :
  score_of (mood_scores flat_market) NEUTRAL = 2%Z /\
  ~ (forall m, score_of (mood_scores flat_market) m = 0%Z).
Proof.
  split; [reflexivity|]. intros H. specialize (H NEUTRAL). discriminate H.
Qed.

(** C3, amended. With price_change = 0 and volatility = 0, trading_volume
    not above the high-volume threshold and no optional indicator, the rule
    -2 <= price_change <= 2 fires: the neutral accumulator is 2, the other
    four remain zero, and the classifier returns the single mood neutral. *)
Theorem flat_market_is_neutral (ind : MoodIndicators) :
  price_change ind == 0 ->
  volatility ind == 0 ->
  trading_volume ind <= 1.5e9 ->
  social_sentiment ind = None ->
  funding_rates ind = None ->
  liquidation_volume ind = None ->
  mood_scores ind =
    [(BULLISH, 0%Z); (BEARISH, 0%Z); (NEUTRAL, 2%Z); (VOLATILE, 0%Z); (RECOVERING, 0%Z)] /\
  determine_advanced_mood ind = Py.Ok NEUTRAL.
Proof.
  intros Hpc Hvol Htv Hs Hf Hl.
  assert (Hscores : mood_scores ind =
    [(BULLISH, 0%Z); (BEARISH, 0%Z); (NEUTRAL, 2%Z); (VOLATILE, 0%Z); (RECOVERING, 0%Z)]).
  { unfold mood_scores, score_liquidation, score_funding, score_social,
      score_recovery, score_volume, score_volatility, score_price_change.
    rewrite Hs, Hf, Hl.
    repeat (q_case; simpl; try lra). reflexivity. }
  split; [exact Hscores|].
  unfold determine_advanced_mood. rewrite Hscores. reflexivity.
Qed.

Lemma flat_market_is_neutral_witness :
  mood_scores flat_market =
    [(BULLISH, 0%Z); (BEARISH, 0%Z); (NEUTRAL, 2%Z); (VOLATILE, 0%Z); (RECOVERING, 0%Z)] /\
  determine_advanced_mood flat_market = Py.Ok NEUTRAL.
Proof.
  apply (flat_market_is_neutral flat_market); simpl; try reflexivity.
  vm_compute. discriminate.
Defined.

(** ** Volume trend *)

Lemma trend_of_cases (config : Config) (pct : Q) :
  let thr := VOLUME_TREND_THRESHOLD config in
  (thr <= pct -> trend_of config pct = "significant_increase") /\
  (pct < thr -> pct <= - thr -> trend_of config pct = "significant_decrease") /\
  (pct < thr -> - thr < pct -> 5 <= pct -> trend_of config pct = "moderate_increase") /\
  (pct < thr -> - thr < pct -> pct < 5 -> pct <= -5 ->
     trend_of config pct = "moderate_decrease") /\
  (pct < thr -> - thr < pct -> pct < 5 -> -5 < pct -> trend_of config pct = "stable").
Proof.
  intros thr. subst thr. unfold trend_of.
  generalize (VOLUME_TREND_THRESHOLD config). intros thr.
  repeat split; intros; repeat (q_case; try lra); reflexivity.
Qed.

Lemma analyze_volume_trend_nonempty (config : Config) (current_volume : Q)
    (history : list VolumePoint) :
  history <> [] ->
  analyze_volume_trend_body config current_volume history =
    (q <- Py.div (current_volume - Py.mean (map hv_volume history))
                 (Py.mean (map hv_volume history)) ;;
     Py.Ok (q * 100, trend_of config (q * 100))).
Proof.
  intros Hne. unfold analyze_volume_trend_body.
  destruct history as [|p history]; [congruence|]. reflexivity.
Qed.

(** C5, as stated, fails: a history whose mean volume is zero is not empty,
    yet the classification is none of the five trends. *)
Lemma volume_trend_zero_mean_is_error :
  _analyze_volume_trend sample_config 5 [point 0] = (0, "error") /\
  ~ In (snd (_analyze_volume_trend sample_config 5 [point 0]))
       ["significant_increase"; "significant_decrease"; "moderate_increase";
        "moderate_decrease"; "stable"].
Proof.
  split; [reflexivity|].
  vm_compute. intros H. repeat (destruct H as [H|H]; [discriminate H|]). exact H.
Qed.

(** C5, amended. An empty history gives (0, insufficient_data). A history
    whose mean volume is zero gives (0, error). Otherwise the result is
    pct_change = (current - mean) / mean * 100 with the first matching
    class of: pct_change >= threshold, significant_increase; pct_change <=
    -threshold, significant_decrease; pct_change >= 5, moderate_increase;
    pct_change <= -5, moderate_decrease; else stable. With threshold 10,
    pct_change 10 is significant_increase, 9.99 moderate_increase and 4.9
    stable. *)
Theorem analyze_volume_trend_spec (config : Config) (current_volume : Q)
    (history : list VolumePoint) :
  let thr := VOLUME_TREND_THRESHOLD config in
  let avg := Py.mean (map hv_volume history) in
  let pct := (current_volume - avg) / avg * 100 in
  let res := _analyze_volume_trend config current_volume history in
  (history = [] -> res = (0, "insufficient_data")) /\
  (history <> [] -> avg == 0 -> res = (0, "error")) /\
  (history <> [] -> ~ avg == 0 ->
     fst res = pct /\
     (thr <= pct -> snd res = "significant_increase") /\
     (pct < thr -> pct <= - thr -> snd res = "significant_decrease") /\
     (pct < thr -> - thr < pct -> 5 <= pct -> snd res = "moderate_increase") /\
     (pct < thr -> - thr < pct -> pct < 5 -> pct <= -5 ->
        snd res = "moderate_decrease") /\
     (pct < thr -> - thr < pct -> pct < 5 -> -5 < pct -> snd res = "stable") /\
     (thr == 10 ->
        (pct == 10 -> snd res = "significant_increase") /\
        (pct == 9.99 -> snd res = "moderate_increase") /\
        (pct == 4.9 -> snd res = "stable"))).
Proof.
  intros thr avg pct res. split; [|split].
  - intros ->. reflexivity.
  - intros Hne Havg. subst res. unfold _analyze_volume_trend.
    rewrite (analyze_volume_trend_nonempty _ _ _ Hne).
    fold avg. rewrite (div_zero _ _ Havg). simpl.
    destruct history; [congruence | reflexivity].
  - intros Hne Havg.
    assert (Hres : res = (pct, trend_of config pct)).
    { subst res. unfold _analyze_volume_trend.
      rewrite (analyze_volume_trend_nonempty _ _ _ Hne).
      fold avg. rewrite (div_ok _ _ Havg). simpl.
      destruct history; [congruence | reflexivity]. }
    rewrite Hres. simpl.
    destruct (trend_of_cases config pct) as (H1 & H2 & H3 & H4 & H5).
    fold thr in H1, H2, H3, H4, H5.
    split; [reflexivity|]. do 5 (split; [assumption|]).
    intros Hthr. split; [|split]; intros Hpct.
    + apply H1. lra.
    + apply H3; lra.
    + apply H5; lra.
Qed.

Lemma analyze_volume_trend_spec_witness :
  snd (_analyze_volume_trend sample_config 110 [point 100]) = "significant_increase" /\
  snd (_analyze_volume_trend sample_config 10999 [point 10000]) = "moderate_increase" /\
  snd (_analyze_volume_trend sample_config 1049 [point 1000]) = "stable" /\
  _analyze_volume_trend sample_config 5 [point 0] = (0, "error") /\
  _analyze_volume_trend sample_config 5 [] = (0, "insufficient_data").
Proof.
  split; [|split; [|split; [|split]]].
  - destruct (analyze_volume_trend_spec sample_config 110 [point 100])
      as (_ & _ & H).
    destruct H as (_ & _ & _ & _ & _ & _ & H10);
      [discriminate | vm_compute; discriminate |].
    destruct H10 as (Hsnd & _ & _); [reflexivity|].
    apply Hsnd. vm_compute. reflexivity.
  - destruct (analyze_volume_trend_spec sample_config 10999 [point 10000])
      as (_ & _ & H).
    destruct H as (_ & _ & _ & _ & _ & _ & H10);
      [discriminate | vm_compute; discriminate |].
    destruct H10 as (_ & Hsnd & _); [reflexivity|].
    apply Hsnd. vm_compute. reflexivity.
  - destruct (analyze_volume_trend_spec sample_config 1049 [point 1000])
      as (_ & _ & H).
    destruct H as (_ & _ & _ & _ & _ & _ & H10);
      [discriminate | vm_compute; discriminate |].
    destruct H10 as (_ & _ & Hsnd); [reflexivity|].
    apply Hsnd. vm_compute. reflexivity.
  - destruct (analyze_volume_trend_spec sample_config 5 [point 0])
      as (_ & H & _). apply H; [discriminate | reflexivity].
  - destruct (analyze_volume_trend_spec sample_config 5 [])
      as (H & _). apply H. reflexivity.
Defined.

(** ** Correlations *)

Lemma max_cases (x y : Q) :
  (Py.max x y = x /\ y <= x) \/ (Py.max x y = y /\ x < y).
Proof.
  unfold Py.max. q_case; [right | left]; split; auto.
Qed.

Lemma Qabs_nonzero (a : Q) : ~ a == 0 -> 0 < Qabs a.
Proof.
  intros Ha. destruct (Qlt_le_dec 0 (Qabs a)) as [|Hle]; [assumption|].
  exfalso. apply Ha. apply Qabs_Qle_condition in Hle. lra.
Qed.

Lemma max_abs_nonzero (a b : Q) : ~ a == 0 -> ~ Py.max (Qabs a) (Qabs b) == 0.
Proof.
  intros Ha. pose proof (Qabs_nonzero a Ha).
  destruct (max_cases (Qabs a) (Qabs b)) as [[-> ?]|[-> ?]]; lra.
Qed.

(** When no division fails the result is the computed record, and it is
    the row written to the store. *)
Lemma calculate_correlations_defined (db : Database) (market_data : gmap string Snapshot)
    (sol dot : Snapshot) :
  market_data !! "SOL" = Some sol ->
  market_data !! "DOT" = Some dot ->
  ~ Py.max (Qabs (price_change_percentage_24h sol))
           (Qabs (price_change_percentage_24h dot)) == 0 ->
  ~ Py.max (volume sol) (volume dot) == 0 ->
  ~ market_cap dot == 0 ->
  let c :=
    {| price_correlation :=
         1 - Qabs (price_change_percentage_24h sol - price_change_percentage_24h dot)
             / Py.max (Qabs (price_change_percentage_24h sol))
                      (Qabs (price_change_percentage_24h dot));
       volume_correlation :=
         1 - Qabs ((volume sol - volume dot) / Py.max (volume sol) (volume dot));
       market_cap_ratio := market_cap sol / market_cap dot |} in
  _calculate_correlations db market_data = (c, store_correlation_analysis db c).
Proof.
  intros Hsol Hdot Hp Hv Hc c.
  unfold _calculate_correlations, calculate_correlations_body, getitem.
  rewrite Hsol, Hdot. simpl.
  rewrite (div_ok _ _ Hp). simpl. rewrite (div_ok _ _ Hv). simpl.
  rewrite (div_ok _ _ Hc). reflexivity.
Qed.

(** C1, as stated, fails: changes of +5 and -5 have equal magnitude and are
    not both zero, and the price correlation is -1. *)
Lemma opposite_moves_correlation :
  Qabs 5 == Qabs (-5) /\
  price_correlation (fst (_calculate_correlations empty_db opposite_moves)) == -1 /\
  ~ price_correlation (fst (_calculate_correlations empty_db opposite_moves)) == 1.
Proof.
  split; [reflexivity|]. split; [reflexivity|]. vm_compute. discriminate.
Qed.

(** C1, amended. When no division of the computation fails (the first
    change, the larger volume and the second market cap are non-zero): if
    the two 24h changes are equal the price correlation is exactly 1, and if
    they have equal magnitude and opposite signs it is -1. *)
Theorem equal_changes_price_correlation (db : Database)
    (market_data : gmap string Snapshot) (sol dot : Snapshot) :
  market_data !! "SOL" = Some sol ->
  market_data !! "DOT" = Some dot ->
  ~ price_change_percentage_24h sol == 0 ->
  ~ Py.max (volume sol) (volume dot) == 0 ->
  ~ market_cap dot == 0 ->
  (price_change_percentage_24h sol == price_change_percentage_24h dot ->
   price_correlation (fst (_calculate_correlations db market_data)) == 1) /\
  (price_change_percentage_24h sol == - price_change_percentage_24h dot ->
   price_correlation (fst (_calculate_correlations db market_data)) == -1).
Proof.
  intros Hsol Hdot Ha Hv Hc.
  pose proof (max_abs_nonzero _ (price_change_percentage_24h dot) Ha) as Hm.
  rewrite (calculate_correlations_defined db market_data sol dot Hsol Hdot Hm Hv Hc).
  simpl.
  set (a := price_change_percentage_24h sol) in *.
  set (b := price_change_percentage_24h dot) in *.
  pose proof (Qabs_nonzero a Ha) as Hpos.
  split; intros Hab.
  - assert (E : Qabs (a - b) == 0).
    { assert (E0 : a - b == 0) by lra. rewrite E0. reflexivity. }
    rewrite E. field. exact Hm.
  - assert (Hba : Qabs b == Qabs a).
    { rewrite Hab. rewrite Qabs_opp. reflexivity. }
    assert (E : Qabs (a - b) == 2 * Qabs a).
    { assert (E0 : a - b == 2 * a) by lra. rewrite E0.
      rewrite Qabs_Qmult. reflexivity. }
    assert (Em : Py.max (Qabs a) (Qabs b) == Qabs a).
    { destruct (max_cases (Qabs a) (Qabs b)) as [[-> _]|[-> _]];
        [reflexivity | exact Hba]. }
    rewrite E, Em. field. lra.
Qed.

Lemma equal_changes_price_correlation_witness :
  price_correlation (fst (_calculate_correlations empty_db equal_moves)) == 1 /\
  price_correlation (fst (_calculate_correlations empty_db opposite_moves)) == -1.
Proof.
  split.
  - apply (equal_changes_price_correlation empty_db equal_moves
             (snapshot 100 1000 5 50000) (snapshot 10 1000 5 10000));
      try reflexivity; vm_compute; discriminate.
  - apply (equal_changes_price_correlation empty_db opposite_moves
             (snapshot 100 1000 5 50000) (snapshot 10 1000 (-5) 10000));
      try reflexivity; vm_compute; discriminate.
Defined.

(** ** Trigger engine *)

Lemma check_chains_reason_nonempty (config : Config)
    (history : string -> list VolumePoint) (last_data new_data : gmap string Snapshot)
    (chains : list string) (s : string) :
  check_chains config history last_data new_data chains = Py.Ok (Some s) ->
  s <> "".
Proof.
  induction chains as [|chain chains IH]; simpl; [discriminate|].
  unfold Py.bind.
  repeat case_match; try discriminate; try exact IH;
    intros [= <-]; simpl; discriminate.
Qed.

(** The loop raises only on a zero baseline price or volume. *)
Lemma check_chains_returns (config : Config)
    (history : string -> list VolumePoint) (last_data new_data : gmap string Snapshot)
    (chains : list string) :
  (forall chain new last,
      In chain chains ->
      new_data !! chain = Some new -> last_data !! chain = Some last ->
      ~ current_price last == 0 /\ ~ volume last == 0) ->
  exists reason, check_chains config history last_data new_data chains = Py.Ok reason.
Proof.
  induction chains as [|chain chains IH]; intros Hnz; simpl; [eauto|].
  assert (IH' : exists reason,
             check_chains config history last_data new_data chains = Py.Ok reason).
  { apply IH. intros c n l Hin. apply Hnz. right. exact Hin. }
  destruct (new_data !! chain) as [new|] eqn:Hnew; [|exact IH'].
  destruct (last_data !! chain) as [last|] eqn:Hlast; [|exact IH'].
  destruct (Hnz chain new last (or_introl eq_refl) Hnew Hlast) as [Hp Hv].
  rewrite (div_ok _ _ Hp). simpl. rewrite (div_ok _ _ Hv). simpl.
  repeat case_match; eauto.
Qed.

Lemma or_regular_interval_nonempty (reason : option string) :
  or_regular_interval reason <> "".
Proof.
  unfold or_regular_interval. destruct reason as [[|c s]|]; simpl; discriminate.
Qed.

Lemma baseline_not_empty (m : gmap string Snapshot) (k : string) (v : Snapshot) :
  m !! k = Some v -> (size m =? 0)%nat = false.
Proof.
  intros H. apply Nat.eqb_neq. intros Hz. apply map_size_empty_iff in Hz.
  rewrite Hz, lookup_empty in H. discriminate.
Qed.

(** Nothing but a division raises in the loop. *)
Lemma check_chains_raises_zero_division (config : Config)
    (history : string -> list VolumePoint) (last_data new_data : gmap string Snapshot)
    (chains : list string) (e : Py.exn) :
  check_chains config history last_data new_data chains = Py.Raise e ->
  e = Py.ZeroDivisionError.
Proof.
  induction chains as [|chain chains IH]; simpl; [discriminate|].
  unfold Py.bind, Py.div.
  repeat case_match; try discriminate; try exact IH; congruence.
Qed.

(** Chains absent from the new data or from the baseline are skipped. *)
Lemma check_chains_skips_absent (config : Config)
    (history : string -> list VolumePoint) (last_data new_data : gmap string Snapshot)
    (before rest : list string) :
  (forall c, In c before -> new_data !! c = None \/ last_data !! c = None) ->
  check_chains config history last_data new_data (before ++ rest)
  = check_chains config history last_data new_data rest.
Proof.
  induction before as [|c before IH]; intros Habsent; [reflexivity|].
  simpl. rewrite IH by (intros c' Hin; apply Habsent; right; exact Hin).
  destruct (Habsent c (or_introl eq_refl)) as [-> | Hlast]; [reflexivity|].
  rewrite Hlast. destruct (new_data !! c); reflexivity.
Qed.

(** A zero baseline price or volume of the chain at hand raises. *)
Lemma check_chains_zero_baseline (config : Config)
    (history : string -> list VolumePoint) (last_data new_data : gmap string Snapshot)
    (chain : string) (rest : list string) (new last : Snapshot) :
  new_data !! chain = Some new -> last_data !! chain = Some last ->
  current_price last == 0 \/ volume last == 0 ->
  check_chains config history last_data new_data (chain :: rest)
  = Py.Raise Py.ZeroDivisionError.
Proof.
  intros Hnew Hlast Hzero. cbn [check_chains]. rewrite Hnew, Hlast.
  destruct Hzero as [Hz|Hz].
  - rewrite (div_zero _ _ Hz). reflexivity.
  - unfold Py.div at 1. destruct (Py.eqb (current_price last) 0); cbn [Py.bind].
    + reflexivity.
    + rewrite (div_zero _ _ Hz). reflexivity.
Qed.

(** C6, as stated, fails: against a baseline in which SOL has a volume of
    zero the trigger decision returns no pair at all, the percentage
    division raises. *)
Lemma should_post_zero_baseline_no_pair :
  _should_post_update sample_config 60 no_history bot_with_zero_volume small_move
    = (bot_with_zero_volume, Py.Raise Py.ZeroDivisionError) /\
  ~ (exists st' should_post reason,
       _should_post_update sample_config 60 no_history bot_with_zero_volume small_move
         = (st', Py.Ok (should_post, reason))).
Proof.
  assert (Hcall : _should_post_update sample_config 60 no_history bot_with_zero_volume
                    small_move
                  = (bot_with_zero_volume, Py.Raise Py.ZeroDivisionError))
    by reflexivity.
  split; [exact Hcall|].
  intros (st' & b & r & Hpair). rewrite Hcall in Hpair. discriminate Hpair.
Qed.

(** C6, amended. The trigger decision either returns a pair or raises
    ZeroDivisionError with the state untouched, and nothing else. Whenever
    it returns, the boolean is true exactly when the reason is not null, and
    a positive decision carries a non-empty reason. It returns on the first
    call (empty baseline) and whenever no tracked chain present in both the
    new data and the baseline has a zero baseline price or volume. It
    raises when the first tracked chain present in both has a zero baseline
    price or volume. *)
Theorem should_post_iff_reason (config : Config) (now : Q)
    (history : string -> list VolumePoint) (st : BotState)
    (new_data : gmap string Snapshot) :
  ((exists st' should_post reason,
      _should_post_update config now history st new_data
        = (st', Py.Ok (should_post, reason))) \/
   _should_post_update config now history st new_data
     = (st, Py.Raise Py.ZeroDivisionError)) /\
  (forall st' should_post reason,
      _should_post_update config now history st new_data
        = (st', Py.Ok (should_post, reason)) ->
      should_post = match reason with Some _ => true | None => false end /\
      (should_post = true -> exists s, reason = Some s /\ s <> "")) /\
  ((last_market_data st = ∅ \/
    forall chain new last,
      In chain (map fst target_chains) ->
      new_data !! chain = Some new -> last_market_data st !! chain = Some last ->
      ~ current_price last == 0 /\ ~ volume last == 0) ->
   exists should_post reason,
     snd (_should_post_update config now history st new_data)
       = Py.Ok (should_post, reason)) /\
  (forall before chain after new last,
      map fst target_chains = before ++ chain :: after ->
      (forall c, In c before ->
         new_data !! c = None \/ last_market_data st !! c = None) ->
      new_data !! chain = Some new -> last_market_data st !! chain = Some last ->
      current_price last == 0 \/ volume last == 0 ->
      _should_post_update config now history st new_data
        = (st, Py.Raise Py.ZeroDivisionError)).
Proof.
  unfold _should_post_update. split; [|split; [|split]].
  - destruct (size (last_market_data st) =? 0)%nat; [left; eauto|].
    destruct (check_chains _ _ _ _ _) as [reason|e] eqn:Hloop.
    + left. repeat case_match; eauto.
    + right. apply check_chains_raises_zero_division in Hloop. rewrite Hloop.
      reflexivity.
  - intros st' b r.
    destruct (size (last_market_data st) =? 0)%nat.
    { intros [= <- <- <-]. split; [reflexivity|]. intros _.
      eexists. split; [reflexivity|discriminate]. }
    destruct (check_chains _ _ _ _ _) as [reason|e] eqn:Hloop; [|discriminate].
    destruct (Py.geb _ _).
    + intros [= <- <- <-]. split; [reflexivity|]. intros _.
      eexists. split; [reflexivity|]. apply or_regular_interval_nonempty.
    + destruct reason as [s|]; intros [= <- <- <-]; split; try reflexivity.
      * intros _. exists s. split; [reflexivity|].
        eapply check_chains_reason_nonempty. exact Hloop.
      * discriminate.
  - intros Hok.
    destruct (size (last_market_data st) =? 0)%nat eqn:Hsize; [simpl; eauto|].
    destruct Hok as [Hempty|Hnz].
    { rewrite Hempty, map_size_empty in Hsize. discriminate. }
    destruct (check_chains_returns config history _ _ _ Hnz) as [reason ->].
    repeat case_match; simpl; eauto.
  - intros before chain after new last Hchains Habsent Hnew Hlast Hzero.
    rewrite (baseline_not_empty _ _ _ Hlast), Hchains.
    rewrite (check_chains_skips_absent _ _ _ _ _ _ Habsent).
    rewrite (check_chains_zero_baseline _ _ _ _ _ _ _ _ Hnew Hlast Hzero).
    reflexivity.
Qed.

Lemma should_post_iff_reason_witness :
  (_should_post_update sample_config 60 no_history bot_with_baseline threshold_move
     = (set_last_market_data bot_with_baseline threshold_move,
        Py.Ok (true, Some "price_change_sol")) /\
   exists s, Some "price_change_sol" = Some s /\ s <> "") /\
  (_should_post_update sample_config 60 no_history bot_with_baseline small_move
     = (bot_with_baseline, Py.Ok (false, None)) /\
   exists should_post reason,
     snd (_should_post_update sample_config 60 no_history bot_with_baseline small_move)
       = Py.Ok (should_post, reason)) /\
  _should_post_update sample_config 60 no_history
    {| past_predictions := []; last_check_time := 0;
       last_market_data := <["DOT" := snapshot 0 1000 1 10000]> ∅ |}
    small_move
  = ({| past_predictions := []; last_check_time := 0;
        last_market_data := <["DOT" := snapshot 0 1000 1 10000]> ∅ |},
     Py.Raise Py.ZeroDivisionError).
Proof.
  split; [|split].
  - split; [reflexivity|].
    apply (proj1 (proj2 (should_post_iff_reason sample_config 60 no_history
                           bot_with_baseline threshold_move))
             (set_last_market_data bot_with_baseline threshold_move) true
             (Some "price_change_sol")); reflexivity.
  - split; [reflexivity|].
    apply (proj1 (proj2 (proj2 (should_post_iff_reason sample_config 60 no_history
                                  bot_with_baseline small_move)))).
    right. intros chain new last [<-|[<-|[]]]; vm_compute;
      intros [= <-] [= <-]; split; discriminate.
  - apply (proj2 (proj2 (proj2 (should_post_iff_reason sample_config 60 no_history
                                  {| past_predictions := []; last_check_time := 0;
                                     last_market_data :=
                                       <["DOT" := snapshot 0 1000 1 10000]> ∅ |}
                                  small_move)))
             ["SOL"] "DOT" [] (snapshot 10 1000 1 10000) (snapshot 0 1000 1 10000)).
    + reflexivity.
    + intros c [<-|[]]. right. reflexivity.
    + reflexivity.
    + reflexivity.
    + left. reflexivity.
Defined.

Lemma should_post_update_cases (config : Config) (now : Q)
    (history : string -> list VolumePoint) (st : BotState)
    (new_data : gmap string Snapshot) :
  (exists s, _should_post_update config now history st new_data
             = (set_last_market_data st new_data, Py.Ok (true, Some s))) \/
  _should_post_update config now history st new_data = (st, Py.Ok (false, None)) \/
  (exists e, _should_post_update config now history st new_data = (st, Py.Raise e)).
Proof.
  unfold _should_post_update. repeat case_match; eauto.
Qed.

(** C7. The first call, with no baseline, returns (true, initial_post) and
    adopts the new snapshots. In general the baseline becomes the new
    snapshots when the decision is positive, and the whole state is left
    untouched when it is negative (or when the call raises), so a later
    call after a no-post cycle compares against the same baseline. *)
Theorem baseline_updated_iff_posted (config : Config) (now : Q)
    (history : string -> list VolumePoint) (st : BotState)
    (new_data : gmap string Snapshot) :
  let out := _should_post_update config now history st new_data in
  (last_market_data st = ∅ ->
   out = (set_last_market_data st new_data, Py.Ok (true, Some "initial_post"))) /\
  (forall reason, snd out = Py.Ok (true, reason) ->
     fst out = set_last_market_data st new_data /\
     last_market_data (fst out) = new_data) /\
  (forall reason, snd out = Py.Ok (false, reason) ->
     fst out = st /\
     forall now' new_data',
       _should_post_update config now' history (fst out) new_data'
       = _should_post_update config now' history st new_data') /\
  (forall e, snd out = Py.Raise e -> fst out = st).
Proof.
  intros out. subst out. split; [|split; [|split]].
  - intros Hempty. unfold _should_post_update.
    rewrite Hempty, map_size_empty. reflexivity.
  - intros reason.
    destruct (should_post_update_cases config now history st new_data)
      as [[s ->]|[->|[e ->]]]; simpl; intros [=]; split; reflexivity.
  - intros reason.
    destruct (should_post_update_cases config now history st new_data)
      as [[s ->]|[->|[e ->]]]; simpl; intros [=]; split; reflexivity.
  - intros e'.
    destruct (should_post_update_cases config now history st new_data)
      as [[s ->]|[->|[e ->]]]; simpl; intros [=]; reflexivity.
Qed.

Lemma baseline_updated_iff_posted_witness :
  _should_post_update sample_config 60 no_history fresh_bot small_move
    = (set_last_market_data fresh_bot small_move, Py.Ok (true, Some "initial_post")) /\
  last_market_data
    (fst (_should_post_update sample_config 60 no_history bot_with_baseline threshold_move))
    = threshold_move /\
  fst (_should_post_update sample_config 60 no_history bot_with_baseline small_move)
    = bot_with_baseline.
Proof.
  split; [|split].
  - apply (baseline_updated_iff_posted sample_config 60 no_history fresh_bot small_move).
    reflexivity.
  - apply (baseline_updated_iff_posted sample_config 60 no_history bot_with_baseline
             threshold_move) with (reason := Some "price_change_sol").
    reflexivity.
  - apply (baseline_updated_iff_posted sample_config 60 no_history bot_with_baseline
             small_move) with (reason := None).
    reflexivity.
Defined.

(** ** Prediction tracker *)

Lemma collect_prices_returns (prediction : PredictionData) (chains : list string)
    (acc : list (string * Q)) :
  (forall chain, In chain chains ->
     is_Some (price_fields prediction !! (Py.upper chain +:+ "_price"))) ->
  exists prices, collect_prices prediction chains acc = Py.Ok prices.
Proof.
  revert acc. induction chains as [|chain chains IH]; intros acc Hkeys; simpl; [eauto|].
  destruct (Hkeys chain (or_introl eq_refl)) as [price Hprice].
  unfold getitem. rewrite Hprice. simpl.
  apply IH. intros c Hc. apply Hkeys. right. exact Hc.
Qed.

(** C8, as stated, fails: an entry whose age is exactly 86400 seconds does
    not exceed 24 hours, and it is pruned. *)
Lemma prediction_aged_one_day_is_pruned :
  ~ 86400 < 86400 - p_timestamp old_prediction /\
  old_prediction ∉
    past_predictions
      (fst (_track_prediction 86400 86400 bot_with_prediction new_prediction
              ["SOL"; "DOT"])).
Proof.
  split; [vm_compute; discriminate|].
  vm_compute. intros H. apply list_elem_of_In in H.
  destruct H as [H|[]]. discriminate H.
Qed.

(** C8, amended. A call whose prediction carries a price for each relevant
    chain appends an entry with pending outcome and then keeps exactly the
    entries whose age is below 86400 seconds: it prunes those aged 86400
    seconds or more. An entry recorded 86401 seconds ago is absent from the
    tracked list and one recorded 86399 seconds ago remains. *)
Theorem track_prediction_prunes (now_append now_prune : Q) (st : BotState)
    (prediction : PredictionData) (relevant_chains : list string) :
  (forall chain, In chain relevant_chains ->
     is_Some (price_fields prediction !! (Py.upper chain +:+ "_price"))) ->
  exists prices,
    let entry :=
      {| p_timestamp := now_append; p_prediction := analysis prediction;
         p_prices := prices; p_sentiment := sentiment prediction;
         p_outcome := None |} in
    let st' :=
      fst (_track_prediction now_append now_prune st prediction relevant_chains) in
    collect_prices prediction relevant_chains [] = Py.Ok prices /\
    snd (_track_prediction now_append now_prune st prediction relevant_chains)
      = Py.Ok tt /\
    (forall p, p ∈ past_predictions st' <->
               (p ∈ past_predictions st \/ p = entry) /\
               now_prune - p_timestamp p < 86400) /\
    (forall p, now_prune - p_timestamp p == 86401 -> p ∉ past_predictions st') /\
    (forall p, p ∈ past_predictions st \/ p = entry ->
               now_prune - p_timestamp p == 86399 -> p ∈ past_predictions st') /\
    last_market_data st' = last_market_data st /\
    last_check_time st' = last_check_time st.
Proof.
  intros Hkeys.
  destruct (collect_prices_returns prediction relevant_chains [] Hkeys) as [prices Hprices].
  exists prices. intros entry st'. subst st'.
  unfold _track_prediction. rewrite Hprices. simpl. fold entry.
  assert (Hmem : forall p,
    p ∈ filter (fun p => Py.ltb (now_prune - p_timestamp p) 86400 = true)
          (past_predictions st ++ [entry]) <->
    (p ∈ past_predictions st \/ p = entry) /\ now_prune - p_timestamp p < 86400).
  { intros p. rewrite list_elem_of_filter, ltb_spec, elem_of_app, list_elem_of_singleton.
    tauto. }
  split; [reflexivity|]. split; [reflexivity|]. split; [exact Hmem|].
  split; [|split; [|split; reflexivity]].
  - intros p Hage Hin. apply Hmem in Hin. lra.
  - intros p Hin Hage. apply Hmem. split; [exact Hin | lra].
Qed.

Lemma track_prediction_prunes_witness :
  past_predictions
    (fst (_track_prediction 86399 86399 bot_with_prediction new_prediction
            ["SOL"; "DOT"]))
  = [old_prediction;
     {| p_timestamp := 86399; p_prediction := "DOT looks tired";
        p_prices := [("SOL", 101); ("DOT", 10)];
        p_sentiment := <["SOL" := "neutral"]> (<["DOT" := "bearish"]> ∅);
        p_outcome := None |}] /\
  old_prediction ∉
    past_predictions
      (fst (_track_prediction 86401 86401 bot_with_prediction new_prediction
              ["SOL"; "DOT"])).
Proof.
  split; [reflexivity|].
  destruct (track_prediction_prunes 86401 86401 bot_with_prediction new_prediction
              ["SOL"; "DOT"]) as (prices & _ & _ & _ & Habsent & _).
  - intros chain [<-|[<-|[]]]; vm_compute; eauto.
  - apply Habsent. reflexivity.
Defined.

(** ** Prediction validation *)

Lemma sentiment_sign_spec (s : string) : sentiment_sign s = sentimentSign s.
Proof.
  unfold sentiment_sign, sentimentSign, sentiment_map.
  destruct (decide (s = "bullish")) as [->|Hb]; [reflexivity|].
  destruct (decide (s = "bearish")) as [->|Hbe]; [reflexivity|].
  destruct (decide (s = "neutral")) as [->|Hn]; [reflexivity|].
  rewrite !lookup_insert_ne by congruence. rewrite lookup_empty. reflexivity.
Qed.

(** On validatable input the loop returns the accumulator extended by
    exactly the wrong chains among the items. *)
Lemma wrong_chains_loop_spec (prediction : Prediction) (current_prices : gmap string Q)
    (items : list (string * Q)) (acc : list string) :
  (forall chain old,
      In (chain, old) items -> is_Some (current_prices !! chain) ->
      ~ old == 0 /\ is_Some (p_sentiment prediction !! Py.upper chain)) ->
  exists ws,
    wrong_chains_loop prediction current_prices items acc = Py.Ok (acc ++ ws) /\
    forall chain,
      In chain ws <->
      exists old current s,
        In (chain, old) items /\
        current_prices !! chain = Some current /\
        p_sentiment prediction !! Py.upper chain = Some s /\
        sentimentSign s * ((current - old) / old * 100) < -2.
Proof.
  revert acc. induction items as [|[chain old] items IH]; intros acc Hok; simpl.
  - exists []. rewrite app_nil_r. split; [reflexivity|].
    intros c. split; [intros []|]. intros (? & ? & ? & [] & _).
  - assert (Hrest : forall c o, In (c, o) items -> is_Some (current_prices !! c) ->
                      ~ o == 0 /\ is_Some (p_sentiment prediction !! Py.upper c)).
    { intros c o Hin. apply Hok. right. exact Hin. }
    destruct (current_prices !! chain) as [current|] eqn:Hcur.
    + destruct (Hok chain old (or_introl eq_refl)) as [Hold [s Hs]];
        [rewrite Hcur; eauto|].
      rewrite (div_ok _ _ Hold). simpl. unfold getitem. rewrite Hs. simpl.
      rewrite sentiment_sign_spec.
      destruct (Py.ltb (sentimentSign s * ((current - old) / old * 100)) (-2)) eqn:Hlt.
      * apply ltb_spec in Hlt.
        destruct (IH (acc ++ [chain]) Hrest) as (ws & -> & Hws).
        exists (chain :: ws). split; [rewrite <- app_assoc; reflexivity|].
        intros c. simpl. rewrite Hws. split.
        -- intros [<-|(o & cu & s' & Hin & ?)].
           ++ exists old, current, s. auto.
           ++ exists o, cu, s'. auto.
        -- intros (o & cu & s' & [[= <- <-]|Hin] & H1 & H2 & H3).
           ++ left. reflexivity.
           ++ right. exists o, cu, s'. auto.
      * apply ltb_false in Hlt.
        destruct (IH acc Hrest) as (ws & -> & Hws).
        exists ws. split; [reflexivity|].
        intros c. rewrite Hws. split.
        -- intros (o & cu & s' & Hin & ?). exists o, cu, s'. auto.
        -- intros (o & cu & s' & [[= <- <-]|Hin] & H1 & H2 & H3).
           ++ exfalso. rewrite Hcur in H1. rewrite Hs in H2.
              injection H1 as <-. injection H2 as <-. lra.
           ++ exists o, cu, s'. auto.
    + destruct (IH acc Hrest) as (ws & -> & Hws).
      exists ws. split; [reflexivity|].
      intros c. rewrite Hws. split.
      * intros (o & cu & s' & Hin & ?). exists o, cu, s'. auto.
      * intros (o & cu & s' & [[= <- <-]|Hin] & H1 & H2 & H3).
        -- congruence.
        -- exists o, cu, s'. auto.
Qed.

(** A zero recorded price of a visited chain makes the loop raise. *)
Lemma wrong_chains_loop_zero_price (prediction : Prediction)
    (current_prices : gmap string Q) (items : list (string * Q)) (acc : list string) :
  (exists chain old,
      In (chain, old) items /\ is_Some (current_prices !! chain) /\ old == 0) ->
  exists e, wrong_chains_loop prediction current_prices items acc = Py.Raise e.
Proof.
  revert acc. induction items as [|[c o] items IH]; intros acc (chain & old & Hin & Hcur & Hz).
  - destruct Hin.
  - simpl. destruct Hin as [[= -> ->]|Hin].
    + destruct Hcur as [current ->]. rewrite (div_zero _ _ Hz). simpl. eauto.
    + assert (Hrest : exists chain old,
                 In (chain, old) items /\ is_Some (current_prices !! chain) /\ old == 0)
        by eauto.
      destruct (current_prices !! c) as [current|]; [|apply IH, Hrest].
      destruct (Py.div (current - o) o) as [q|e]; simpl; [|eauto].
      destruct (getitem (p_sentiment prediction) (Py.upper c)) as [s|e]; simpl; [|eauto].
      destruct (Py.ltb _ _); apply IH, Hrest.
Qed.

(** C9, as stated, fails: for a prediction that recorded a price of zero no
    chain satisfies the wrong-chain condition, yet validation does not
    return 'right': the division raises. *)
Lemma validate_zero_price_raises :
  _validate_past_prediction (zero_price_prediction "neutral") prices_after_drop
    = Py.Raise Py.ZeroDivisionError /\
  ~ (exists chain,
       chain_is_wrong (zero_price_prediction "neutral") prices_after_drop chain) /\
  _validate_past_prediction (zero_price_prediction "neutral") prices_after_drop
    <> Py.Ok "right".
Proof.
  split; [reflexivity|]. split; [|discriminate].
  intros (chain & old & current & s & Hin & Hcur & Hs & Hlt).
  destruct Hin as [[= <- <-]|[]].
  vm_compute in Hs. injection Hs as <-.
  vm_compute in Hlt. discriminate Hlt.
Qed.

(** C9, amended. When every chain present in both the prediction's recorded
    prices and the current prices has a non-zero recorded price and a
    recorded sentiment, validation returns 'wrong' if and only if some such
    chain satisfies sentimentSign * priceChangePct < -2, with priceChangePct
    = (current - old) / old * 100 and sentimentSign +1 for bullish, -1 for
    bearish and 0 otherwise; otherwise it returns 'right'. When such a chain
    has a recorded price of zero, validation raises instead of returning. *)
Theorem validate_past_prediction_spec (prediction : Prediction)
    (current_prices : gmap string Q) :
  (validatable prediction current_prices ->
   (_validate_past_prediction prediction current_prices = Py.Ok "wrong" <->
    exists chain, chain_is_wrong prediction current_prices chain) /\
   (_validate_past_prediction prediction current_prices = Py.Ok "right" <->
    ~ exists chain, chain_is_wrong prediction current_prices chain)) /\
  (zero_price_recorded prediction current_prices ->
   exists e, _validate_past_prediction prediction current_prices = Py.Raise e).
Proof.
  unfold _validate_past_prediction. split.
  - intros Hok.
    destruct (wrong_chains_loop_spec prediction current_prices (p_prices prediction) [] Hok)
      as (ws & -> & Hws). simpl.
    assert (Hany : (exists chain, chain_is_wrong prediction current_prices chain)
                   <-> ws <> []).
    { unfold chain_is_wrong. split.
      - intros (chain & Hc). apply Hws in Hc. destruct ws; [destruct Hc | discriminate].
      - intros Hne. destruct ws as [|c ws]; [congruence|].
        exists c. apply Hws. left. reflexivity. }
    rewrite Hany. destruct ws as [|c ws]; split; split;
      try discriminate; try congruence; intros; try reflexivity.
    exfalso. auto.
  - intros Hzero.
    destruct (wrong_chains_loop_zero_price prediction current_prices
                (p_prices prediction) [] Hzero) as [e ->].
    simpl. eauto.
Qed.

Lemma validate_past_prediction_spec_witness :
  _validate_past_prediction old_prediction prices_after_drop = Py.Ok "wrong" /\
  exists e,
    _validate_past_prediction (zero_price_prediction "neutral") prices_after_drop
      = Py.Raise e.
Proof.
  split.
  - assert (Hok : validatable old_prediction prices_after_drop).
    { intros chain old [[= <- <-]|[]] _. split; [vm_compute; discriminate|].
      vm_compute. eauto. }
    apply (proj1 (validate_past_prediction_spec old_prediction prices_after_drop) Hok).
    exists "SOL", 100, 95, "bullish".
    split; [left; reflexivity|]. split; [reflexivity|]. split; [reflexivity|].
    vm_compute. reflexivity.
  - apply (proj2 (validate_past_prediction_spec (zero_price_prediction "neutral")
                    prices_after_drop)).
    exists "SOL", 0. split; [left; reflexivity|]. split; [|reflexivity].
    vm_compute. eauto.
Defined.

(** When every visited chain has a recorded sentiment of sign 0, the loop
    adds no chain: it returns its accumulator, or raises on a zero price. *)
Lemma wrong_chains_loop_unsigned (prediction : Prediction)
    (current_prices : gmap string Q) (items : list (string * Q)) (acc : list string) :
  (forall chain old,
      In (chain, old) items -> is_Some (current_prices !! chain) ->
      exists s, p_sentiment prediction !! Py.upper chain = Some s /\
                sentimentSign s = 0) ->
  wrong_chains_loop prediction current_prices items acc
    = Py.Raise Py.ZeroDivisionError \/
  wrong_chains_loop prediction current_prices items acc = Py.Ok acc.
Proof.
  revert acc. induction items as [|[chain old] items IH]; intros acc Hzero; simpl.
  - right. reflexivity.
  - assert (Hrest : forall c o, In (c, o) items -> is_Some (current_prices !! c) ->
                      exists s, p_sentiment prediction !! Py.upper c = Some s /\
                                sentimentSign s = 0).
    { intros c o Hin. apply (Hzero c o). right. exact Hin. }
    destruct (current_prices !! chain) as [current|] eqn:Hcur; [|apply IH, Hrest].
    destruct (Hzero chain old (or_introl eq_refl)) as (s & Hs & Hsign);
      [rewrite Hcur; eauto|].
    unfold Py.div. destruct (Py.eqb old 0); simpl; [left; reflexivity|].
    unfold getitem. rewrite Hs. simpl. rewrite sentiment_sign_spec, Hsign.
    replace (Py.ltb (0 * ((current - old) / old * 100)) (-2)) with false
      by (symmetry; apply ltb_false; lra).
    apply IH, Hrest.
Qed.

(** C10, as stated, fails: a prediction whose only sentiment is volatile
    does not validate as 'right' when its recorded price is zero. *)
Lemma validate_volatile_zero_price_raises :
  p_sentiment (zero_price_prediction "volatile") !! "SOL" = Some (value VOLATILE) /\
  _validate_past_prediction (zero_price_prediction "volatile") prices_after_drop
    = Py.Raise Py.ZeroDivisionError /\
  _validate_past_prediction (zero_price_prediction "volatile") prices_after_drop
    <> Py.Ok "right".
Proof.
  split; [reflexivity|]. split; [reflexivity | discriminate].
Qed.

(** C10, amended. A sentiment outside bullish, bearish and neutral, in
    particular volatile and recovering, has sign 0, so its chain is never
    counted wrong however far the price moved. A prediction in which every
    chain's sentiment is volatile or recovering therefore never validates
    as 'wrong': it validates as 'right' when no chain present in both price
    maps has a zero recorded price, and raises ZeroDivisionError when one
    has. *)
Theorem unsigned_sentiment_never_wrong :
  (forall s, s <> "bullish" -> s <> "bearish" -> s <> "neutral" ->
     sentiment_sign s = 0 /\
     forall price_change, Py.ltb (sentiment_sign s * price_change) (-2) = false) /\
  sentiment_sign (value VOLATILE) = 0 /\
  sentiment_sign (value RECOVERING) = 0 /\
  (forall prediction current_prices,
     (forall chain old,
        In (chain, old) (p_prices prediction) -> is_Some (current_prices !! chain) ->
        p_sentiment prediction !! Py.upper chain = Some (value VOLATILE) \/
        p_sentiment prediction !! Py.upper chain = Some (value RECOVERING)) ->
     _validate_past_prediction prediction current_prices <> Py.Ok "wrong" /\
     (~ zero_price_recorded prediction current_prices ->
      _validate_past_prediction prediction current_prices = Py.Ok "right") /\
     (zero_price_recorded prediction current_prices ->
      _validate_past_prediction prediction current_prices
        = Py.Raise Py.ZeroDivisionError)).
Proof.
  split; [|split; [reflexivity|split; [reflexivity|]]].
  - intros s Hb Hbe Hn.
    assert (Hz : sentiment_sign s = 0).
    { rewrite sentiment_sign_spec. unfold sentimentSign.
      repeat case_decide; congruence. }
    split; [exact Hz|]. intros pc. rewrite Hz. apply ltb_false. lra.
  - intros prediction current_prices Hmood.
    assert (Hzero : forall chain old,
              In (chain, old) (p_prices prediction) ->
              is_Some (current_prices !! chain) ->
              exists s, p_sentiment prediction !! Py.upper chain = Some s /\
                        sentimentSign s = 0).
    { intros chain old Hin Hcur.
      destruct (Hmood chain old Hin Hcur) as [H|H]; rewrite H; eauto. }
    pose proof (wrong_chains_loop_unsigned prediction current_prices
                  (p_prices prediction) [] Hzero) as Hloop.
    unfold _validate_past_prediction.
    split; [|split].
    + destruct Hloop as [-> | ->]; simpl; discriminate.
    + intros Hprice.
      assert (Hok : validatable prediction current_prices).
      { intros chain old Hin Hcur. split.
        - intros Hz. apply Hprice. exists chain, old. auto.
        - destruct (Hzero chain old Hin Hcur) as (s & -> & _). eauto. }
      destruct (wrong_chains_loop_spec prediction current_prices
                  (p_prices prediction) [] Hok) as (ws & Hws & _).
      destruct Hloop as [Hraise | ->]; [|reflexivity].
      rewrite Hws in Hraise. discriminate Hraise.
    + intros Hprice.
      destruct (wrong_chains_loop_zero_price prediction current_prices
                  (p_prices prediction) [] Hprice) as [e He].
      destruct Hloop as [-> | Hnil]; [reflexivity|].
      rewrite He in Hnil. discriminate Hnil.
Qed.

Lemma unsigned_sentiment_never_wrong_witness :
  _validate_past_prediction unsigned_prediction prices_after_crash = Py.Ok "right" /\
  _validate_past_prediction (zero_price_prediction "volatile") prices_after_drop
    = Py.Raise Py.ZeroDivisionError.
Proof.
  destruct unsigned_sentiment_never_wrong as (_ & _ & _ & H). split.
  - apply (H unsigned_prediction prices_after_crash).
    + intros chain old [[= <- <-]|[[= <- <-]|[]]] _; [left | right]; reflexivity.
    + intros (chain & old & [[= <- <-]|[[= <- <-]|[]]] & _ & Hz);
        vm_compute in Hz; discriminate Hz.
  - apply (H (zero_price_prediction "volatile") prices_after_drop).
    + intros chain old [[= <- <-]|[]] _. left. reflexivity.
    + exists "SOL", 0. split; [left; reflexivity|]. split; [|reflexivity].
      vm_compute. eauto.
Defined.

(** ** Rate-limited fetcher *)

(** One attempt that meets a 429 counts one failure, sleeps for the
    rate-limit wait and goes on with the next value of the retry counter;
    an attempt that meets any other error status does the same with the
    exponential back-off: both consume the one counter. *)
Lemma request_loop_error_status (network : nat -> CoinGecko.Outcome) (cache_key : string)
    (remaining retry_count : nat) (h : CoinGecko.Handler) (r : CoinGecko.Response) :
  network retry_count = CoinGecko.Responded r ->
  CoinGecko.status_code r <> 200%Z ->
  let h1 := CoinGecko._wait_for_rate_limit h in
  let h3 :=
    CoinGecko.set_counters (CoinGecko.daily_requests h1 + 1) (CoinGecko.failed_requests h1)
      (CoinGecko.daily_reset_time h1)
      (CoinGecko.set_last_request_time (CoinGecko.clock h1) h1) in
  let h4 := CoinGecko.count_failure (CoinGecko._update_rate_limits r h3) in
  CoinGecko.failed_requests h4 = (CoinGecko.failed_requests h1 + 1)%Z /\
  CoinGecko.request_loop network cache_key (S remaining) retry_count h =
    CoinGecko.request_loop network cache_key remaining (S retry_count)
      (CoinGecko.sleep
         (if (CoinGecko.status_code r =? 429)%Z
          then CoinGecko.rate_limit_wait_time h4
          else CoinGecko.backoff retry_count) h4).
Proof.
  intros Hnet Hstatus h1 h3 h4. split.
  - subst h4 h3. unfold CoinGecko._update_rate_limits.
    repeat case_match; reflexivity.
  - simpl. rewrite Hnet. fold h1.
    destruct (Z.eqb_spec (CoinGecko.status_code r) 200); [contradiction|].
    destruct (CoinGecko.status_code r =? 429)%Z; reflexivity.
Qed.

(** With a reset header whose value the host accepts as a timestamp, the
    wait ends one second after the declared reset instant (and lasts one
    second when that instant is already past). *)
Lemma rate_limit_wait_with_header (h : CoinGecko.Handler) (r : CoinGecko.Response)
    (reset : Z) :
  CoinGecko.x_ratelimit_remaining r <> CoinGecko.Malformed ->
  CoinGecko.x_ratelimit_reset r = CoinGecko.IntValue reset ->
  CoinGecko.timestamp_ok h reset = true ->
  let h' := CoinGecko.count_failure (CoinGecko._update_rate_limits r h) in
  (CoinGecko.clock h <= inject_Z reset ->
   CoinGecko.clock (CoinGecko._handle_rate_limit_response h') == inject_Z reset + 1) /\
  (inject_Z reset < CoinGecko.clock h ->
   CoinGecko.rate_limit_wait_time h' = 1).
Proof.
  intros Hrem Hreset Hrange h'. subst h'.
  unfold CoinGecko._handle_rate_limit_response, CoinGecko.rate_limit_wait_time,
    CoinGecko._update_rate_limits, CoinGecko.fromtimestamp.
  rewrite Hreset. simpl. rewrite Hrange.
  destruct (CoinGecko.x_ratelimit_remaining r); try congruence; simpl;
    unfold Py.max; split; intros Hle; q_case; try lra; try reflexivity.
Qed.

(** Without a reset header the stored reset instant is the epoch (a
    timestamp of 0, which the host accepts), and the wait is one second, not
    the default of 60. *)
Lemma rate_limit_wait_without_header (h : CoinGecko.Handler) (r : CoinGecko.Response) :
  CoinGecko.x_ratelimit_remaining r <> CoinGecko.Malformed ->
  CoinGecko.x_ratelimit_reset r = CoinGecko.Absent ->
  CoinGecko.timestamp_ok h 0 = true ->
  0 <= CoinGecko.clock h ->
  let h' := CoinGecko.count_failure (CoinGecko._update_rate_limits r h) in
  CoinGecko.rate_limit_reset_at h' = Some 0 /\
  CoinGecko.rate_limit_wait_time h' = 1.
Proof.
  intros Hrem Hreset Hepoch Hclock h'. subst h'.
  unfold CoinGecko.rate_limit_wait_time, CoinGecko._update_rate_limits,
    CoinGecko.fromtimestamp.
  rewrite Hreset. cbn [CoinGecko.int_header Py.bind]. rewrite Hepoch.
  destruct (CoinGecko.x_ratelimit_remaining r); try congruence; simpl;
    (split; [reflexivity|]); unfold Py.max; change (inject_Z 0) with 0;
    q_case; try lra; reflexivity.
Qed.

(** The default of 60 seconds is used only while no response has ever set
    the reset instant. *)
Lemma rate_limit_wait_default (h : CoinGecko.Handler) :
  CoinGecko.rate_limit_wait_time h = 60 <->
  CoinGecko.rate_limit_reset_at h = None \/
  exists reset_at, CoinGecko.rate_limit_reset_at h = Some reset_at /\
                   Py.max 1 (reset_at - CoinGecko.clock h + 1) = 60.
Proof.
  unfold CoinGecko.rate_limit_wait_time.
  destruct (CoinGecko.rate_limit_reset_at h) as [t|]; split; eauto.
  - intros [H|(t' & [= <-] & H)]; [discriminate | exact H].
Qed.

(** C2 on a concrete run: a handler in its initial state, one permitted
    attempt, a 429 response that carries no rate-limit headers. The failure
    is counted and the retry counter exhausted, but the only sleep lasts one
    second: the rate-limit wait is not the default of 60 seconds. With a
    reset header 30 seconds ahead the sleep is 31 seconds, and a 500
    response consumes the same counter. *)
Theorem rate_limit_without_headers_sleeps_one_second :
  let out :=
    CoinGecko.get_market_data (fun _ => CoinGecko.Responded bare_429) "markets_{}" 1
      fresh_handler in
  CoinGecko.slept (fst out) = [1] /\
  CoinGecko.slept (fst out) <> [60] /\
  CoinGecko.failed_requests (fst out) = 1%Z /\
  CoinGecko.rate_limit_reset_at (fst out) = Some 0 /\
  snd out = None /\
  CoinGecko.slept
    (fst (CoinGecko.get_market_data
            (fun _ => CoinGecko.Responded (timed_429 1700000030)) "markets_{}" 1
            fresh_handler)) = [31] /\
  snd (CoinGecko.get_market_data (fun _ => CoinGecko.Responded server_error)
         "markets_{}" 1 fresh_handler) = None.
Proof.
  vm_compute. repeat split; discriminate.
Qed.

(** * Further properties of the code *)

(** ** Mood classifier *)

Lemma score_add_ne (m m' : Mood) (k : Z) (s : list (Mood * Z)) :
  m <> m' -> score_of (add_score m k s) m' = score_of s m'.
Proof.
  intros Hne. induction s as [|it s IH]; simpl; [reflexivity|].
  destruct (decide (fst it = m)) as [E|E]; simpl;
    destruct (decide (fst it = m')); try congruence; exact IH.
Qed.

Lemma score_add_eq (m : Mood) (k : Z) (s : list (Mood * Z)) :
  In m (map fst s) -> score_of (add_score m k s) m = (score_of s m + k)%Z.
Proof.
  induction s as [|it s IH]; simpl; [intros []|]. intros Hin.
  destruct (decide (fst it = m)) as [E|E]; simpl.
  - rewrite decide_True by exact E. reflexivity.
  - rewrite decide_False by exact E. apply IH. destruct Hin; [contradiction|assumption].
Qed.

(** What the chosen mood's score dominates, from the shape of the
    accumulators. *)
Lemma chosen_mood_dominates (ind : MoodIndicators) (m : Mood) :
  determine_advanced_mood ind = Py.Ok m ->
  forall m',
    (score_of (mood_scores ind) m' <= score_of (mood_scores ind) m)%Z /\
    ((rank m' < rank m)%nat ->
     (score_of (mood_scores ind) m' < score_of (mood_scores ind) m)%Z).
Proof.
  unfold determine_advanced_mood.
  destruct (mood_scores_shape ind) as (a & b & c & d & e & ->).
  unfold Py.max_by_key, Py.bind.
  match goal with
  | |- context [fold_left ?f ?xs ?x] =>
      destruct (max_fold_first snd xs x) as (pre & post & E & Hpre & Hpost);
      remember (fold_left f xs x) as r eqn:Hr; clear Hr
  end.
  intros [= <-] m'.
  destruct pre as [|p1 [|p2 [|p3 [|p4 [|p5 pre]]]]]; simpl in E;
    simplify_eq; simpl;
    repeat match goal with
           | H : Forall _ (_ :: _) |- _ => apply Forall_cons in H; destruct H
           | H : Forall _ [] |- _ => clear H
           end; simpl in *;
    try (destruct pre; discriminate);
    destruct m'; simpl; split; intros; lia.
Qed.

(** The cases of an absolute value. *)
Lemma Qabs_cases (x : Q) :
  (0 <= x /\ Qabs x == x) \/ (x < 0 /\ Qabs x == - x).
Proof.
  destruct (Qlt_le_dec x 0) as [Hneg|Hpos].
  - right. split; [exact Hneg|]. apply Qabs_neg. lra.
  - left. split; [exact Hpos|]. apply Qabs_pos. exact Hpos.
Qed.

(** X1. For the indicators the bot builds for a chain (volatility =
    |change| / 100, no optional indicator) the mood depends on the 24h
    change alone: bullish above 2, neutral from -2 to 2, recovering from -5
    to below -2, bearish below -5. The bot never obtains volatile. *)
Theorem bot_mood_by_price_change (data : Snapshot) :
  let change := price_change_percentage_24h data in
  let mood := determine_advanced_mood (chain_indicators data) in
  (2 < change -> mood = Py.Ok BULLISH) /\
  (-2 <= change <= 2 -> mood = Py.Ok NEUTRAL) /\
  (-5 <= change < -2 -> mood = Py.Ok RECOVERING) /\
  (change < -5 -> mood = Py.Ok BEARISH) /\
  mood <> Py.Ok VOLATILE.
Proof.
  intros change mood.
  assert (Hcases :
    (2 < change -> mood = Py.Ok BULLISH) /\
    (-2 <= change <= 2 -> mood = Py.Ok NEUTRAL) /\
    (-5 <= change < -2 -> mood = Py.Ok RECOVERING) /\
    (change < -5 -> mood = Py.Ok BEARISH)).
  { subst mood. unfold determine_advanced_mood, mood_scores, score_liquidation,
      score_funding, score_social, score_recovery, score_volume, score_volatility,
      score_price_change, chain_indicators. simpl. fold change.
    assert (Hv : Qabs change / 100 == Qabs change * 0.01) by (field; discriminate).
    remember (Qabs change / 100) as v eqn:Hdef; clear Hdef.
    destruct (Qabs_cases change) as [[Hs Ha]|[Hs Ha]];
      remember (Qabs change) as a eqn:Hdef; clear Hdef;
      (split; [|split; [|split]]); intros Hc;
      repeat (q_case; simpl; try lra); reflexivity. }
  destruct Hcases as (Hb & Hn & Hr & Hbe).
  split; [exact Hb|]. split; [exact Hn|]. split; [exact Hr|]. split; [exact Hbe|].
  destruct (Qlt_le_dec 2 change) as [H1|H1]; [rewrite (Hb H1); discriminate|].
  destruct (Qlt_le_dec change (-2)) as [H2|H2]; [|rewrite Hn by auto; discriminate].
  destruct (Qlt_le_dec change (-5)) as [H3|H3]; [rewrite (Hbe H3); discriminate|].
  rewrite Hr by auto. discriminate.
Qed.

Lemma score_add_ge (m m' : Mood) (k : Z) (s : list (Mood * Z)) :
  (0 <= k)%Z -> (score_of s m' <= score_of (add_score m k s) m')%Z.
Proof.
  intros Hk. induction s as [|it s IH]; simpl; [lia|].
  destruct (decide (fst it = m)); simpl; destruct (decide (fst it = m')); simpl; lia.
Qed.

(** No scoring step lowers an accumulator. *)
Lemma scoring_steps_grow (ind : MoodIndicators) (m : Mood) (s : list (Mood * Z)) :
  (score_of s m <= score_of (score_price_change ind s) m)%Z /\
  (score_of s m <= score_of (score_volatility ind s) m)%Z /\
  (score_of s m <= score_of (score_volume ind s) m)%Z /\
  (score_of s m <= score_of (score_recovery ind s) m)%Z /\
  (score_of s m <= score_of (score_social ind s) m)%Z /\
  (score_of s m <= score_of (score_funding ind s) m)%Z /\
  (score_of s m <= score_of (score_liquidation ind s) m)%Z.
Proof.
  unfold score_price_change, score_volatility, score_volume, score_recovery,
    score_social, score_funding, score_liquidation.
  repeat split; repeat case_match; try lia;
    repeat (etransitivity; [|apply score_add_ge; lia]); lia.
Qed.

Lemma mood_scores_nonneg (ind : MoodIndicators) (m : Mood) :
  (0 <= score_of (mood_scores ind) m)%Z.
Proof.
  unfold mood_scores.
  assert (Hinit : (0 <= score_of initial_scores m)%Z) by (destruct m; simpl; lia).
  repeat match goal with
         | |- (0 <= score_of (?f ind ?s) m)%Z =>
             let H := fresh in
             pose proof (scoring_steps_grow ind m s) as H;
             assert (0 <= score_of s m)%Z; [|lia]; clear H
         end.
  exact Hinit.
Qed.

(** A mood other than the first of the order is chosen only with a
    positive score. *)
Lemma chosen_mood_positive (ind : MoodIndicators) (m : Mood) :
  determine_advanced_mood ind = Py.Ok m -> m <> BULLISH ->
  (0 < score_of (mood_scores ind) m)%Z.
Proof.
  intros Hm Hne.
  destruct (chosen_mood_dominates ind m Hm BULLISH) as [_ Hlt].
  pose proof (mood_scores_nonneg ind BULLISH).
  assert (Hr : (rank BULLISH < rank m)%nat) by (destruct m; simpl; try lia; congruence).
  specialize (Hlt Hr). lia.
Qed.

(** A step leaves an accumulator alone when its rules for that mood do
    not fire (the hypotheses in the context say so). *)
Ltac step_same :=
  unfold score_liquidation, score_funding, score_social, score_recovery,
    score_volume, score_volatility, score_price_change;
  repeat match goal with
         | |- context [match ?o with Some _ => _ | None => _ end] =>
             destruct o; simpl in *
         end;
  repeat (q_case; simpl; try lra);
  rewrite ?score_add_ne by discriminate; try reflexivity.

Ltac zero_score m :=
  unfold mood_scores;
  repeat match goal with
         | |- score_of (?f ?ind ?s) m = 0%Z =>
             transitivity (score_of s m); [generalize s; intro; step_same|]
         end;
  reflexivity.

Lemma neutral_needs_flat_price (ind : MoodIndicators) :
  price_change ind < -2 \/ 2 < price_change ind ->
  score_of (mood_scores ind) NEUTRAL = 0%Z.
Proof. intros Hpc. zero_score NEUTRAL. Qed.

Lemma recovering_needs_dip (ind : MoodIndicators) :
  price_change ind < -8 \/ -2 <= price_change ind ->
  score_of (mood_scores ind) RECOVERING = 0%Z.
Proof. intros Hpc. zero_score RECOVERING. Qed.

Lemma volatile_needs_signal (ind : MoodIndicators) :
  volatility ind <= 0.05 ->
  trading_volume ind <= 1.5e9 ->
  match funding_rates ind with Some f => Qabs f <= 0.01 | None => True end ->
  match liquidation_volume ind with Some l => l <= 100e6 | None => True end ->
  score_of (mood_scores ind) VOLATILE = 0%Z.
Proof. intros Hvol Htv Hf Hl. zero_score VOLATILE. Qed.

Lemma bearish_needs_signal (ind : MoodIndicators) :
  -5 <= price_change ind ->
  trading_volume ind <= 1.5e9 \/ 0 < price_change ind ->
  match social_sentiment ind with Some x => 0.3 <= x | None => True end ->
  match liquidation_volume ind with Some l => l <= 100e6 | None => True end ->
  score_of (mood_scores ind) BEARISH = 0%Z.
Proof. intros Hpc Htv Hs Hl. zero_score BEARISH. Qed.

(** X2. The classifier returns a mood other than bullish only when a rule
    for that mood fired: neutral needs -2 <= price_change <= 2; recovering
    needs -8 <= price_change < -2; volatile needs volatility above 0.05,
    high volume, funding rates beyond 1 % or liquidations above 100e6;
    bearish needs price_change below -5, high volume without a rise, social
    sentiment below 0.3 or liquidations above 100e6. Bullish is what is
    returned when no rule fires at all. *)
Theorem mood_needs_its_rule (ind : MoodIndicators) :
  (determine_advanced_mood ind = Py.Ok NEUTRAL ->
   -2 <= price_change ind <= 2) /\
  (determine_advanced_mood ind = Py.Ok RECOVERING ->
   -8 <= price_change ind < -2) /\
  (determine_advanced_mood ind = Py.Ok VOLATILE ->
   0.05 < volatility ind \/ 1.5e9 < trading_volume ind \/
   (exists f, funding_rates ind = Some f /\ 0.01 < Qabs f) \/
   (exists l, liquidation_volume ind = Some l /\ 100e6 < l)) /\
  (determine_advanced_mood ind = Py.Ok BEARISH ->
   price_change ind < -5 \/
   (1.5e9 < trading_volume ind /\ price_change ind <= 0) \/
   (exists x, social_sentiment ind = Some x /\ x < 0.3) \/
   (exists l, liquidation_volume ind = Some l /\ 100e6 < l)) /\
  ((forall m, score_of (mood_scores ind) m = 0%Z) ->
   determine_advanced_mood ind = Py.Ok BULLISH).
Proof.
  split; [|split; [|split; [|split]]].
  - intros Hm. pose proof (chosen_mood_positive ind NEUTRAL Hm ltac:(discriminate)) as Hpos.
    destruct (Qlt_le_dec (price_change ind) (-2)) as [H1|H1];
      [rewrite neutral_needs_flat_price in Hpos by auto; lia|].
    destruct (Qlt_le_dec 2 (price_change ind)) as [H2|H2];
      [rewrite neutral_needs_flat_price in Hpos by auto; lia|].
    auto.
  - intros Hm.
    pose proof (chosen_mood_positive ind RECOVERING Hm ltac:(discriminate)) as Hpos.
    destruct (Qlt_le_dec (price_change ind) (-8)) as [H1|H1];
      [rewrite recovering_needs_dip in Hpos by auto; lia|].
    destruct (Qlt_le_dec (price_change ind) (-2)) as [H2|H2];
      [auto | rewrite recovering_needs_dip in Hpos by auto; lia].
  - intros Hm.
    pose proof (chosen_mood_positive ind VOLATILE Hm ltac:(discriminate)) as Hpos.
    destruct (Qlt_le_dec 0.05 (volatility ind)) as [H1|H1]; [auto|].
    destruct (Qlt_le_dec 1.5e9 (trading_volume ind)) as [H2|H2]; [auto|].
    assert (H3 : (exists f, funding_rates ind = Some f /\ 0.01 < Qabs f) \/
                 match funding_rates ind with Some f => Qabs f <= 0.01 | None => True end).
    { destruct (funding_rates ind) as [f|]; [|auto].
      destruct (Qlt_le_dec 0.01 (Qabs f)); eauto. }
    destruct H3 as [H3|H3]; [auto|].
    assert (H4 : (exists l, liquidation_volume ind = Some l /\ 100e6 < l) \/
                 match liquidation_volume ind with Some l => l <= 100e6 | None => True end).
    { destruct (liquidation_volume ind) as [l|]; [|auto].
      destruct (Qlt_le_dec 100e6 l); eauto. }
    destruct H4 as [H4|H4]; [auto|].
    rewrite volatile_needs_signal in Hpos by assumption. lia.
  - intros Hm.
    pose proof (chosen_mood_positive ind BEARISH Hm ltac:(discriminate)) as Hpos.
    destruct (Qlt_le_dec (price_change ind) (-5)) as [H1|H1]; [auto|].
    assert (H2 : (1.5e9 < trading_volume ind /\ price_change ind <= 0) \/
                 (trading_volume ind <= 1.5e9 \/ 0 < price_change ind)).
    { destruct (Qlt_le_dec 1.5e9 (trading_volume ind)); [|auto].
      destruct (Qlt_le_dec 0 (price_change ind)); auto. }
    destruct H2 as [H2|H2]; [auto|].
    assert (H3 : (exists x, social_sentiment ind = Some x /\ x < 0.3) \/
                 match social_sentiment ind with Some x => 0.3 <= x | None => True end).
    { destruct (social_sentiment ind) as [x|]; [|auto].
      destruct (Qlt_le_dec x 0.3); eauto. }
    destruct H3 as [H3|H3]; [auto|].
    assert (H4 : (exists l, liquidation_volume ind = Some l /\ 100e6 < l) \/
                 match liquidation_volume ind with Some l => l <= 100e6 | None => True end).
    { destruct (liquidation_volume ind) as [l|]; [|auto].
      destruct (Qlt_le_dec 100e6 l); eauto. }
    destruct H4 as [H4|H4]; [auto 6|].
    rewrite bearish_needs_signal in Hpos by assumption. lia.
  - intros Hzero. unfold determine_advanced_mood.
    destruct (mood_scores_shape ind) as (a & b & c & d & e & Hshape).
    pose proof (Hzero BULLISH) as Ha. pose proof (Hzero BEARISH) as Hb.
    pose proof (Hzero NEUTRAL) as Hc. pose proof (Hzero VOLATILE) as Hd.
    pose proof (Hzero RECOVERING) as He.
    rewrite Hshape in *. simpl in *. subst. reflexivity.
Qed.

(** ** Correlations, further *)

(** The result is the fallback with nothing stored, or a computed record
    that is also the row appended to the store. *)
Lemma calculate_correlations_cases (db : Database) (market_data : gmap string Snapshot) :
  _calculate_correlations db market_data = (fallback_correlations, db) \/
  exists sol dot,
    market_data !! "SOL" = Some sol /\
    market_data !! "DOT" = Some dot /\
    ~ Py.max (Qabs (price_change_percentage_24h sol))
             (Qabs (price_change_percentage_24h dot)) == 0 /\
    ~ Py.max (volume sol) (volume dot) == 0 /\
    ~ market_cap dot == 0 /\
    let c :=
      {| price_correlation :=
           1 - Qabs (price_change_percentage_24h sol - price_change_percentage_24h dot)
               / Py.max (Qabs (price_change_percentage_24h sol))
                        (Qabs (price_change_percentage_24h dot));
         volume_correlation :=
           1 - Qabs ((volume sol - volume dot) / Py.max (volume sol) (volume dot));
         market_cap_ratio := market_cap sol / market_cap dot |} in
    _calculate_correlations db market_data = (c, store_correlation_analysis db c).
Proof.
  unfold _calculate_correlations, calculate_correlations_body, getitem.
  destruct (market_data !! "SOL") as [sol|]; [|left; reflexivity].
  destruct (market_data !! "DOT") as [dot|]; [|left; reflexivity]. simpl.
  unfold Py.div.
  destruct (Py.eqb (Py.max (Qabs _) (Qabs _)) 0) eqn:Hp; [left; reflexivity|]. simpl.
  destruct (Py.eqb (Py.max (volume sol) (volume dot)) 0) eqn:Hv; [left; reflexivity|]. simpl.
  destruct (Py.eqb (market_cap dot) 0) eqn:Hc; [left; reflexivity|]. simpl.
  right. exists sol, dot. apply eqb_false in Hp, Hv, Hc. auto 10.
Qed.

Lemma max_bounds (x y : Q) : x <= Py.max x y /\ y <= Py.max x y.
Proof. destruct (max_cases x y) as [[-> ?]|[-> ?]]; lra. Qed.

Lemma max_comm (x y : Q) : Py.max x y == Py.max y x.
Proof.
  destruct (max_cases x y) as [[-> ?]|[-> ?]], (max_cases y x) as [[-> ?]|[-> ?]]; lra.
Qed.

(** X3. Whatever the market data, the returned price correlation lies in
    [-1, 1] and the volume correlation is at most 1; when neither volume is
    negative the volume correlation lies in [0, 1]. *)
Theorem correlations_bounded (db : Database) (market_data : gmap string Snapshot) :
  let c := fst (_calculate_correlations db market_data) in
  -1 <= price_correlation c <= 1 /\
  volume_correlation c <= 1 /\
  ((forall chain data, market_data !! chain = Some data -> 0 <= volume data) ->
   0 <= volume_correlation c).
Proof.
  intros c. subst c.
  destruct (calculate_correlations_cases db market_data)
    as [->|(sol & dot & Hsol & Hdot & Hp & Hv & Hc & ->)];
    unfold fallback_correlations; cbn [fst price_correlation volume_correlation].
  { split; [lra|]. split; [lra|]. intros _. lra. }
  set (a := price_change_percentage_24h sol) in *.
  set (b := price_change_percentage_24h dot) in *.
  pose proof (max_bounds (Qabs a) (Qabs b)) as [Ha Hb].
  pose proof (Qabs_nonneg a) as Hna. pose proof (Qabs_nonneg b) as Hnb.
  assert (Hm : 0 < Py.max (Qabs a) (Qabs b)).
  { destruct (Qlt_le_dec 0 (Py.max (Qabs a) (Qabs b))); [assumption|].
    exfalso. apply Hp. lra. }
  assert (Hd : Qabs (a - b) <= 2 * Py.max (Qabs a) (Qabs b)).
  { pose proof (Qabs_triangle a (- b)) as Ht. rewrite Qabs_opp in Ht.
    assert (E : a + - b == a - b) by ring. rewrite E in Ht. lra. }
  assert (Hq : 0 <= Qabs (a - b) / Py.max (Qabs a) (Qabs b) <= 2).
  { split.
    - apply Qle_shift_div_l; [exact Hm|]. pose proof (Qabs_nonneg (a - b)). lra.
    - apply Qle_shift_div_r; [exact Hm | exact Hd]. }
  split; [remember (Qabs (a - b) / Py.max (Qabs a) (Qabs b)) as q; lra|].
  pose proof (Qabs_nonneg ((volume sol - volume dot) / Py.max (volume sol) (volume dot)))
    as Hnn.
  split; [remember (Qabs ((volume sol - volume dot) / Py.max (volume sol) (volume dot)))
            as q; lra|].
  intros Hvol.
  pose proof (Hvol "SOL" sol Hsol) as Hvs. pose proof (Hvol "DOT" dot Hdot) as Hvd.
  pose proof (max_bounds (volume sol) (volume dot)) as [Hms Hmd].
  assert (Hmv : 0 < Py.max (volume sol) (volume dot)).
  { destruct (Qlt_le_dec 0 (Py.max (volume sol) (volume dot))); [assumption|].
    exfalso. apply Hv. lra. }
  assert (Hle : Qabs ((volume sol - volume dot) / Py.max (volume sol) (volume dot)) <= 1).
  { apply Qabs_Qle_condition. split.
    - apply Qle_shift_div_l; [exact Hmv|]. lra.
    - apply Qle_shift_div_r; [exact Hmv|]. lra. }
  remember (Qabs ((volume sol - volume dot) / Py.max (volume sol) (volume dot))) as q.
  lra.
Qed.

(** X4. The failure policy: when SOL or DOT is missing from the market
    data, when both 24h changes are zero, when the larger volume is zero or
    when DOT's market cap is zero, the result is the fallback (0, 0, 1) and
    nothing is written to the store. In every other case exactly one row is
    written, and it is the returned record. *)
Theorem correlations_failure_policy (db : Database) (market_data : gmap string Snapshot) :
  ((market_data !! "SOL" = None \/ market_data !! "DOT" = None \/
    exists sol dot,
      market_data !! "SOL" = Some sol /\ market_data !! "DOT" = Some dot /\
      ((price_change_percentage_24h sol == 0 /\ price_change_percentage_24h dot == 0) \/
       Py.max (volume sol) (volume dot) == 0 \/
       market_cap dot == 0)) ->
   _calculate_correlations db market_data = (fallback_correlations, db)) /\
  ((exists sol dot,
      market_data !! "SOL" = Some sol /\ market_data !! "DOT" = Some dot /\
      ~ (price_change_percentage_24h sol == 0 /\ price_change_percentage_24h dot == 0) /\
      ~ Py.max (volume sol) (volume dot) == 0 /\
      ~ market_cap dot == 0) ->
   correlation_analysis (snd (_calculate_correlations db market_data))
   = correlation_analysis db ++ [fst (_calculate_correlations db market_data)]).
Proof.
  split.
  - unfold _calculate_correlations, calculate_correlations_body, getitem.
    intros [H|[H|(sol & dot & Hsol & Hdot & H)]].
    + rewrite H. reflexivity.
    + rewrite H. destruct (market_data !! "SOL"); reflexivity.
    + rewrite Hsol, Hdot. simpl. destruct H as [[Ha Hb]|[H|H]].
      * rewrite div_zero; [reflexivity|].
        destruct (max_cases (Qabs (price_change_percentage_24h sol))
                    (Qabs (price_change_percentage_24h dot))) as [[-> _]|[-> _]].
        -- rewrite Ha. reflexivity.
        -- rewrite Hb. reflexivity.
      * destruct (Py.div _ (Py.max (Qabs _) (Qabs _))); [|reflexivity]. simpl.
        rewrite (div_zero _ _ H). reflexivity.
      * destruct (Py.div _ (Py.max (Qabs _) (Qabs _))); [|reflexivity]. simpl.
        destruct (Py.div _ (Py.max (volume sol) (volume dot))); [|reflexivity]. simpl.
        rewrite (div_zero _ _ H). reflexivity.
  - intros (sol & dot & Hsol & Hdot & Hp & Hv & Hc).
    assert (Hm : ~ Py.max (Qabs (price_change_percentage_24h sol))
                          (Qabs (price_change_percentage_24h dot)) == 0).
    { intros Hz.
      pose proof (max_bounds (Qabs (price_change_percentage_24h sol))
                    (Qabs (price_change_percentage_24h dot))) as [H1 H2].
      apply Hp. split.
      - destruct (Q_dec (price_change_percentage_24h sol) 0) as [[H|H]|H]; [| |exact H];
          exfalso; pose proof (Qabs_nonzero (price_change_percentage_24h sol)) as Hn;
          assert (0 < Qabs (price_change_percentage_24h sol)) by (apply Hn; lra); lra.
      - destruct (Q_dec (price_change_percentage_24h dot) 0) as [[H|H]|H]; [| |exact H];
          exfalso; pose proof (Qabs_nonzero (price_change_percentage_24h dot)) as Hn;
          assert (0 < Qabs (price_change_percentage_24h dot)) by (apply Hn; lra); lra. }
    rewrite (calculate_correlations_defined db market_data sol dot Hsol Hdot Hm Hv Hc).
    reflexivity.
Qed.

Lemma eqb_zero_compat (x y : Q) : x == y -> Py.eqb x 0 = Py.eqb y 0.
Proof.
  intros E. destruct (Py.eqb y 0) eqn:Hy.
  - apply eqb_spec. apply eqb_spec in Hy. lra.
  - apply eqb_false. apply eqb_false in Hy. lra.
Qed.

(** X5. Swapping the two chains' data: when both market caps are non-zero
    the price correlation and the volume correlation do not change. *)
Theorem correlations_symmetric (db db' : Database)
    (market_data swapped : gmap string Snapshot) (sol dot : Snapshot) :
  market_data !! "SOL" = Some sol -> market_data !! "DOT" = Some dot ->
  swapped !! "SOL" = Some dot -> swapped !! "DOT" = Some sol ->
  ~ market_cap sol == 0 -> ~ market_cap dot == 0 ->
  let c := fst (_calculate_correlations db market_data) in
  let c' := fst (_calculate_correlations db' swapped) in
  price_correlation c == price_correlation c' /\
  volume_correlation c == volume_correlation c'.
Proof.
  intros Hsol Hdot Hsol' Hdot' Hcs Hcd c c'. subst c c'.
  unfold _calculate_correlations, calculate_correlations_body, getitem.
  rewrite Hsol, Hdot, Hsol', Hdot'. cbn [Py.bind].
  set (a := price_change_percentage_24h sol). set (b := price_change_percentage_24h dot).
  set (va := volume sol). set (vb := volume dot).
  unfold Py.div.
  rewrite (eqb_zero_compat _ _ (max_comm (Qabs b) (Qabs a))).
  rewrite (eqb_zero_compat _ _ (max_comm vb va)).
  apply eqb_false in Hcs, Hcd. rewrite Hcs, Hcd.
  destruct (Py.eqb (Py.max (Qabs a) (Qabs b)) 0) eqn:Hp; cbn [Py.bind fst];
    [unfold fallback_correlations; cbn; split; reflexivity|].
  destruct (Py.eqb (Py.max va vb) 0) eqn:Hv; cbn [Py.bind fst];
    [unfold fallback_correlations; cbn; split; reflexivity|].
  cbn [price_correlation volume_correlation].
  apply eqb_false in Hp, Hv.
  split.
  - rewrite (Qabs_Qminus b a). rewrite (max_comm (Qabs b) (Qabs a)). reflexivity.
  - assert (E : (vb - va) / Py.max vb va == - ((va - vb) / Py.max va vb)).
    { rewrite (max_comm vb va). field. exact Hv. }
    rewrite E, Qabs_opp. reflexivity.
Qed.

(** ** Trigger engine, further *)

(** X6. The order of the checks. A price move of SOL at or beyond the
    threshold decides the call, whatever DOT, the volume history or the
    clock say; below it, a volume move of SOL at or beyond its threshold
    decides; below both, a significant volume trend of SOL over its
    history rows decides. DOT is looked at only when SOL triggers nothing:
    a price move of DOT is then reported, and every reason that names DOT
    implies that none of the three checks of SOL fired. The baseline is
    replaced in each case. *)
Theorem trigger_priority (config : Config) (now : Q)
    (history : string -> list VolumePoint) (st : BotState)
    (new_data : gmap string Snapshot) (new last : Snapshot) :
  new_data !! "SOL" = Some new ->
  last_market_data st !! "SOL" = Some last ->
  ~ current_price last == 0 -> ~ volume last == 0 ->
  let price_move := Qabs ((current_price new - current_price last) / current_price last * 100) in
  let volume_move := Qabs ((volume new - volume last) / volume last * 100) in
  let sol_trend := snd (_analyze_volume_trend config (volume new) (history "SOL")) in
  let sol_trend_fires :=
    history "SOL" <> [] /\
    (sol_trend = "significant_increase" \/ sol_trend = "significant_decrease") in
  (PRICE_CHANGE_THRESHOLD config <= price_move ->
   _should_post_update config now history st new_data
   = (set_last_market_data st new_data, Py.Ok (true, Some "price_change_sol"))) /\
  (price_move < PRICE_CHANGE_THRESHOLD config ->
   VOLUME_CHANGE_THRESHOLD config <= volume_move ->
   _should_post_update config now history st new_data
   = (set_last_market_data st new_data, Py.Ok (true, Some "volume_change_sol"))) /\
  (price_move < PRICE_CHANGE_THRESHOLD config ->
   volume_move < VOLUME_CHANGE_THRESHOLD config ->
   sol_trend_fires ->
   _should_post_update config now history st new_data
   = (set_last_market_data st new_data,
      Py.Ok (true, Some ("volume_trend_sol_" +:+ sol_trend)))) /\
  (price_move < PRICE_CHANGE_THRESHOLD config ->
   volume_move < VOLUME_CHANGE_THRESHOLD config ->
   ~ sol_trend_fires ->
   forall new' last',
     new_data !! "DOT" = Some new' -> last_market_data st !! "DOT" = Some last' ->
     ~ current_price last' == 0 -> ~ volume last' == 0 ->
     PRICE_CHANGE_THRESHOLD config
       <= Qabs ((current_price new' - current_price last') / current_price last' * 100) ->
     _should_post_update config now history st new_data
     = (set_last_market_data st new_data, Py.Ok (true, Some "price_change_dot"))) /\
  (forall st' should_post reason,
     _should_post_update config now history st new_data
     = (st', Py.Ok (should_post, Some reason)) ->
     In reason ["price_change_dot"; "volume_change_dot";
                "volume_trend_dot_significant_increase";
                "volume_trend_dot_significant_decrease"] ->
     price_move < PRICE_CHANGE_THRESHOLD config /\
     volume_move < VOLUME_CHANGE_THRESHOLD config /\
     ~ sol_trend_fires).
Proof.
  intros Hnew Hlast Hp Hv price_move volume_move sol_trend sol_trend_fires.
  assert (Hfires : sol_trend_fires <->
                   match history "SOL" with
                   | [] => false
                   | _ => is_significant sol_trend
                   end = true).
  { subst sol_trend_fires. unfold is_significant.
    destruct (history "SOL") as [|row rows].
    - split; [intros [Hne _]; contradiction | discriminate].
    - rewrite bool_decide_eq_true. split; [intros [_ H]; exact H|].
      intros H. split; [discriminate | exact H]. }
  assert (Hloop : check_chains config history (last_market_data st) new_data
                    (map fst target_chains)
                  = if Py.geb price_move (PRICE_CHANGE_THRESHOLD config) then
                      Py.Ok (Some "price_change_sol")
                    else if Py.geb volume_move (VOLUME_CHANGE_THRESHOLD config) then
                      Py.Ok (Some "volume_change_sol")
                    else if match history "SOL" with
                            | [] => false
                            | _ => is_significant sol_trend
                            end then
                      Py.Ok (Some ("volume_trend_sol_" +:+ sol_trend))
                    else check_chains config history (last_market_data st) new_data
                           ["DOT"]).
  { cbn [map fst target_chains check_chains]. rewrite Hnew, Hlast.
    rewrite (div_ok _ _ Hp). cbn [Py.bind]. rewrite (div_ok _ _ Hv). cbn [Py.bind].
    fold price_move volume_move. fold sol_trend.
    destruct (Py.geb price_move _); [reflexivity|].
    destruct (Py.geb volume_move _); [reflexivity|].
    destruct (history "SOL"); [reflexivity|].
    destruct (is_significant sol_trend); reflexivity. }
  unfold _should_post_update. rewrite (baseline_not_empty _ _ _ Hlast), Hloop.
  split; [|split; [|split; [|split]]].
  - intros Hmove. apply geb_spec in Hmove. rewrite Hmove.
    destruct (Py.geb _ (BASE_INTERVAL config)); reflexivity.
  - intros Hquiet Hmove. apply geb_false in Hquiet. apply geb_spec in Hmove.
    rewrite Hquiet, Hmove.
    destruct (Py.geb _ (BASE_INTERVAL config)); reflexivity.
  - intros Hquiet Hquiet' Htrend.
    apply geb_false in Hquiet, Hquiet'. apply Hfires in Htrend.
    rewrite Hquiet, Hquiet', Htrend.
    destruct (Py.geb _ (BASE_INTERVAL config)); reflexivity.
  - intros Hquiet Hquiet' Htrend new' last' Hnew' Hlast' Hp' Hv' Hmove.
    apply geb_false in Hquiet, Hquiet'. apply geb_spec in Hmove.
    rewrite Hfires in Htrend. apply not_true_is_false in Htrend.
    rewrite Hquiet, Hquiet', Htrend.
    cbn [check_chains]. rewrite Hnew', Hlast'.
    rewrite (div_ok _ _ Hp'). cbn [Py.bind]. rewrite (div_ok _ _ Hv'). cbn [Py.bind].
    rewrite Hmove.
    destruct (Py.geb _ (BASE_INTERVAL config)); reflexivity.
  - intros st' should_post reason Hcall Hdot.
    assert (Hnot : forall s : string,
               In s ["price_change_sol"; "volume_change_sol";
                     "volume_trend_sol_significant_increase";
                     "volume_trend_sol_significant_decrease"] ->
               ~ (exists st1 b,
                    (let trigger_reason :=
                       if Py.geb (now - last_check_time st) (BASE_INTERVAL config)
                       then Some (or_regular_interval (Some s)) else Some s in
                     match trigger_reason with
                     | Some _ => (set_last_market_data st new_data,
                                  Py.Ok (true, trigger_reason))
                     | None => (st, Py.Ok (false, trigger_reason))
                     end) = (st1, Py.Ok (b, Some reason)))).
    { intros s Hs (st1 & b & Heq). cbn zeta in Heq.
      assert (Hreason : reason = s).
      { cbn [In] in Hs.
        destruct Hs as [<-|[<-|[<-|[<-|[]]]]];
          destruct (Py.geb _ (BASE_INTERVAL config)); cbn in Heq; congruence. }
      subst reason. cbn [In] in Hs, Hdot.
      destruct Hs as [<-|[<-|[<-|[<-|[]]]]];
        repeat (destruct Hdot as [Hdot|Hdot]; [discriminate Hdot|]); exact Hdot. }
    destruct (Py.geb price_move _) eqn:Hq1.
    { exfalso. apply (Hnot "price_change_sol"); [cbn [In]; auto | eauto]. }
    destruct (Py.geb volume_move _) eqn:Hq2.
    { exfalso. apply (Hnot "volume_change_sol"); [cbn [In]; auto | eauto]. }
    apply geb_false in Hq1, Hq2. split; [exact Hq1|]. split; [exact Hq2|].
    rewrite Hfires.
    destruct (match history "SOL" with [] => false | _ => is_significant sol_trend end)
      eqn:Hsig; [|discriminate].
    exfalso.
    assert (Htrend : sol_trend_fires) by (apply Hfires; reflexivity).
    destruct Htrend as [_ [Ht|Ht]]; rewrite Ht in Hcall.
    + apply (Hnot "volume_trend_sol_significant_increase"); [cbn [In]; auto | eauto].
    + apply (Hnot "volume_trend_sol_significant_decrease"); [cbn [In]; auto 6 | eauto].
Qed.

(** X7. The two percentage changes are computed before either is tested:
    when SOL is in both snapshots and its baseline price or volume is zero,
    the call raises ZeroDivisionError and leaves the state untouched, even
    if the other quantity moved beyond its threshold. *)
Theorem trigger_zero_baseline_raises (config : Config) (now : Q)
    (history : string -> list VolumePoint) (st : BotState)
    (new_data : gmap string Snapshot) (new last : Snapshot) :
  new_data !! "SOL" = Some new ->
  last_market_data st !! "SOL" = Some last ->
  current_price last == 0 \/ volume last == 0 ->
  _should_post_update config now history st new_data
  = (st, Py.Raise Py.ZeroDivisionError).
Proof.
  intros Hnew Hlast Hzero.
  unfold _should_post_update. rewrite (baseline_not_empty _ _ _ Hlast).
  cbn [map fst target_chains check_chains]. rewrite Hnew, Hlast.
  destruct Hzero as [Hz|Hz].
  - rewrite (div_zero _ _ Hz). reflexivity.
  - unfold Py.div at 1. destruct (Py.eqb (current_price last) 0); cbn [Py.bind].
    + reflexivity.
    + rewrite (div_zero _ _ Hz). reflexivity.
Qed.

Lemma no_move_is_zero (x y : Q) : x == y -> Qabs ((x - y) / y * 100) == 0.
Proof.
  intros E. assert (E0 : (x - y) / y * 100 == 0).
  { assert (E1 : x - y == 0) by lra. rewrite E1. unfold Qdiv. ring. }
  rewrite E0. reflexivity.
Qed.

(** With positive thresholds, no history rows and no movement of price or
    volume, the loop over the chains triggers nothing. *)
Lemma check_chains_quiet (config : Config) (history : string -> list VolumePoint)
    (last_data new_data : gmap string Snapshot) (chains : list string) :
  0 < PRICE_CHANGE_THRESHOLD config -> 0 < VOLUME_CHANGE_THRESHOLD config ->
  (forall chain, history chain = []) ->
  (forall chain new last,
     new_data !! chain = Some new -> last_data !! chain = Some last ->
     current_price new == current_price last /\ volume new == volume last /\
     ~ current_price last == 0 /\ ~ volume last == 0) ->
  check_chains config history last_data new_data chains = Py.Ok None.
Proof.
  intros Hpt Hvt Hhist Hsame. induction chains as [|chain chains IH]; [reflexivity|].
  cbn [check_chains].
  destruct (new_data !! chain) as [new|] eqn:Hnew; [|exact IH].
  destruct (last_data !! chain) as [last|] eqn:Hlast; [|exact IH].
  destruct (Hsame chain new last Hnew Hlast) as (Ep & Ev & Hp & Hv).
  rewrite (div_ok _ _ Hp). cbn [Py.bind]. rewrite (div_ok _ _ Hv). cbn [Py.bind].
  pose proof (no_move_is_zero _ _ Ep) as Zp. pose proof (no_move_is_zero _ _ Ev) as Zv.
  replace (Py.geb (Qabs ((current_price new - current_price last) / current_price last * 100))
             (PRICE_CHANGE_THRESHOLD config)) with false
    by (symmetry; apply geb_false; rewrite Zp; exact Hpt).
  replace (Py.geb (Qabs ((volume new - volume last) / volume last * 100))
             (VOLUME_CHANGE_THRESHOLD config)) with false
    by (symmetry; apply geb_false; rewrite Zv; exact Hvt).
  rewrite Hhist. exact IH.
Qed.

(** X8. A market that did not move is posted on schedule only. With
    positive thresholds, a non-empty baseline of non-zero prices and
    volumes, no volume history and new snapshots whose prices and volumes
    equal the baseline's: the decision is (true, regular_interval), with the
    baseline replaced, once BASE_INTERVAL has elapsed since the last check,
    and (false, null), with the state untouched, before. *)
Theorem unchanged_market_posts_on_schedule (config : Config) (now : Q)
    (history : string -> list VolumePoint) (st : BotState)
    (new_data : gmap string Snapshot) :
  0 < PRICE_CHANGE_THRESHOLD config -> 0 < VOLUME_CHANGE_THRESHOLD config ->
  (forall chain, history chain = []) ->
  last_market_data st <> ∅ ->
  (forall chain new last,
     new_data !! chain = Some new -> last_market_data st !! chain = Some last ->
     current_price new == current_price last /\ volume new == volume last /\
     ~ current_price last == 0 /\ ~ volume last == 0) ->
  (BASE_INTERVAL config <= now - last_check_time st ->
   _should_post_update config now history st new_data
   = (set_last_market_data st new_data, Py.Ok (true, Some "regular_interval"))) /\
  (now - last_check_time st < BASE_INTERVAL config ->
   _should_post_update config now history st new_data = (st, Py.Ok (false, None))).
Proof.
  intros Hpt Hvt Hhist Hne Hsame. unfold _should_post_update.
  replace (size (last_market_data st) =? 0)%nat with false
    by (symmetry; apply Nat.eqb_neq; intros Hz; apply Hne, map_size_empty_iff, Hz).
  rewrite (check_chains_quiet config history _ _ _ Hpt Hvt Hhist Hsame).
  split; intros Ht.
  - apply geb_spec in Ht. rewrite Ht. reflexivity.
  - apply geb_false in Ht. rewrite Ht. reflexivity.
Qed.

(** ** Callbacks to past predictions *)

Lemma validate_pending_steps (now : Q) (current_prices : gmap string Q)
    (predictions : list Prediction) :
  Forall2 (outcome_step now current_prices) predictions
    (fst (validate_pending now current_prices predictions)).
Proof.
  induction predictions as [|p rest IH]; simpl; [constructor|].
  destruct (validate_pending now current_prices rest) as [rest' r]. simpl in IH.
  destruct (is_recent now p) eqn:Hrecent.
  - destruct (p_outcome p) eqn:Hout.
    + simpl. constructor; [left; reflexivity | exact IH].
    + destruct (_validate_past_prediction p current_prices) as [o|e] eqn:Hval; simpl.
      * constructor; [|exact IH]. right. eauto 6.
      * apply Forall2_same_length_lookup. split; [reflexivity|].
        intros i x y Hx Hy. rewrite Hx in Hy. injection Hy as <-. left. reflexivity.
  - simpl. constructor; [left; reflexivity | exact IH].
Qed.

Lemma validate_pending_decided (now : Q) (current_prices : gmap string Q)
    (predictions : list Prediction) :
  snd (validate_pending now current_prices predictions) = Py.Ok tt ->
  Forall (fun p => is_recent now p = true -> p_outcome p <> None)
    (fst (validate_pending now current_prices predictions)).
Proof.
  induction predictions as [|p rest IH]; simpl; [constructor|].
  destruct (validate_pending now current_prices rest) as [rest' r]. simpl in IH.
  destruct (is_recent now p) eqn:Hrecent.
  - destruct (p_outcome p) eqn:Hout.
    + simpl. intros Hr. constructor; [|exact (IH Hr)]. intros _. congruence.
    + destruct (_validate_past_prediction p current_prices) as [o|e]; simpl;
        [|discriminate].
      intros Hr. constructor; [|exact (IH Hr)]. intros _. discriminate.
  - simpl. intros Hr. constructor; [|exact (IH Hr)].
    intros Hrec. congruence.
Qed.

Lemma validate_pending_nothing_pending (now : Q) (current_prices : gmap string Q)
    (predictions : list Prediction) :
  Forall (fun p => is_recent now p = true -> p_outcome p <> None) predictions ->
  validate_pending now current_prices predictions = (predictions, Py.Ok tt).
Proof.
  induction 1 as [|p rest Hp Hrest IH]; simpl; [reflexivity|].
  rewrite IH. destruct (is_recent now p); [|reflexivity].
  destruct (p_outcome p); [reflexivity|]. exfalso. apply Hp; reflexivity.
Qed.

(** X9. A callback request changes nothing but outcomes, and only those of
    recent entries that were still pending: the tracked list keeps its
    length and order, an entry whose outcome was already set is left exactly
    as it was, and a pending recent entry is either left as it was or given
    the outcome its validation returns. This holds whether the call returns
    or raises. *)
Theorem callback_only_sets_pending_outcomes (now now_ago : Q) (seed : Z) (st : BotState)
    (current_prices : gmap string Q) :
  let st' := fst (_get_spicy_callback now now_ago seed st current_prices) in
  last_market_data st' = last_market_data st /\
  last_check_time st' = last_check_time st /\
  length (past_predictions st') = length (past_predictions st) /\
  Forall2 (outcome_step now current_prices) (past_predictions st) (past_predictions st') /\
  (forall i p o,
     past_predictions st !! i = Some p -> p_outcome p = Some o ->
     past_predictions st' !! i = Some p).
Proof.
  intros st'.
  assert (Hsteps : last_market_data st' = last_market_data st /\
                   last_check_time st' = last_check_time st /\
                   Forall2 (outcome_step now current_prices)
                     (past_predictions st) (past_predictions st')).
  { subst st'. unfold _get_spicy_callback.
    assert (Hid : Forall2 (outcome_step now current_prices)
                    (past_predictions st) (past_predictions st)).
    { apply Forall2_same_length_lookup. split; [reflexivity|].
      intros i x y Hx Hy. rewrite Hx in Hy. injection Hy as <-. left. reflexivity. }
    destruct (filter _ (past_predictions st)); [simpl; auto|].
    pose proof (validate_pending_steps now current_prices (past_predictions st)) as H.
    destruct (validate_pending now current_prices (past_predictions st)) as [updated r].
    simpl in H. destruct r as [[]|e]; [|simpl; auto].
    destruct (last _); simpl; auto. }
  destruct Hsteps as (Hm & Ht & Hall).
  split; [exact Hm|]. split; [exact Ht|].
  split; [symmetry; exact (Forall2_length _ _ _ Hall)|]. split; [exact Hall|].
  intros i p o Hp Ho.
  destruct (Forall2_lookup_l _ _ _ _ _ Hall Hp) as (p' & Hp' & [->|(Hnone & _)]);
    [exact Hp' | congruence].
Qed.

Lemma callback_index_in_range (seed : Z) (time_ago : Z) (prediction : string) :
  exists text,
    callbacks time_ago prediction !! Z.to_nat (seed mod 3) = Some text /\
    In text (callbacks time_ago prediction).
Proof.
  assert (Hlt : (Z.to_nat (seed mod 3) < length (callbacks time_ago prediction))%nat).
  { pose proof (Z.mod_pos_bound seed 3 ltac:(lia)). simpl. lia. }
  destruct (lookup_lt_is_Some_2 _ _ Hlt) as [text Htext].
  exists text. split; [exact Htext|].
  apply list_elem_of_In. eapply list_elem_of_lookup_2. exact Htext.
Qed.

(** X10. When a callback request returns: every recent entry has an
    outcome; the result is null exactly when no recent entry is wrong; and
    a text is one of the three templates filled with the age in whole hours
    and the text of the wrong recent entry that comes last in the tracked
    list. *)
Theorem callback_reports_latest_wrong (now now_ago : Q) (seed : Z) (st st' : BotState)
    (current_prices : gmap string Q) (result : option string) :
  _get_spicy_callback now now_ago seed st current_prices = (st', Py.Ok result) ->
  Forall (fun p => is_recent now p = true -> p_outcome p <> None) (past_predictions st') /\
  (result = None <->
   Forall (fun p => ~ (is_recent now p = true /\ p_outcome p = Some "wrong"))
     (past_predictions st')) /\
  (forall text, result = Some text ->
     exists before worst after,
       past_predictions st' = before ++ worst :: after /\
       is_recent now worst = true /\ p_outcome worst = Some "wrong" /\
       Forall (fun p => ~ (is_recent now p = true /\ p_outcome p = Some "wrong")) after /\
       In text (callbacks (Py.int ((now_ago - p_timestamp worst) / 3600))
                  (p_prediction worst))).
Proof.
  unfold _get_spicy_callback.
  destruct (filter (fun p => is_recent now p = true) (past_predictions st))
    as [|r0 recent] eqn:Hrecent.
  - intros [= <- <-].
    assert (Hnone : Forall (fun p => is_recent now p <> true) (past_predictions st)).
    { apply Forall_forall. intros p Hin Hp.
      eapply (filter_nil_not_elem_of _ _ p Hrecent); [exact Hp | exact Hin]. }
    split; [|split].
    + eapply Forall_impl; [exact Hnone|]. intros p Hp Hrec. contradiction.
    + split; [intros _|reflexivity].
      eapply Forall_impl; [exact Hnone|]. intros p Hp [Hrec _]. contradiction.
    + discriminate.
  - pose proof (validate_pending_decided now current_prices (past_predictions st)) as Hdec.
    destruct (validate_pending now current_prices (past_predictions st)) as [updated r].
    simpl in Hdec. destruct r as [[]|e]; [|discriminate].
    specialize (Hdec eq_refl).
    destruct (last (filter _ updated)) as [worst|] eqn:Hlast.
    + destruct (callback_index_in_range seed
                  (Py.int ((now_ago - p_timestamp worst) / 3600)) (p_prediction worst))
        as (text & Htext & Hin).
      rewrite Htext. intros [= <- <-]. simpl.
      destruct (last_filter_Some _ _ _ Hlast) as (before & after & Hsplit & Hafter).
      pose proof (last_Some_elem_of _ _ Hlast) as Hworst.
      apply list_elem_of_filter in Hworst. destruct Hworst as [[Hrec Hwrong] _].
      split; [exact Hdec|]. split.
      * split; [discriminate|]. intros Hall. exfalso.
        rewrite Hsplit in Hall. apply Forall_app in Hall. destruct Hall as [_ Hall].
        apply Forall_cons in Hall. destruct Hall as [Hw _]. apply Hw. auto.
      * intros text' [= <-]. exists before, worst, after. auto 6.
    + intros [= <- <-]. simpl.
      split; [exact Hdec|]. split; [|discriminate].
      split; [intros _|reflexivity].
      apply last_None in Hlast. apply Forall_forall. intros p Hin Hp.
      eapply (filter_nil_not_elem_of _ _ p Hlast); [exact Hp | exact Hin].
Qed.

Lemma recent_later (now now' : Q) (p : Prediction) :
  now <= now' -> is_recent now' p = true -> is_recent now p = true.
Proof.
  unfold is_recent. intros Hle H. apply gtb_spec in H. apply gtb_spec. lra.
Qed.

(** X11. An outcome is computed once. After a callback request that
    returned, a further request at the same or a later instant, with any
    prices and any seed, leaves the tracked predictions and the rest of the
    state exactly as they are, and it does not raise. *)
Theorem callback_validates_once (now now_ago now' now_ago' : Q) (seed seed' : Z) (st st' : BotState)
    (current_prices current_prices' : gmap string Q) (result : option string) :
  _get_spicy_callback now now_ago seed st current_prices = (st', Py.Ok result) ->
  now <= now' ->
  exists result',
    _get_spicy_callback now' now_ago' seed' st' current_prices' = (st', Py.Ok result').
Proof.
  intros Hcall Hle.
  assert (Hdec : Forall (fun p => is_recent now' p = true -> p_outcome p <> None)
                   (past_predictions st')).
  { assert (H : Forall (fun p => is_recent now p = true -> p_outcome p <> None)
                  (past_predictions st')).
    { revert Hcall. unfold _get_spicy_callback.
      destruct (filter (fun p => is_recent now p = true) (past_predictions st))
        as [|r0 recent] eqn:Hrecent.
      - intros [= <- <-]. apply Forall_forall. intros p Hin Hp. exfalso.
        eapply (filter_nil_not_elem_of _ _ p Hrecent); [exact Hp | exact Hin].
      - pose proof (validate_pending_decided now current_prices (past_predictions st))
          as Hd.
        destruct (validate_pending now current_prices (past_predictions st))
          as [updated r].
        simpl in Hd. destruct r as [[]|e]; [|discriminate].
        destruct (last _); intros [= <- <-]; exact (Hd eq_refl). }
    eapply Forall_impl; [exact H|]. intros p Hp Hrec.
    apply Hp. eapply recent_later; eassumption. }
  unfold _get_spicy_callback.
  destruct (filter (fun p => is_recent now' p = true) (past_predictions st'));
    [eauto|].
  rewrite (validate_pending_nothing_pending now' current_prices' _ Hdec).
  assert (Hst : set_past_predictions st' (past_predictions st') = st')
    by (destruct st'; reflexivity).
  rewrite Hst. destruct (last _); eauto.
Qed.

(** ** Tweet formatting *)

Lemma length_app_string (s1 s2 : string) :
  String.length (s1 +:+ s2) = (String.length s1 + String.length s2)%nat.
Proof. induction s1 as [|c s1 IH]; simpl; [reflexivity|]. rewrite IH. reflexivity. Qed.

Lemma length_take (k : nat) (s : string) :
  String.length (Py.take k s) = Nat.min k (String.length s).
Proof.
  revert s. induction k as [|k IH]; intros [|c s]; simpl; try reflexivity.
  rewrite IH. reflexivity.
Qed.

Lemma take_prefix (k : nat) (s : string) :
  exists rest, s = Py.take k s +:+ rest.
Proof.
  revert s. induction k as [|k IH]; intros s.
  - exists s. destruct s; reflexivity.
  - destruct s as [|c s]; [exists EmptyString; reflexivity|].
    destruct (IH s) as [rest Hrest]. exists rest.
    change (String c s = String c (Py.take k s +:+ rest)). f_equal. exact Hrest.
Qed.

Lemma length_with_hashtags (analysis : string) :
  String.length (with_hashtags analysis) = (String.length analysis + 31)%nat.
Proof. unfold with_hashtags. rewrite !length_app_string. simpl. lia. Qed.

(** X12. The formatted tweet is the analysis, or a prefix of it followed by
    three dots, then a blank line and the four hashtags. An analysis that
    fits is kept in full. When HARD_STOP_LENGTH - 20 is at least 52 the
    tweet is never longer than HARD_STOP_LENGTH - 20. Below 52 the slice
    bound is negative and cuts from the end instead: a tweet that was too
    long comes out HARD_STOP_LENGTH - 38 characters longer than the
    analysis, which is above the limit once the analysis has more than 18
    characters. *)
Theorem format_tweet_length (HARD_STOP_LENGTH : Z) (analysis : string) :
  let max_length := (HARD_STOP_LENGTH - 20)%Z in
  let tweet := _format_tweet_analysis HARD_STOP_LENGTH analysis in
  (exists kept rest,
     analysis = kept +:+ rest /\
     (tweet = with_hashtags analysis \/ tweet = with_hashtags (kept +:+ "..."))) /\
  ((Z.of_nat (String.length analysis) + 31 <= max_length)%Z ->
   tweet = with_hashtags analysis) /\
  ((52 <= max_length)%Z -> (Z.of_nat (String.length tweet) <= max_length)%Z) /\
  ((max_length < 52)%Z ->
   (max_length < Z.of_nat (String.length analysis) + 31)%Z ->
   (52 - max_length <= Z.of_nat (String.length analysis))%Z ->
   Z.of_nat (String.length tweet)
   = (Z.of_nat (String.length analysis) + max_length - 18)%Z).
Proof.
  intros max_length tweet. subst tweet. unfold _format_tweet_analysis.
  fold max_length. rewrite (length_with_hashtags analysis).
  change (Z.of_nat (String.length hashtags)) with 29%Z.
  split; [|split; [|split]].
  - destruct (max_length <? _)%Z.
    + unfold Py.slice_to.
      destruct (0 <=? max_length - 29 - 23)%Z;
        match goal with
        | |- context [Py.take ?k analysis] =>
            destruct (take_prefix k analysis) as [rest Hrest];
            exists (Py.take k analysis), rest; auto
        end.
    + exists analysis, EmptyString. split; [|auto].
      clear. induction analysis as [|c s IH]; [reflexivity|].
      change (String c s = String c (s +:+ EmptyString)). f_equal. exact IH.
  - intros Hfit. destruct (Z.ltb_spec max_length (Z.of_nat (String.length analysis + 31)));
      [lia | reflexivity].
  - intros Hbig. destruct (Z.ltb_spec max_length (Z.of_nat (String.length analysis + 31))).
    + rewrite length_with_hashtags, length_app_string. unfold Py.slice_to.
      destruct (Z.leb_spec 0 (max_length - 29 - 23)); [|lia].
      rewrite length_take. simpl. lia.
    + rewrite length_with_hashtags. lia.
  - intros Hsmall Hlong Hlen.
    destruct (Z.ltb_spec max_length (Z.of_nat (String.length analysis + 31))); [|lia].
    rewrite length_with_hashtags, length_app_string. unfold Py.slice_to.
    destruct (Z.leb_spec 0 (max_length - 29 - 23)); [lia|].
    rewrite length_take. simpl. lia.
Qed.

(** ** Trigger reasons *)

Lemma is_significant_cases (trend : string) :
  is_significant trend = true ->
  trend = "significant_increase" \/ trend = "significant_decrease".
Proof. unfold is_significant. intros H. apply bool_decide_eq_true in H. exact H. Qed.

(** The reasons the loop over the two tracked chains can produce. *)
Lemma check_chains_reasons (config : Config) (history : string -> list VolumePoint)
    (last_data new_data : gmap string Snapshot) (reason : string) :
  check_chains config history last_data new_data (map fst target_chains)
    = Py.Ok (Some reason) ->
  In reason
    ["price_change_sol"; "volume_change_sol";
     "volume_trend_sol_significant_increase"; "volume_trend_sol_significant_decrease";
     "price_change_dot"; "volume_change_dot";
     "volume_trend_dot_significant_increase"; "volume_trend_dot_significant_decrease"].
Proof.
  cbn [map fst target_chains check_chains]. unfold Py.bind.
  repeat case_match; try discriminate; intros [= <-];
    unfold _analyze_volume_trend in *;
    repeat match goal with
           | H : is_significant _ = true |- _ =>
               apply is_significant_cases in H; destruct H as [H|H]; rewrite H
           end;
    cbn [In]; repeat (first [left; reflexivity | right]).
Qed.

(** X13. The reason of a positive decision is one of ten codes:
    initial_post, regular_interval, and for each of sol and dot
    price_change_<chain>, volume_change_<chain>,
    volume_trend_<chain>_significant_increase and
    volume_trend_<chain>_significant_decrease. Only the four volume-trend
    codes contain volume_trend, and from each of them the sentiment analysis
    reads back the upper-case symbol of the chain that triggered and, as
    trend type, the bare word significant: the direction is lost. *)
Theorem trigger_reason_codes (config : Config) (now : Q)
    (history : string -> list VolumePoint) (st st' : BotState)
    (new_data : gmap string Snapshot) (reason : string) :
  _should_post_update config now history st new_data
    = (st', Py.Ok (true, Some reason)) ->
  In reason
    ["initial_post"; "regular_interval";
     "price_change_sol"; "volume_change_sol";
     "volume_trend_sol_significant_increase"; "volume_trend_sol_significant_decrease";
     "price_change_dot"; "volume_change_dot";
     "volume_trend_dot_significant_increase"; "volume_trend_dot_significant_decrease"] /\
  (mentions_volume_trend reason = true <->
   In reason
     ["volume_trend_sol_significant_increase"; "volume_trend_sol_significant_decrease";
      "volume_trend_dot_significant_increase"; "volume_trend_dot_significant_decrease"]) /\
  (In reason ["volume_trend_sol_significant_increase";
              "volume_trend_sol_significant_decrease"] ->
   triggered_chain_and_trend reason = Some ("SOL", "significant")) /\
  (In reason ["volume_trend_dot_significant_increase";
              "volume_trend_dot_significant_decrease"] ->
   triggered_chain_and_trend reason = Some ("DOT", "significant")).
Proof.
  intros Hcall.
  assert (Hcodes : In reason
    ["initial_post"; "regular_interval";
     "price_change_sol"; "volume_change_sol";
     "volume_trend_sol_significant_increase"; "volume_trend_sol_significant_decrease";
     "price_change_dot"; "volume_change_dot";
     "volume_trend_dot_significant_increase"; "volume_trend_dot_significant_decrease"]).
  { revert Hcall. unfold _should_post_update.
    destruct (size (last_market_data st) =? 0)%nat.
    { intros [= <- <-]. left. reflexivity. }
    destruct (check_chains _ _ _ _ _) as [found|e] eqn:Hloop; [|discriminate].
    assert (Hfound : forall s, found = Some s -> In s
      ["initial_post"; "regular_interval";
       "price_change_sol"; "volume_change_sol";
       "volume_trend_sol_significant_increase"; "volume_trend_sol_significant_decrease";
       "price_change_dot"; "volume_change_dot";
       "volume_trend_dot_significant_increase"; "volume_trend_dot_significant_decrease"]).
    { intros s ->. right. right. eapply check_chains_reasons. exact Hloop. }
    destruct (Py.geb _ _).
    - intros [= <- <-]. unfold or_regular_interval.
      destruct found as [s|]; [|right; left; reflexivity].
      destruct (Py.truthy_str s); [apply Hfound; reflexivity | right; left; reflexivity].
    - destruct found as [s|]; intros [= <- <-]. apply Hfound. reflexivity. }
  split; [exact Hcodes|].
  cbn [In] in Hcodes.
  repeat (destruct Hcodes as [<-|Hcodes]); try contradiction;
    (split; [split|split]); intros H;
    first
      [ vm_compute; reflexivity
      | cbn [In]; repeat (first [left; reflexivity | right]); fail
      | exfalso; vm_compute in H; discriminate H
      | exfalso; cbn [In] in H;
        repeat (destruct H as [H|H]; [discriminate H|]); exact H ].
Qed.

(** ** Rate-limited fetcher, further *)

(** The configuration of the handler survives an attempt. *)
Lemma attempt_keeps_cache_duration (h : CoinGecko.Handler) (r : CoinGecko.Response)
    (w : Q) :
  let h1 := CoinGecko._wait_for_rate_limit h in
  let h3 :=
    CoinGecko.set_counters (CoinGecko.daily_requests h1 + 1) (CoinGecko.failed_requests h1)
      (CoinGecko.daily_reset_time h1)
      (CoinGecko.set_last_request_time (CoinGecko.clock h1) h1) in
  CoinGecko.cache_duration h3 = CoinGecko.cache_duration h /\
  CoinGecko.cache_duration (CoinGecko._update_rate_limits r h3)
    = CoinGecko.cache_duration h /\
  CoinGecko.cache_duration
    (CoinGecko.sleep w (CoinGecko.count_failure (CoinGecko._update_rate_limits r h3)))
    = CoinGecko.cache_duration h.
Proof.
  unfold CoinGecko._wait_for_rate_limit, CoinGecko._update_rate_limits.
  repeat split; repeat case_match; reflexivity.
Qed.

Lemma timeout_keeps_cache_duration (h : CoinGecko.Handler) (w : Q) :
  let h1 := CoinGecko._wait_for_rate_limit h in
  let h3 :=
    CoinGecko.set_counters (CoinGecko.daily_requests h1 + 1) (CoinGecko.failed_requests h1)
      (CoinGecko.daily_reset_time h1)
      (CoinGecko.set_last_request_time (CoinGecko.clock h1) h1) in
  CoinGecko.cache_duration (CoinGecko.sleep w (CoinGecko.count_failure h3))
    = CoinGecko.cache_duration h.
Proof.
  unfold CoinGecko._wait_for_rate_limit. repeat case_match; reflexivity.
Qed.

(** A request loop that returns data leaves it in the cache, stamped with
    the clock of the returned handler. *)
Lemma request_loop_caches (network : nat -> CoinGecko.Outcome) (cache_key : string)
    (remaining retry_count : nat) (h h' : CoinGecko.Handler) (d : string) :
  CoinGecko.request_loop network cache_key remaining retry_count h = (h', Some d) ->
  CoinGecko.cache h' !! cache_key
    = Some {| CoinGecko.data := d; CoinGecko.timestamp := CoinGecko.clock h' |} /\
  CoinGecko.cache_duration h' = CoinGecko.cache_duration h.
Proof.
  revert retry_count h. induction remaining as [|remaining IH]; intros k h; simpl;
    [discriminate|].
  pose proof (attempt_keeps_cache_duration h) as Hkeep. cbv zeta in Hkeep.
  destruct (network k) as [r| |].
  - destruct (CoinGecko.status_code r =? 200)%Z.
    + destruct (CoinGecko.json r) as [d'|]; [|discriminate].
      intros [= <- <-]. split.
      * unfold CoinGecko._cache_response. simpl. apply lookup_insert_eq.
      * destruct (Hkeep r 0) as (_ & H & _). exact H.
    + destruct (CoinGecko.status_code r =? 429)%Z; intros Hloop;
        apply IH in Hloop; destruct Hloop as [Hc Hd]; (split; [exact Hc|]);
        rewrite Hd; unfold CoinGecko._handle_rate_limit_response;
        match goal with
        | |- CoinGecko.cache_duration (CoinGecko.sleep ?w _) = _ =>
            destruct (Hkeep r w) as (_ & _ & H); exact H
        end.
  - intros Hloop. apply IH in Hloop. destruct Hloop as [Hc Hd]. split; [exact Hc|].
    rewrite Hd.
    match goal with
    | |- CoinGecko.cache_duration (CoinGecko.sleep ?w _) = _ =>
        exact (timeout_keeps_cache_duration h w)
    end.
  - discriminate.
Qed.

(** X14. Fetch, then fetch again. When a fetch returns data, the cache
    holds that data under the request's key; a later fetch of the same key
    issued while the entry is younger than cache_duration returns the same
    data without any request and without changing the handler, whatever the
    network would answer; once the entry's age reaches cache_duration the
    fetch goes to the network again. *)
Theorem fetch_then_fetch_again (network : nat -> CoinGecko.Outcome) (cache_key : string)
    (max_retries : nat) (h h' : CoinGecko.Handler) (d : string) :
  CoinGecko.get_market_data network cache_key max_retries h = (h', Some d) ->
  exists entry,
    CoinGecko.cache h' !! cache_key = Some entry /\
    CoinGecko.data entry = d /\
    forall (t : Q) (network' : nat -> CoinGecko.Outcome) (max_retries' : nat),
      (t - CoinGecko.timestamp entry < CoinGecko.cache_duration h' ->
       CoinGecko.get_market_data network' cache_key max_retries' (CoinGecko.at_time t h')
       = (CoinGecko.at_time t h', Some d)) /\
      (CoinGecko.cache_duration h' <= t - CoinGecko.timestamp entry ->
       CoinGecko.get_market_data network' cache_key max_retries' (CoinGecko.at_time t h')
       = CoinGecko.request_loop network' cache_key max_retries' 0
           (CoinGecko.at_time t h')).
Proof.
  unfold CoinGecko.get_market_data at 1. unfold CoinGecko._should_use_cache.
  intros Hfetch.
  assert (Hentry : exists entry,
            CoinGecko.cache h' !! cache_key = Some entry /\ CoinGecko.data entry = d).
  { destruct (CoinGecko.cache h !! cache_key) as [entry|] eqn:Hc.
    - destruct (Py.ltb _ _).
      + simpl in Hfetch. injection Hfetch as <- <-. rewrite Hc. eauto.
      + apply request_loop_caches in Hfetch. destruct Hfetch as [-> _]. eauto.
    - apply request_loop_caches in Hfetch. destruct Hfetch as [-> _]. eauto. }
  destruct Hentry as (entry & Hc & Hd). exists entry. split; [exact Hc|].
  split; [exact Hd|]. intros t network' n.
  unfold CoinGecko.get_market_data, CoinGecko._should_use_cache. simpl.
  rewrite Hc. simpl. split; intros Hage.
  - apply ltb_spec in Hage. rewrite Hage. rewrite Hd. reflexivity.
  - apply ltb_false in Hage. rewrite Hage. reflexivity.
Qed.

(** X15. Cleaning the cache removes exactly the entries older than
    cache_duration and changes nothing that a fetch can see: for every key,
    whether the cache is used and which data it serves are the same before
    and after. An entry whose age is exactly cache_duration is kept although
    it is no longer served. *)
Theorem clean_cache_keeps_live_entries (h : CoinGecko.Handler) (cache_key : string) :
  let h' := CoinGecko._clean_old_cache h in
  (forall entry,
     CoinGecko.cache h' !! cache_key = Some entry <->
     CoinGecko.cache h !! cache_key = Some entry /\
     CoinGecko.clock h - CoinGecko.timestamp entry <= CoinGecko.cache_duration h) /\
  CoinGecko._should_use_cache cache_key h' = CoinGecko._should_use_cache cache_key h /\
  (CoinGecko._should_use_cache cache_key h = true ->
   CoinGecko.cache h' !! cache_key = CoinGecko.cache h !! cache_key) /\
  (forall entry,
     CoinGecko.cache h !! cache_key = Some entry ->
     CoinGecko.clock h - CoinGecko.timestamp entry == CoinGecko.cache_duration h ->
     CoinGecko.cache h' !! cache_key = Some entry /\
     CoinGecko._should_use_cache cache_key h = false) /\
  CoinGecko._clean_old_cache h' = h'.
Proof.
  intros h'.
  assert (Hkeep : forall entry,
    CoinGecko.cache h' !! cache_key = Some entry <->
    CoinGecko.cache h !! cache_key = Some entry /\
    CoinGecko.clock h - CoinGecko.timestamp entry <= CoinGecko.cache_duration h).
  { intros entry. subst h'. unfold CoinGecko._clean_old_cache. simpl.
    rewrite map_lookup_filter_Some. simpl. unfold CoinGecko.expired.
    rewrite gtb_false. reflexivity. }
  split; [exact Hkeep|]. split; [|split; [|split]].
  - unfold CoinGecko._should_use_cache.
    destruct (CoinGecko.cache h !! cache_key) as [entry|] eqn:Hc.
    + destruct (Py.ltb (CoinGecko.clock h - CoinGecko.timestamp entry)
                  (CoinGecko.cache_duration h)) eqn:Hlive.
      * assert (H : CoinGecko.cache h' !! cache_key = Some entry).
        { apply Hkeep. split; [reflexivity|]. apply ltb_spec in Hlive. lra. }
        rewrite H. exact Hlive.
      * destruct (CoinGecko.cache h' !! cache_key) as [entry'|] eqn:Hc'; [|reflexivity].
        destruct (proj1 (Hkeep entry') eq_refl) as [[= ->] _]. exact Hlive.
    + destruct (CoinGecko.cache h' !! cache_key) as [entry'|] eqn:Hc'; [|reflexivity].
      destruct (proj1 (Hkeep entry') eq_refl) as [[=] _].
  - unfold CoinGecko._should_use_cache.
    destruct (CoinGecko.cache h !! cache_key) as [entry|] eqn:Hc; [|discriminate].
    intros Hlive. apply Hkeep. split; [reflexivity|]. apply ltb_spec in Hlive. lra.
  - intros entry Hc Hage. split.
    + apply Hkeep. split; [exact Hc | lra].
    + unfold CoinGecko._should_use_cache. rewrite Hc. apply ltb_false. lra.
  - subst h'. unfold CoinGecko._clean_old_cache, CoinGecko.set_cache,
      CoinGecko.expired. simpl. f_equal.
    apply map_eq. intros k. apply option_eq. intros e.
    rewrite !map_lookup_filter_Some. simpl. tauto.
Qed.

Lemma wait_spacing (h : CoinGecko.Handler) :
  let h1 := CoinGecko._wait_for_rate_limit h in
  CoinGecko.min_request_interval h
    <= CoinGecko.clock h1 - CoinGecko.last_request_time h /\
  CoinGecko.last_request_time h1 = CoinGecko.last_request_time h /\
  CoinGecko.min_request_interval h1 = CoinGecko.min_request_interval h.
Proof.
  unfold CoinGecko._wait_for_rate_limit. cbv zeta.
  destruct (Py.ltb (CoinGecko.clock h - CoinGecko.last_request_time h)
              (CoinGecko.min_request_interval h)) eqn:Hshort.
  - destruct (Py.geb _ 86400); simpl; (split; [lra | split; reflexivity]).
  - apply ltb_false in Hshort.
    destruct (Py.geb _ 86400); simpl; (split; [lra | split; reflexivity]).
Qed.

Lemma update_rate_limits_frame (r : CoinGecko.Response) (h : CoinGecko.Handler) :
  let h' := CoinGecko._update_rate_limits r h in
  CoinGecko.clock h' = CoinGecko.clock h /\
  CoinGecko.slept h' = CoinGecko.slept h /\
  CoinGecko.last_request_time h' = CoinGecko.last_request_time h /\
  CoinGecko.min_request_interval h' = CoinGecko.min_request_interval h /\
  CoinGecko.cache_duration h' = CoinGecko.cache_duration h /\
  CoinGecko.cache h' = CoinGecko.cache h /\
  CoinGecko.daily_requests h' = CoinGecko.daily_requests h /\
  CoinGecko.daily_reset_time h' = CoinGecko.daily_reset_time h /\
  CoinGecko.failed_requests h' = CoinGecko.failed_requests h.
Proof.
  unfold CoinGecko._update_rate_limits. cbv zeta.
  repeat case_match; repeat split; reflexivity.
Qed.

(** The recorded request time never moves back in the loop, and moves on
    by the minimum interval at least when an attempt is made. *)
Lemma request_loop_spacing (network : nat -> CoinGecko.Outcome) (cache_key : string)
    (remaining retry_count : nat) (h : CoinGecko.Handler) :
  0 <= CoinGecko.min_request_interval h ->
  let h' := fst (CoinGecko.request_loop network cache_key remaining retry_count h) in
  CoinGecko.min_request_interval h' = CoinGecko.min_request_interval h /\
  (match remaining with O => 0 | S _ => CoinGecko.min_request_interval h end)
    <= CoinGecko.last_request_time h' - CoinGecko.last_request_time h.
Proof.
  revert retry_count h. induction remaining as [|remaining IH]; intros k h Hmin; simpl.
  { split; [reflexivity | lra]. }
  destruct (wait_spacing h) as (Hgap & Hlast & Hint). cbv zeta in Hgap, Hlast, Hint.
  set (h1 := CoinGecko._wait_for_rate_limit h) in *.
  set (h3 := CoinGecko.set_counters _ _ _ (CoinGecko.set_last_request_time _ h1)).
  assert (H3 : CoinGecko.last_request_time h3 = CoinGecko.clock h1 /\
               CoinGecko.min_request_interval h3 = CoinGecko.min_request_interval h).
  { subst h3. simpl. auto. }
  destruct H3 as [H3l H3m].
  assert (Hrec : forall h5 k',
            CoinGecko.last_request_time h5 = CoinGecko.clock h1 ->
            CoinGecko.min_request_interval h5 = CoinGecko.min_request_interval h ->
            let h' := fst (CoinGecko.request_loop network cache_key remaining k' h5) in
            CoinGecko.min_request_interval h' = CoinGecko.min_request_interval h /\
            CoinGecko.min_request_interval h
              <= CoinGecko.last_request_time h' - CoinGecko.last_request_time h).
  { intros h5 k' H5l H5m. cbv zeta.
    assert (H0 : 0 <= CoinGecko.min_request_interval h5) by (rewrite H5m; exact Hmin).
    destruct (IH k' h5 H0) as [Hm Hl]. rewrite H5m in Hm, Hl. split; [exact Hm|].
    rewrite H5l in Hl. destruct remaining; lra. }
  assert (Hend : forall (h5 : CoinGecko.Handler) (res : option string),
            CoinGecko.last_request_time h5 = CoinGecko.clock h1 ->
            CoinGecko.min_request_interval h5 = CoinGecko.min_request_interval h ->
            CoinGecko.min_request_interval (fst (h5, res))
              = CoinGecko.min_request_interval h /\
            CoinGecko.min_request_interval h
              <= CoinGecko.last_request_time (fst (h5, res))
                 - CoinGecko.last_request_time h).
  { intros h5 res H5l H5m. cbn [fst]. rewrite H5l. split; [exact H5m | exact Hgap]. }
  destruct (network k) as [r| |].
  - destruct (update_rate_limits_frame r h3) as (_ & _ & Hl4 & Hm4 & _).
    cbv zeta in Hl4, Hm4.
    destruct (CoinGecko.status_code r =? 200)%Z.
    + destruct (CoinGecko.json r); apply Hend; simpl; congruence.
    + destruct (CoinGecko.status_code r =? 429)%Z; apply Hrec; simpl; congruence.
  - apply Hrec; simpl; congruence.
  - apply Hend; simpl; congruence.
Qed.

(** X16. Requests are spaced. A fetch that is not answered from the cache
    and is allowed at least one attempt records a request time that is at
    least min_request_interval after the request time recorded before the
    call, however many retries it takes; the interval itself is never
    changed. *)
Theorem fetch_respects_min_interval (network : nat -> CoinGecko.Outcome)
    (cache_key : string) (max_retries : nat) (h : CoinGecko.Handler) :
  0 <= CoinGecko.min_request_interval h ->
  CoinGecko._should_use_cache cache_key h = false ->
  (0 < max_retries)%nat ->
  let h' := fst (CoinGecko.get_market_data network cache_key max_retries h) in
  CoinGecko.min_request_interval h' = CoinGecko.min_request_interval h /\
  CoinGecko.last_request_time h + CoinGecko.min_request_interval h
    <= CoinGecko.last_request_time h'.
Proof.
  intros Hmin Hcache Hpos h'. subst h'. unfold CoinGecko.get_market_data.
  rewrite Hcache.
  destruct (request_loop_spacing network cache_key max_retries 0 h Hmin) as [Hm Hl].
  split; [exact Hm|]. destruct max_retries; [lia|]. lra.
Qed.

(** X17. Reading the rate-limit headers. A malformed X-RateLimit-Remaining
    leaves the handler exactly as it was, even when the reset header is
    fine. Otherwise the remaining count is stored (0 when the header is
    absent), and the reset header is read as an integer (0 when absent):
    when the host's datetime.fromtimestamp accepts that integer it becomes
    the reset instant (the epoch for an absent header); when the host
    rejects it, or the header is malformed, the reset instant keeps its
    previous, stale value beside the new remaining count. *)
Theorem rate_limit_headers_update (r : CoinGecko.Response) (h : CoinGecko.Handler) :
  let h' := CoinGecko._update_rate_limits r h in
  (CoinGecko.x_ratelimit_remaining r = CoinGecko.Malformed -> h' = h) /\
  (CoinGecko.x_ratelimit_remaining r = CoinGecko.Absent ->
   CoinGecko.rate_limit_remaining h' = Some 0%Z) /\
  (forall n, CoinGecko.x_ratelimit_remaining r = CoinGecko.IntValue n ->
   CoinGecko.rate_limit_remaining h' = Some n) /\
  (CoinGecko.x_ratelimit_remaining r <> CoinGecko.Malformed ->
   (CoinGecko.x_ratelimit_reset r = CoinGecko.Absent ->
    CoinGecko.timestamp_ok h 0 = true ->
    CoinGecko.rate_limit_reset_at h' = Some 0) /\
   (forall t, CoinGecko.x_ratelimit_reset r = CoinGecko.IntValue t ->
      CoinGecko.timestamp_ok h t = true ->
      CoinGecko.rate_limit_reset_at h' = Some (inject_Z t)) /\
   (forall t, CoinGecko.int_header (CoinGecko.x_ratelimit_reset r) = Py.Ok t ->
      CoinGecko.timestamp_ok h t = false ->
      CoinGecko.rate_limit_reset_at h' = CoinGecko.rate_limit_reset_at h) /\
   (CoinGecko.x_ratelimit_reset r = CoinGecko.Malformed ->
    CoinGecko.rate_limit_reset_at h' = CoinGecko.rate_limit_reset_at h)).
Proof.
  intros h'. subst h'. unfold CoinGecko._update_rate_limits, CoinGecko.fromtimestamp.
  split; [|split; [|split]].
  - intros ->. reflexivity.
  - intros ->. simpl. repeat case_match; reflexivity.
  - intros n ->. simpl. repeat case_match; reflexivity.
  - intros Hrem.
    destruct (CoinGecko.x_ratelimit_remaining r) as [|n|] eqn:Hr; try congruence;
      cbn [CoinGecko.int_header].
    all: split; [|split; [|split]].
    all: try (intros -> Hok; cbn [CoinGecko.int_header Py.bind]; rewrite Hok;
              reflexivity).
    all: try (intros t -> Hok; cbn [CoinGecko.int_header Py.bind]; rewrite Hok;
              reflexivity).
    all: try (intros t Hint Hno; rewrite Hint; cbn [Py.bind]; rewrite Hno;
              reflexivity).
    all: intros ->; reflexivity.
Qed.

(** A loop that returns data met a 200 answer carrying that data, after
    retryable attempts only. *)
Lemma request_loop_success (network : nat -> CoinGecko.Outcome) (cache_key : string)
    (remaining retry_count : nat) (h h' : CoinGecko.Handler) (d : string) :
  CoinGecko.request_loop network cache_key remaining retry_count h = (h', Some d) ->
  exists k r,
    (retry_count <= k < retry_count + remaining)%nat /\
    network k = CoinGecko.Responded r /\
    CoinGecko.status_code r = 200%Z /\ CoinGecko.json r = Some d /\
    forall j, (retry_count <= j < k)%nat -> retryable (network j).
Proof.
  revert retry_count h. induction remaining as [|remaining IH]; intros k0 h; simpl;
    [discriminate|].
  assert (Hnext : forall h5,
            retryable (network k0) ->
            CoinGecko.request_loop network cache_key remaining (S k0) h5 = (h', Some d) ->
            exists k r,
              (k0 <= k < k0 + S remaining)%nat /\
              network k = CoinGecko.Responded r /\
              CoinGecko.status_code r = 200%Z /\ CoinGecko.json r = Some d /\
              forall j, (k0 <= j < k)%nat -> retryable (network j)).
  { intros h5 Hretry Hloop. apply IH in Hloop.
    destruct Hloop as (k & r & Hk & Hnet & Hs & Hj & Hbefore).
    exists k, r. split; [lia|]. split; [exact Hnet|]. split; [exact Hs|].
    split; [exact Hj|]. intros j Hjk.
    destruct (decide (j = k0)) as [->|Hne]; [exact Hretry | apply Hbefore; lia]. }
  destruct (network k0) as [r| |] eqn:Hnet.
  - destruct (Z.eqb_spec (CoinGecko.status_code r) 200) as [Hs|Hs].
    + destruct (CoinGecko.json r) as [d'|] eqn:Hj; [|discriminate].
      intros [= <- <-]. exists k0, r. split; [lia|]. split; [exact Hnet|].
      split; [exact Hs|]. split; [exact Hj|]. intros j Hjk. lia.
    + destruct (CoinGecko.status_code r =? 429)%Z; apply Hnext; exact Hs.
  - apply Hnext. exact I.
  - discriminate.
Qed.

(** A loop that meets only retryable attempts gives up with no data after
    sleeping once per attempt at least. *)
Lemma request_loop_gives_up (network : nat -> CoinGecko.Outcome) (cache_key : string)
    (remaining retry_count : nat) (h : CoinGecko.Handler) :
  (forall j, (retry_count <= j < retry_count + remaining)%nat -> retryable (network j)) ->
  snd (CoinGecko.request_loop network cache_key remaining retry_count h) = None /\
  (length (CoinGecko.slept h) + remaining
   <= length (CoinGecko.slept
                (fst (CoinGecko.request_loop network cache_key remaining retry_count h))))%nat.
Proof.
  revert retry_count h. induction remaining as [|remaining IH]; intros k0 h Hall; simpl.
  { split; [reflexivity | lia]. }
  assert (Hwait : (length (CoinGecko.slept h)
                   <= length (CoinGecko.slept (CoinGecko._wait_for_rate_limit h)))%nat).
  { unfold CoinGecko._wait_for_rate_limit. repeat case_match; simpl;
      rewrite ?length_app; simpl; lia. }
  assert (Hnext : forall h5,
            (length (CoinGecko.slept (CoinGecko._wait_for_rate_limit h)) + 1
             <= length (CoinGecko.slept h5))%nat ->
            snd (CoinGecko.request_loop network cache_key remaining (S k0) h5) = None /\
            (length (CoinGecko.slept h) + S remaining
             <= length (CoinGecko.slept
                          (fst (CoinGecko.request_loop network cache_key remaining
                                  (S k0) h5))))%nat).
  { intros h5 H5. destruct (IH (S k0) h5) as [Hnone Hlen].
    - intros j Hj. apply Hall. lia.
    - split; [exact Hnone | lia]. }
  pose proof (Hall k0 ltac:(lia)) as Hk0.
  destruct (network k0) as [r| |]; simpl in Hk0.
  - destruct (update_rate_limits_frame r
                (CoinGecko.set_counters
                   (CoinGecko.daily_requests (CoinGecko._wait_for_rate_limit h) + 1)
                   (CoinGecko.failed_requests (CoinGecko._wait_for_rate_limit h))
                   (CoinGecko.daily_reset_time (CoinGecko._wait_for_rate_limit h))
                   (CoinGecko.set_last_request_time
                      (CoinGecko.clock (CoinGecko._wait_for_rate_limit h))
                      (CoinGecko._wait_for_rate_limit h))))
      as (_ & Hslept & _). cbv zeta in Hslept.
    destruct (Z.eqb_spec (CoinGecko.status_code r) 200) as [Hs|Hs]; [contradiction|].
    destruct (CoinGecko.status_code r =? 429)%Z; apply Hnext;
      unfold CoinGecko._handle_rate_limit_response; simpl;
      rewrite length_app, Hslept; simpl; lia.
  - apply Hnext. simpl. rewrite length_app. simpl. lia.
  - contradiction.
Qed.

(** X18. What a fetch can return. Data comes from a cache entry still
    fresh, with the handler untouched, or from an attempt within max_retries
    that met a 200 answer carrying that data, all earlier attempts having
    met another status or a timeout. When the cache cannot be used and every
    permitted attempt meets another status or a timeout, the fetch returns
    no data, after at least max_retries sleeps. *)
Theorem fetch_outcomes (network : nat -> CoinGecko.Outcome) (cache_key : string)
    (max_retries : nat) (h : CoinGecko.Handler) :
  (forall h' d,
     CoinGecko.get_market_data network cache_key max_retries h = (h', Some d) ->
     (CoinGecko._should_use_cache cache_key h = true /\ h' = h /\
      CoinGecko.data <$> CoinGecko.cache h !! cache_key = Some d) \/
     (CoinGecko._should_use_cache cache_key h = false /\
      exists k r,
        (k < max_retries)%nat /\ network k = CoinGecko.Responded r /\
        CoinGecko.status_code r = 200%Z /\ CoinGecko.json r = Some d /\
        forall j, (j < k)%nat -> retryable (network j))) /\
  (CoinGecko._should_use_cache cache_key h = false ->
   (forall j, (j < max_retries)%nat -> retryable (network j)) ->
   snd (CoinGecko.get_market_data network cache_key max_retries h) = None /\
   (length (CoinGecko.slept h) + max_retries
    <= length (CoinGecko.slept
                 (fst (CoinGecko.get_market_data network cache_key max_retries h))))%nat).
Proof.
  unfold CoinGecko.get_market_data. split.
  - intros h' d. destruct (CoinGecko._should_use_cache cache_key h).
    + intros [= <- Hd]. left. auto.
    + intros Hloop. right. split; [reflexivity|].
      apply request_loop_success in Hloop.
      destruct Hloop as (k & r & Hk & Hnet & Hs & Hj & Hbefore).
      exists k, r. split; [lia|]. split; [exact Hnet|]. split; [exact Hs|].
      split; [exact Hj|]. intros j Hjk. apply Hbefore. lia.
  - intros -> Hall. apply request_loop_gives_up. intros j Hj. apply Hall. lia.
Qed.

(** ** Recording a prediction, further *)

Lemma dict_set_spec {V} (k : string) (v : V) (d : list (string * V)) :
  NoDup (map fst d) ->
  NoDup (map fst (dict_set k v d)) /\
  (forall k' v', In (k', v') (dict_set k v d) <->
                 (k' = k /\ v' = v) \/ (k' <> k /\ In (k', v') d)).
Proof.
  induction d as [|[k0 v0] d IH]; simpl; intros Hnd.
  - split; [repeat constructor; intros H; inversion H|].
    intros k' v'. split.
    + intros [[= <- <-]|[]]. left. auto.
    + intros [[-> ->]|[_ []]]. left. reflexivity.
  - apply NoDup_cons in Hnd. destruct Hnd as [Hk0 Hnd].
    destruct (decide (k0 = k)) as [->|Hne]; simpl.
    + split; [apply NoDup_cons; auto|].
      intros k' v'. split.
      * intros [[= <- <-]|Hin]; [left; auto|].
        right. split; [|right; exact Hin].
        intros ->. apply Hk0. apply list_elem_of_In.
        apply in_map with (f := fst) in Hin. exact Hin.
      * intros [[-> ->]|[Hk' [[= <- _]|Hin]]]; [left; reflexivity | congruence | right; exact Hin].
    + destruct (IH Hnd) as [IHnd IHin]. split.
      * apply NoDup_cons. split; [|exact IHnd].
        intros Hin. apply list_elem_of_In, in_map_iff in Hin.
        destruct Hin as ([k1 v1] & Hk1 & Hin). simpl in Hk1. subst k1.
        apply IHin in Hin. destruct Hin as [[-> _]|[_ Hin]]; [congruence|].
        apply Hk0. apply list_elem_of_In. apply in_map with (f := fst) in Hin. exact Hin.
      * intros k' v'. rewrite IHin. split.
        -- intros [[= <- <-]|[H|H]]; [right; split; [congruence | left; reflexivity] | left; exact H |].
           right. destruct H. split; [assumption | right; assumption].
        -- intros [H|[Hk' [[= <- <-]|Hin]]]; [right; left; exact H | left; reflexivity |].
           right. right. auto.
Qed.

Lemma collect_prices_spec (prediction : PredictionData) (chains : list string)
    (acc prices : list (string * Q)) :
  NoDup (map fst acc) ->
  collect_prices prediction chains acc = Py.Ok prices ->
  NoDup (map fst prices) /\
  (forall chain price, In (chain, price) prices <->
     (In chain chains /\
      price_fields prediction !! (Py.upper chain +:+ "_price") = Some price) \/
     (~ In chain chains /\ In (chain, price) acc)).
Proof.
  revert acc. induction chains as [|c chains IH]; simpl; intros acc Hnd.
  - intros [= <-]. split; [exact Hnd|]. intros chain price. tauto.
  - unfold getitem.
    destruct (price_fields prediction !! (Py.upper c +:+ "_price")) as [p|] eqn:Hp;
      [|discriminate].
    simpl. intros Hcollect.
    destruct (dict_set_spec c p acc Hnd) as [Hnd' Hset].
    destruct (IH _ Hnd' Hcollect) as (Hres & Hiff).
    split; [exact Hres|]. intros chain price. rewrite Hiff, Hset.
    destruct (in_dec string_dec chain chains) as [Hc|Hc];
      destruct (decide (chain = c)) as [->|Hne]; split; intros H.
    + tauto.
    + tauto.
    + tauto.
    + tauto.
    + destruct H as [[Hin _]|[_ [[_ ->]|[Hcc _]]]]; [contradiction| |congruence].
      left. split; [left; reflexivity | exact Hp].
    + destruct H as [[_ Hv]|[Hn _]]; [|exfalso; apply Hn; left; reflexivity].
      right. split; [exact Hc|]. left. split; [reflexivity | congruence].
    + destruct H as [[Hin _]|[_ [[Heq _]|[_ Hacc]]]]; [contradiction|congruence|].
      right. split; [|exact Hacc]. intros [Heq|Hin]; [congruence | contradiction].
    + destruct H as [[[Heq|Hin] _]|[_ Hacc]]; [congruence | contradiction |].
      right. split; [exact Hc|]. right. split; [exact Hne | exact Hacc].
Qed.

(** The first chain without a price makes the collection raise. *)
Lemma collect_prices_missing (prediction : PredictionData)
    (before after : list string) (chain : string) (acc : list (string * Q)) :
  (forall c, In c before ->
     is_Some (price_fields prediction !! (Py.upper c +:+ "_price"))) ->
  price_fields prediction !! (Py.upper chain +:+ "_price") = None ->
  collect_prices prediction (before ++ chain :: after) acc
  = Py.Raise (Py.KeyError (Py.upper chain +:+ "_price")).
Proof.
  revert acc. induction before as [|c before IH]; intros acc Hbefore Hmissing; simpl.
  - unfold getitem. rewrite Hmissing. reflexivity.
  - destruct (Hbefore c (or_introl eq_refl)) as [p Hp].
    unfold getitem. rewrite Hp. simpl. apply IH; [|exact Hmissing].
    intros c' Hc'. apply Hbefore. right. exact Hc'.
Qed.

(** X19. The prices recorded with a prediction. When every relevant chain
    has its '<CHAIN>_price' field, the new entry (the last of the tracked
    list, unless a day passes inside the call) has a price dict with exactly
    the relevant chains as keys, each once however often it was listed, and
    each with the price of its field. When a chain has no such field the
    call raises KeyError for the first missing field, and nothing is
    appended or pruned. *)
Theorem track_prediction_prices (now_append now_prune : Q) (st : BotState)
    (prediction : PredictionData) (relevant_chains : list string) :
  ((forall chain, In chain relevant_chains ->
      is_Some (price_fields prediction !! (Py.upper chain +:+ "_price"))) ->
   now_prune - now_append < 86400 ->
   exists prices,
     last (past_predictions
             (fst (_track_prediction now_append now_prune st prediction relevant_chains)))
     = Some {| p_timestamp := now_append; p_prediction := analysis prediction;
               p_prices := prices; p_sentiment := sentiment prediction;
               p_outcome := None |} /\
     NoDup (map fst prices) /\
     forall chain price,
       In (chain, price) prices <->
       In chain relevant_chains /\
       price_fields prediction !! (Py.upper chain +:+ "_price") = Some price) /\
  (forall before chain after,
     relevant_chains = before ++ chain :: after ->
     (forall c, In c before ->
        is_Some (price_fields prediction !! (Py.upper c +:+ "_price"))) ->
     price_fields prediction !! (Py.upper chain +:+ "_price") = None ->
     _track_prediction now_append now_prune st prediction relevant_chains
     = (st, Py.Raise (Py.KeyError (Py.upper chain +:+ "_price")))).
Proof.
  split.
  - intros Hkeys Hage.
    destruct (collect_prices_returns prediction relevant_chains [] Hkeys) as [prices Hprices].
    exists prices.
    destruct (collect_prices_spec prediction relevant_chains [] prices
                ltac:(constructor) Hprices) as [Hnd Hiff].
    split; [|split; [exact Hnd|]].
    + unfold _track_prediction. rewrite Hprices. simpl.
      rewrite filter_app, last_app.
      rewrite filter_cons. simpl.
      destruct (decide (Py.ltb (now_prune - now_append) 86400 = true)) as [_|Hn];
        [reflexivity|].
      exfalso. apply Hn. apply ltb_spec. exact Hage.
    + intros chain price. rewrite Hiff. simpl. tauto.
  - intros before chain after -> Hbefore Hmissing.
    unfold _track_prediction.
    rewrite (collect_prices_missing prediction before after chain [] Hbefore Hmissing).
    reflexivity.
Qed.

(** ** Volume trend, further *)

Lemma sum_from (xs : list Q) (a : Q) : fold_left Qplus xs a == a + Py.sum xs.
Proof.
  unfold Py.sum. revert a. induction xs as [|x xs IH]; intros a; simpl; [ring|].
  rewrite (IH (a + x)), (IH (0 + x)). ring.
Qed.

Lemma sum_permutation (xs ys : list Q) : Permutation xs ys -> Py.sum xs == Py.sum ys.
Proof.
  induction 1 as [|x xs ys _ IH|x y xs|xs ys zs _ IH1 _ IH2].
  - reflexivity.
  - unfold Py.sum. simpl. rewrite (sum_from xs (0 + x)), (sum_from ys (0 + x)), IH.
    reflexivity.
  - unfold Py.sum. simpl. rewrite (sum_from xs (0 + y + x)), (sum_from xs (0 + x + y)).
    ring.
  - rewrite IH1. exact IH2.
Qed.

Lemma trend_of_compat (config : Config) (x y : Q) :
  x == y -> trend_of config x = trend_of config y.
Proof.
  intros E. unfold trend_of, Py.geb, Py.leb. rewrite !E. reflexivity.
Qed.

(** X20. Only the volumes of the history matter, in any order. Two
    histories whose volumes are a rearrangement of one another give the same
    classification and the same percentage change, whatever their
    timestamps. *)
Theorem volume_trend_order_independent (config : Config) (current_volume : Q)
    (history history' : list VolumePoint) :
  Permutation (map hv_volume history) (map hv_volume history') ->
  snd (_analyze_volume_trend config current_volume history)
  = snd (_analyze_volume_trend config current_volume history') /\
  fst (_analyze_volume_trend config current_volume history)
  == fst (_analyze_volume_trend config current_volume history').
Proof.
  intros Hperm.
  assert (Hmean : Py.mean (map hv_volume history) == Py.mean (map hv_volume history')).
  { unfold Py.mean. rewrite (sum_permutation _ _ Hperm), (Permutation_length Hperm).
    reflexivity. }
  destruct history as [|p history].
  { apply Permutation_nil in Hperm. destruct history'; [|discriminate].
    split; reflexivity. }
  destruct history' as [|p' history'].
  { apply Permutation_sym, Permutation_nil in Hperm. discriminate. }
  unfold _analyze_volume_trend.
  rewrite !analyze_volume_trend_nonempty by discriminate.
  remember (Py.mean (map hv_volume (p :: history))) as avg eqn:Ha.
  remember (Py.mean (map hv_volume (p' :: history'))) as avg' eqn:Ha'.
  clear Ha Ha' Hperm. unfold Py.div.
  rewrite (eqb_zero_compat avg avg' Hmean).
  destruct (Py.eqb avg' 0); simpl; [split; reflexivity|].
  assert (E : (current_volume - avg) / avg * 100 == (current_volume - avg') / avg' * 100)
    by (rewrite Hmean; reflexivity).
  split; [apply trend_of_compat; exact E | exact E].
Qed.

(** ** Duplicate detection *)

Lemma lstrip_blank (ws s : string) : blank ws -> Py.lstrip (ws +:+ s) = Py.lstrip s.
Proof.
  induction ws as [|c ws IH]; [reflexivity|]. intros [Hc Hws].
  change (Py.lstrip (String c (ws +:+ s)) = Py.lstrip s).
  cbn [Py.lstrip]. rewrite Hc. exact (IH Hws).
Qed.

Lemma rstrip_only_blank (ws : string) : blank ws -> Py.rstrip ws = EmptyString.
Proof.
  induction ws as [|c ws IH]; [reflexivity|]. intros [Hc Hws].
  cbn [Py.rstrip]. rewrite (IH Hws), Hc. reflexivity.
Qed.

Lemma rstrip_blank (s ws : string) : blank ws -> Py.rstrip (s +:+ ws) = Py.rstrip s.
Proof.
  intros Hws. induction s as [|c s IH].
  - exact (rstrip_only_blank ws Hws).
  - change (Py.rstrip (String c (s +:+ ws)) = Py.rstrip (String c s)).
    cbn [Py.rstrip]. rewrite IH. reflexivity.
Qed.

Lemma rstrip_after_blank (ws s : string) :
  blank ws ->
  Py.rstrip (ws +:+ s)
  = match Py.rstrip s with
    | EmptyString => EmptyString
    | r => ws +:+ r
    end.
Proof.
  induction ws as [|c ws IH]; intros Hws.
  - change (EmptyString +:+ s) with s. destruct (Py.rstrip s); reflexivity.
  - destruct Hws as [Hc Hws].
    change (Py.rstrip (String c (ws +:+ s))
            = match Py.rstrip s with
              | EmptyString => EmptyString
              | r => String c ws +:+ r
              end).
    cbn [Py.rstrip]. rewrite (IH Hws).
    destruct (Py.rstrip s) as [|c' r]; [rewrite Hc; reflexivity|].
    destruct ws; reflexivity.
Qed.

Lemma strip_blank (ws1 s ws2 : string) :
  blank ws1 -> blank ws2 -> Py.strip (ws1 +:+ s +:+ ws2) = Py.strip s.
Proof.
  intros H1 H2. unfold Py.strip.
  rewrite (rstrip_after_blank ws1 (s +:+ ws2) H1), (rstrip_blank s ws2 H2).
  destruct (Py.rstrip s) as [|c r] eqn:Hr; [reflexivity|].
  apply lstrip_blank. exact H1.
Qed.

Lemma existsb_eqb (f : string -> string) (x : string) (posts : list string) :
  existsb (fun post => String.eqb (f post) x) posts = true <->
  exists post, In post posts /\ f post = x.
Proof.
  rewrite existsb_exists. split; intros (post & Hin & H); exists post;
    (split; [exact Hin|]); apply String.eqb_eq; exact H.
Qed.


(** * Instances *)

Lemma bot_mood_by_price_change_witness :
  determine_advanced_mood (chain_indicators rising_chain) = Py.Ok BULLISH /\
  determine_advanced_mood (chain_indicators dipping_chain) = Py.Ok RECOVERING.
Proof.
  split.
  - apply (bot_mood_by_price_change rising_chain). vm_compute. reflexivity.
  - apply (bot_mood_by_price_change dipping_chain). split; vm_compute; [discriminate | reflexivity].
Defined.

Lemma mood_needs_its_rule_witness :
  -2 <= price_change flat_market <= 2.
Proof.
  apply (mood_needs_its_rule flat_market). reflexivity.
Defined.

Lemma sample_volumes_nonneg (chain : string) (data : Snapshot) :
  opposite_moves !! chain = Some data -> 0 <= volume data.
Proof.
  unfold opposite_moves. intros H.
  apply lookup_insert_Some in H. destruct H as [[_ <-]|[_ H]]; [vm_compute; discriminate|].
  apply lookup_insert_Some in H. destruct H as [[_ <-]|[_ H]]; [vm_compute; discriminate|].
  rewrite lookup_empty in H. discriminate.
Qed.

Lemma correlations_bounded_witness :
  0 <= volume_correlation (fst (_calculate_correlations empty_db opposite_moves)).
Proof.
  apply (correlations_bounded empty_db opposite_moves). exact sample_volumes_nonneg.
Defined.

Lemma correlations_failure_policy_witness :
  _calculate_correlations empty_db ∅ = (fallback_correlations, empty_db) /\
  length (correlation_analysis (snd (_calculate_correlations empty_db equal_moves))) = 1%nat.
Proof.
  split.
  - apply (correlations_failure_policy empty_db ∅). left. reflexivity.
  - rewrite (proj2 (correlations_failure_policy empty_db equal_moves)); [reflexivity|].
    exists (snapshot 100 1000 5 50000), (snapshot 10 1000 5 10000).
    split; [reflexivity|]. split; [reflexivity|].
    split; [intros [H _]; vm_compute in H; discriminate H|].
    split; vm_compute; discriminate.
Defined.

Lemma correlations_symmetric_witness :
  price_correlation (fst (_calculate_correlations empty_db opposite_moves))
  == price_correlation (fst (_calculate_correlations empty_db opposite_moves_swapped)).
Proof.
  apply (correlations_symmetric empty_db empty_db opposite_moves opposite_moves_swapped
           (snapshot 100 1000 5 50000) (snapshot 10 1000 (-5) 10000));
    try reflexivity; vm_compute; discriminate.
Defined.

Lemma trigger_priority_witness :
  _should_post_update sample_config 60 no_history bot_with_baseline threshold_move
  = (set_last_market_data bot_with_baseline threshold_move,
     Py.Ok (true, Some "price_change_sol")) /\
  _should_post_update sample_config 60 sol_volume_history bot_with_baseline dot_jump
  = (set_last_market_data bot_with_baseline dot_jump,
     Py.Ok (true, Some "volume_trend_sol_significant_increase")) /\
  _should_post_update sample_config 60 no_history bot_with_baseline dot_jump
  = (set_last_market_data bot_with_baseline dot_jump,
     Py.Ok (true, Some "price_change_dot")).
Proof.
  split; [|split].
  - apply (trigger_priority sample_config 60 no_history bot_with_baseline threshold_move
             (snapshot 105 1000 1 50000) (snapshot 100 1000 1 50000));
      try reflexivity; vm_compute; discriminate.
  - apply (proj1 (proj2 (proj2
             (trigger_priority sample_config 60 sol_volume_history bot_with_baseline
                dot_jump (snapshot 101 1000 1 50000) (snapshot 100 1000 1 50000)
                eq_refl eq_refl ltac:(vm_compute; discriminate)
                ltac:(vm_compute; discriminate))))).
    + reflexivity.
    + reflexivity.
    + split; [discriminate | left; reflexivity].
  - apply (proj1 (proj2 (proj2 (proj2
             (trigger_priority sample_config 60 no_history bot_with_baseline
                dot_jump (snapshot 101 1000 1 50000) (snapshot 100 1000 1 50000)
                eq_refl eq_refl ltac:(vm_compute; discriminate)
                ltac:(vm_compute; discriminate)))))
             ltac:(reflexivity) ltac:(reflexivity)
             ltac:(intros [Hne _]; apply Hne; reflexivity)
             (snapshot 20 1000 1 10000) (snapshot 10 1000 1 10000));
      try reflexivity; vm_compute; discriminate.
Defined.

Lemma trigger_zero_baseline_raises_witness :
  _should_post_update sample_config 60 no_history bot_with_zero_volume threshold_move
  = (bot_with_zero_volume, Py.Raise Py.ZeroDivisionError).
Proof.
  apply (trigger_zero_baseline_raises sample_config 60 no_history bot_with_zero_volume
           threshold_move (snapshot 105 1000 1 50000) (snapshot 100 0 1 50000));
    try reflexivity. right. reflexivity.
Defined.

Lemma baseline_snapshots_sound (chain : string) (new last : Snapshot) :
  baseline !! chain = Some new -> baseline !! chain = Some last ->
  current_price new == current_price last /\ volume new == volume last /\
  ~ current_price last == 0 /\ ~ volume last == 0.
Proof.
  intros Hnew Hlast. rewrite Hnew in Hlast. injection Hlast as <-.
  unfold baseline in Hnew.
  apply lookup_insert_Some in Hnew. destruct Hnew as [[_ <-]|[_ Hnew]];
    [repeat split; try reflexivity; vm_compute; discriminate|].
  apply lookup_insert_Some in Hnew. destruct Hnew as [[_ <-]|[_ Hnew]];
    [repeat split; try reflexivity; vm_compute; discriminate|].
  rewrite lookup_empty in Hnew. discriminate.
Qed.

Lemma unchanged_market_posts_on_schedule_witness :
  _should_post_update sample_config 3600 no_history bot_with_baseline baseline
  = (set_last_market_data bot_with_baseline baseline,
     Py.Ok (true, Some "regular_interval")) /\
  _should_post_update sample_config 3599 no_history bot_with_baseline baseline
  = (bot_with_baseline, Py.Ok (false, None)).
Proof.
  assert (Hne : last_market_data bot_with_baseline <> ∅).
  { intros H. apply (f_equal (fun m => m !! "SOL")) in H. vm_compute in H. discriminate H. }
  split.
  - apply (unchanged_market_posts_on_schedule sample_config 3600 no_history
             bot_with_baseline baseline); try reflexivity;
      [exact Hne | exact baseline_snapshots_sound | vm_compute; discriminate].
  - apply (unchanged_market_posts_on_schedule sample_config 3599 no_history
             bot_with_baseline baseline); try reflexivity;
      [exact Hne | exact baseline_snapshots_sound].
Defined.

Lemma callback_only_sets_pending_outcomes_witness :
  past_predictions
    (fst (_get_spicy_callback 3600 3601 0 bot_with_judged_prediction prices_after_drop))
    !! 0%nat = Some judged_prediction.
Proof.
  apply (callback_only_sets_pending_outcomes 3600 3601 0 bot_with_judged_prediction
           prices_after_drop) with (o := "right"); reflexivity.
Defined.

Lemma callback_reports_latest_wrong_witness :
  Forall (fun p => is_recent 3600 p = true -> p_outcome p <> None)
    (past_predictions
       (fst (_get_spicy_callback 3600 3601 0 bot_with_prediction prices_after_drop))).
Proof.
  apply (callback_reports_latest_wrong 3600 3601 0 bot_with_prediction
           (fst (_get_spicy_callback 3600 3601 0 bot_with_prediction prices_after_drop))
           prices_after_drop
           (Some "(Unlike my galaxy-brain take 1h ago about SOL to the moon... this time I'm sure!)")).
  vm_compute. reflexivity.
Defined.

Lemma callback_validates_once_witness :
  exists result',
    _get_spicy_callback 7200 7201 1
      (fst (_get_spicy_callback 3600 3601 0 bot_with_prediction prices_after_drop))
      prices_after_crash
    = (fst (_get_spicy_callback 3600 3601 0 bot_with_prediction prices_after_drop),
       Py.Ok result').
Proof.
  apply (callback_validates_once 3600 3601 7200 7201 0 1 bot_with_prediction
           (fst (_get_spicy_callback 3600 3601 0 bot_with_prediction prices_after_drop))
           prices_after_drop prices_after_crash
           (Some "(Unlike my galaxy-brain take 1h ago about SOL to the moon... this time I'm sure!)")).
  - vm_compute. reflexivity.
  - vm_compute. discriminate.
Defined.

Lemma format_tweet_length_witness :
  (Z.of_nat (String.length (_format_tweet_analysis 280 "SOL and DOT drift sideways"))
   <= 260)%Z /\
  Z.of_nat (String.length
              (_format_tweet_analysis 60 "SOL and DOT drift sideways, nothing to see here"))
  = 69%Z.
Proof.
  split.
  - apply (format_tweet_length 280 "SOL and DOT drift sideways"). lia.
  - apply (format_tweet_length 60 "SOL and DOT drift sideways, nothing to see here");
      simpl; lia.
Defined.

Lemma trigger_reason_codes_witness :
  triggered_chain_and_trend "volume_trend_sol_significant_increase"
  = Some ("SOL", "significant") /\
  In "price_change_sol"
    ["initial_post"; "regular_interval";
     "price_change_sol"; "volume_change_sol";
     "volume_trend_sol_significant_increase"; "volume_trend_sol_significant_decrease";
     "price_change_dot"; "volume_change_dot";
     "volume_trend_dot_significant_increase"; "volume_trend_dot_significant_decrease"].
Proof.
  split; [reflexivity|].
  apply (trigger_reason_codes sample_config 60 no_history bot_with_baseline
           (set_last_market_data bot_with_baseline threshold_move) threshold_move
           "price_change_sol").
  reflexivity.
Defined.

Lemma fetch_then_fetch_again_witness :
  exists entry,
    CoinGecko.data entry = "[]" /\
    CoinGecko.get_market_data (fun _ => CoinGecko.OtherException) "markets_{}" 3
      (CoinGecko.at_time 1700000059
         (fst (CoinGecko.get_market_data (fun _ => CoinGecko.Responded ok_response)
                 "markets_{}" 3 fresh_handler)))
    = (CoinGecko.at_time 1700000059
         (fst (CoinGecko.get_market_data (fun _ => CoinGecko.Responded ok_response)
                 "markets_{}" 3 fresh_handler)),
       Some "[]").
Proof.
  destruct (fetch_then_fetch_again (fun _ => CoinGecko.Responded ok_response) "markets_{}" 3
              fresh_handler
              (fst (CoinGecko.get_market_data (fun _ => CoinGecko.Responded ok_response)
                      "markets_{}" 3 fresh_handler))
              "[]") as (entry & Hentry & Hdata & Hagain).
  - reflexivity.
  - exists entry. split; [exact Hdata|].
    apply (Hagain 1700000059 (fun _ => CoinGecko.OtherException) 3%nat).
    vm_compute in Hentry. injection Hentry as <-. vm_compute. reflexivity.
Defined.

Lemma clean_cache_keeps_live_entries_witness :
  CoinGecko.cache (CoinGecko._clean_old_cache warm_handler) !! "markets_{}"
  = CoinGecko.cache warm_handler !! "markets_{}".
Proof.
  apply (proj1 (proj2 (proj2 (clean_cache_keeps_live_entries warm_handler "markets_{}")))).
  reflexivity.
Defined.

Lemma fetch_respects_min_interval_witness :
  CoinGecko.last_request_time fresh_handler + CoinGecko.min_request_interval fresh_handler
  <= CoinGecko.last_request_time
       (fst (CoinGecko.get_market_data (fun _ => CoinGecko.Responded bare_429)
               "markets_{}" 3 fresh_handler)).
Proof.
  apply (fetch_respects_min_interval (fun _ => CoinGecko.Responded bare_429)
           "markets_{}" 3 fresh_handler).
  - vm_compute. discriminate.
  - reflexivity.
  - lia.
Defined.

Lemma rate_limit_headers_update_witness :
  CoinGecko.rate_limit_remaining (CoinGecko._update_rate_limits bare_429 fresh_handler)
  = Some 0%Z /\
  CoinGecko.rate_limit_reset_at (CoinGecko._update_rate_limits ok_response fresh_handler)
  = Some (inject_Z 1700000060) /\
  CoinGecko.rate_limit_reset_at
    (CoinGecko._update_rate_limits (timed_429 (-62135596800)) fresh_handler)
  = CoinGecko.rate_limit_reset_at fresh_handler.
Proof.
  split; [|split].
  - apply (proj1 (proj2 (rate_limit_headers_update bare_429 fresh_handler))). reflexivity.
  - destruct (proj2 (proj2 (proj2 (rate_limit_headers_update ok_response fresh_handler))))
      as (_ & Hreset & _).
    + discriminate.
    + apply Hreset; reflexivity.
  - destruct (proj2 (proj2 (proj2 (rate_limit_headers_update (timed_429 (-62135596800))
                                     fresh_handler))))
      as (_ & _ & Hstale & _).
    + discriminate.
    + apply (Hstale (-62135596800)%Z); reflexivity.
Defined.

Lemma fetch_outcomes_witness :
  snd (CoinGecko.get_market_data (fun _ => CoinGecko.Responded bare_429) "markets_{}" 3
         fresh_handler) = None.
Proof.
  refine (proj1 (proj2 (fetch_outcomes (fun _ => CoinGecko.Responded bare_429) "markets_{}" 3
                          fresh_handler) _ _)).
  - reflexivity.
  - intros j _. simpl. discriminate.
Defined.

Lemma track_prediction_prices_witness :
  exists prices,
    NoDup (map fst prices) /\
    forall chain price,
      In (chain, price) prices <->
      In chain ["SOL"; "DOT"; "SOL"] /\
      price_fields new_prediction !! (Py.upper chain +:+ "_price") = Some price.
Proof.
  destruct (proj1 (track_prediction_prices 0 0 fresh_bot new_prediction ["SOL"; "DOT"; "SOL"]))
    as (prices & _ & Hnd & Hiff).
  - intros chain [<-|[<-|[<-|[]]]]; vm_compute; eauto.
  - vm_compute. reflexivity.
  - exists prices. split; [exact Hnd | exact Hiff].
Defined.

Lemma volume_trend_order_independent_witness :
  snd (_analyze_volume_trend sample_config 330 [point 100; point 200])
  = snd (_analyze_volume_trend sample_config 330 [point 200; point 100]).
Proof.
  apply (volume_trend_order_independent sample_config 330
           [point 100; point 200] [point 200; point 100]).
  simpl. apply perm_swap.
Defined.

